(** * SMS verification-code service (modules/base/common/service_sms.go)

    A shallow embedding of [SMSService.SendVerifyCode] and
    [SMSService.Verify] together with the collaborators they talk to:
    the redis connection ([GetString], [SetAndExpire], [Del]), the
    [crypto/rand] reader and the SMS provider.  The two methods are
    written as programs over these operations, so that the same text can
    be run sequentially against a store or interleaved with another call
    at the granularity of single store commands.  The second part embeds
    the query and deletion methods of the message service (package
    [message]). *)

From Stdlib Require Import ZArith Lia Ascii String List.
From stdpp Require Import base option gmap strings list fin_maps.

Local Open Scope Z_scope.

(** ** Go's [int], [strconv.Atoi] and the [%d] verb *)

Module GoInt.

(** [int] is 64 bits wide on the platforms the server is built for:
    two's-complement wrap-around of an arithmetic result. *)
Definition wrap (z : Z) : Z := (z + 2 ^ 63) mod 2 ^ 64 - 2 ^ 63.

(** [failCount++] *)
Definition incr (n : Z) : Z := wrap (n + 1).

Definition digit_char (d : Z) : ascii := ascii_of_N (48 + Z.to_N d).

Definition digit_val (c : ascii) : option Z :=
  let n := Z.of_N (N_of_ascii c) in
  if (48 <=? n) && (n <=? 57) then Some (n - 48) else None.

(** Decimal digits of a non-negative number, most significant first;
    [fuel] bounds the number of digits. *)
Fixpoint utoa_go (fuel : nat) (n : Z) (acc : string) : string :=
  match fuel with
  | O => acc
  | S fuel' =>
      let acc' := String (digit_char (n mod 10)) acc in
      if n / 10 =? 0 then acc' else utoa_go fuel' (n / 10) acc'
  end.

(** A number has no more decimal digits than binary ones. *)
Definition utoa (n : Z) : string := utoa_go (S (Z.to_nat (Z.log2 n))) n "".

(** [fmt.Sprintf("%d", n)] *)
Definition itoa (n : Z) : string :=
  if n <? 0 then String "-"%char (utoa (- n)) else utoa n.

Fixpoint parse_digits (s : string) (acc : Z) : option Z :=
  match s with
  | EmptyString => Some acc
  | String c rest =>
      match digit_val c with
      | Some d => parse_digits rest (acc * 10 + d)
      | None => None
      end
  end.

(** [strconv.Atoi]: an optional sign, at least one decimal digit,
    nothing else, and a value that fits an [int].  [None] stands for a
    non-nil [err]. *)
Definition Atoi (s : string) : option Z :=
  match s with
  | EmptyString => None
  | String c rest =>
      let neg := Ascii.eqb c "-" in
      let body := if neg || Ascii.eqb c "+" then rest else s in
      match body with
      | EmptyString => None
      | _ =>
          match parse_digits body 0 with
          | None => None
          | Some un =>
              if neg
              then (if un <=? 2 ^ 63 then Some (- un) else None)
              else (if un <? 2 ^ 63 then Some un else None)
          end
      end
  end.

End GoInt.

(** ** [crypto/subtle] *)

Module Subtle.

Definition byte_val (c : ascii) : Z := Z.of_N (N_of_ascii c).

(** [ConstantTimeByteEq(x, y) = int((uint32(x^y) - 1) >> 31)] *)
Definition ConstantTimeByteEq (x y : Z) : Z :=
  Z.shiftr ((Z.lxor x y - 1) mod 2 ^ 32) 31.

(** The loop [v |= x[i] ^ y[i]] over two byte strings. *)
Fixpoint fold_diff (x y : string) (v : Z) : Z :=
  match x, y with
  | String a x', String b y' =>
      fold_diff x' y' (Z.lor v (Z.lxor (byte_val a) (byte_val b)))
  | _, _ => v
  end.

Definition ConstantTimeCompare (x y : string) : Z :=
  if negb (Nat.eqb (String.length x) (String.length y)) then 0
  else ConstantTimeByteEq (fold_diff x y 0) 0.

End Subtle.

(** ** Errors *)

(** The error values the two methods can return.  The service builds its own
    with [errors.New]; the message is given next to each constructor. *)
Inductive error : Type :=
  | errRedis          (* an error reported by the redis connection *)
  | errProvider       (* an error reported by ISMSProvider.SendSMS *)
  | errRandReader     (* an error reported by crypto/rand *)
  | errTooFrequent    (* 发送过于频繁，请1分钟后再试 *)
  | errNoSMSProvider  (* 没有找到短信提供商！ *)
  | errSystem         (* 系统错误，请稍后重试 *)
  | errLocked         (* 验证失败次数过多，请10分钟后再试 *)
  | errLockedNow      (* 验证失败次数过多，已锁定10分钟 *)
  | errInvalidCode.   (* 验证码无效！ *)

(** The failure kinds of the specification's taxonomy. *)
Inductive Kind : Type :=
  | RateLimited | NoProviderConfigured | DeliveryFailed | InvalidCode
  | TooManyAttempts | StoreUnavailable | SystemError.

Definition kind (e : error) : Kind :=
  match e with
  | errRedis => StoreUnavailable
  | errProvider => DeliveryFailed
  | errRandReader => SystemError
  | errTooFrequent => RateLimited
  | errNoSMSProvider => NoProviderConfigured
  | errSystem => SystemError
  | errLocked => TooManyAttempts
  | errLockedNow => TooManyAttempts
  | errInvalidCode => InvalidCode
  end.

(** ** Configuration and providers *)

(** [config.SMSProvider]: the three names the switch knows, and any other
    value of the setting (the empty one included). *)
Inductive SMSProviderName : Type :=
  | SMSProviderAliyun | SMSProviderUnisms | SMSProviderSmsbao
  | SMSProviderOther.

Record Config : Type := mkConfig {
  SMSProvider : SMSProviderName;
  AliyunInternationalSMS_AccessKeyID : string
}.

(** The implementations of [ISMSProvider] the service can construct. *)
Inductive ISMSProvider : Type :=
  | AliyunInternationalProvider | AliyunProvider
  | UnismsProvider | SmsbaoProvider.

(** ** Programs over the collaborators *)

(** One constructor per call that leaves the service: the three redis
    commands, one draw from [crypto/rand] and one delivery.  Results follow
    Go's conventions: a value paired with an [error] that is [None] for
    nil. *)
Inductive Prog (A : Type) : Type :=
  | Ret (a : A)
  | OpGetString (key : string) (k : string * option error → Prog A)
  | OpSetAndExpire (key value : string) (ttl : Z) (k : option error → Prog A)
  | OpDel (key : string) (k : option error → Prog A)
  | OpRandInt (max : Z) (k : Z * option error → Prog A)
  | OpSendSMS (p : ISMSProvider) (zone phone code : string)
      (k : option error → Prog A).

Arguments Ret {A} a.
Arguments OpGetString {A} key k.
Arguments OpSetAndExpire {A} key value ttl k.
Arguments OpDel {A} key k.
Arguments OpRandInt {A} max k.
Arguments OpSendSMS {A} p zone phone code k.

Fixpoint bind {A B : Type} (p : Prog A) (f : A → Prog B) : Prog B :=
  match p with
  | Ret a => f a
  | OpGetString key k => OpGetString key (λ r, bind (k r) f)
  | OpSetAndExpire key v ttl k => OpSetAndExpire key v ttl (λ r, bind (k r) f)
  | OpDel key k => OpDel key (λ r, bind (k r) f)
  | OpRandInt max k => OpRandInt max (λ r, bind (k r) f)
  | OpSendSMS p z ph c k => OpSendSMS p z ph c (λ r, bind (k r) f)
  end.

#[global] Instance Prog_ret : MRet Prog := λ A a, Ret a.
#[global] Instance Prog_bind : MBind Prog := λ A B f p, bind p f.

Definition GetString (key : string) : Prog (string * option error) :=
  OpGetString key Ret.
Definition SetAndExpire (key value : string) (ttl : Z) : Prog (option error) :=
  OpSetAndExpire key value ttl Ret.
Definition Del (key : string) : Prog (option error) := OpDel key Ret.
Definition RandInt (max : Z) : Prog (Z * option error) := OpRandInt max Ret.
Definition SendSMS (p : ISMSProvider) (zone phone code : string)
  : Prog (option error) := OpSendSMS p zone phone code Ret.

(** [time.Minute], with one second as the unit of time. *)
Definition Minute : Z := 60.

(** ** The world a call runs in *)

(** What a call leaves behind in the order it happened. *)
Inductive Event : Type :=
  | EvGet (key : string)
  | EvSet (key value : string) (ttl : Z)
  | EvDel (key : string)
  | EvRand
  | EvSend (p : ISMSProvider) (zone phone code : string).

(** The redis store holds, per key, a value and the instant at which it
    expires; an expired entry is invisible to reads.  [faults] decides, one
    entry per outgoing call, whether that call reports an error ([true]);
    past its end no call fails.  A call that reports an error has no effect.
    [entropy] feeds [crypto/rand]. *)
Record World : Type := mkWorld {
  now : Z;
  kv : gmap string (string * Z);
  faults : list bool;
  entropy : list Z;
  trace : list Event
}.

(** The fault decision of the call made [n] calls from now; the next call
    is number 0. *)
Definition fault_at (n : nat) (w : World) : bool := nth n (faults w) false.

(** Account for one outgoing call: consume its fault decision, log it. *)
Definition called (ev : Event) (w : World) : World :=
  mkWorld (now w) (kv w) (tl (faults w)) (entropy w) (trace w ++ [ev]).

Definition with_kv (m : gmap string (string * Z)) (w : World) : World :=
  mkWorld (now w) m (faults w) (entropy w) (trace w).

(** Time passing between two calls. *)
Definition advance (d : Z) (w : World) : World :=
  mkWorld (now w + d) (kv w) (faults w) (entropy w) (trace w).

(** What a successful read of [key] returns: the value while it has not
    expired, the empty string otherwise (the connection turns redis' nil
    reply into an empty string without an error). *)
Definition live (w : World) (key : string) : string :=
  match kv w !! key with
  | Some (v, expiry) => if now w <? expiry then v else ""
  | None => ""
  end.

Definition do_GetString (key : string) (w : World)
  : (string * option error) * World :=
  if fault_at 0 w then (("", Some errRedis), called (EvGet key) w)
  else ((live w key, None), called (EvGet key) w).

Definition do_SetAndExpire (key value : string) (ttl : Z) (w : World)
  : option error * World :=
  if fault_at 0 w then (Some errRedis, called (EvSet key value ttl) w)
  else (None, called (EvSet key value ttl)
                (with_kv (<[key := (value, now w + ttl)]> (kv w)) w)).

Definition do_Del (key : string) (w : World) : option error * World :=
  if fault_at 0 w then (Some errRedis, called (EvDel key) w)
  else (None, called (EvDel key) (with_kv (delete key (kv w)) w)).

Definition do_RandInt (max : Z) (w : World) : (Z * option error) * World :=
  let w' := called EvRand w in
  if fault_at 0 w then ((0, Some errRandReader), w')
  else ((hd 0 (entropy w) mod max, None),
        mkWorld (now w') (kv w') (faults w') (tl (entropy w')) (trace w')).

Definition do_SendSMS (p : ISMSProvider) (zone phone code : string) (w : World)
  : option error * World :=
  (if fault_at 0 w then Some errProvider else None,
   called (EvSend p zone phone code) w).

(** Sequential execution: every operation runs to completion on the world
    the previous one left. *)
Fixpoint run {A : Type} (p : Prog A) (w : World) : A * World :=
  match p with
  | Ret a => (a, w)
  | OpGetString key k => let '(r, w') := do_GetString key w in run (k r) w'
  | OpSetAndExpire key v ttl k =>
      let '(r, w') := do_SetAndExpire key v ttl w in run (k r) w'
  | OpDel key k => let '(r, w') := do_Del key w in run (k r) w'
  | OpRandInt max k => let '(r, w') := do_RandInt max w in run (k r) w'
  | OpSendSMS p z ph c k =>
      let '(r, w') := do_SendSMS p z ph c w in run (k r) w'
  end.

(** One store command of a program, for interleaved execution. *)
Definition step {A : Type} (p : Prog A) (w : World) : Prog A * World :=
  match p with
  | Ret a => (Ret a, w)
  | OpGetString key k => let '(r, w') := do_GetString key w in (k r, w')
  | OpSetAndExpire key v ttl k =>
      let '(r, w') := do_SetAndExpire key v ttl w in (k r, w')
  | OpDel key k => let '(r, w') := do_Del key w in (k r, w')
  | OpRandInt max k => let '(r, w') := do_RandInt max w in (k r, w')
  | OpSendSMS p z ph c k => let '(r, w') := do_SendSMS p z ph c w in (k r, w')
  end.

(** Two calls served by two workers.  The schedule names, command by
    command, the worker that moves next ([true] for the first); when it is
    used up the first call is completed, then the second. *)
Fixpoint run_par {A B : Type} (sched : list bool) (p : Prog A) (q : Prog B)
    (w : World) : (A * B) * World :=
  match sched with
  | [] =>
      let '(a, w1) := run p w in
      let '(b, w2) := run q w1 in ((a, b), w2)
  | true :: sched' => let '(p', w') := step p w in run_par sched' p' q w'
  | false :: sched' => let '(q', w') := step q w in run_par sched' p q' w'
  end.

(** The count [Verify] takes from what it read under the failure-count key
    (the value of [failCount] just before [failCount++]). *)
Definition storedFailCount (failCountStr : string) : Z :=
  if negb (String.eqb failCountStr "") then
    match GoInt.Atoi failCountStr with
    | Some count => count
    | None => 0
    end
  else 0.

(** A world in which no outgoing call reports an error. *)
Definition healthy (w : World) : Prop := Forall (λ b, b = false) (faults w).

(** ** The service *)

Section SMSService.

(** [CacheKeySMSCode], a string constant of package [common] declared
    outside this file. *)
Variable CacheKeySMSCode : string.

(** The service's [config.Context], as far as the two methods read it. *)
Variable cfg : Config.

Definition rateLimitKey (zone phone : string) : string :=
  "sms_rate_limit:" +:+ zone +:+ "@" +:+ phone.

Definition lockKey (zone phone : string) : string :=
  "sms_verify_lock:" +:+ zone +:+ "@" +:+ phone.

Definition failCountKey (zone phone : string) : string :=
  "sms_verify_fail:" +:+ zone +:+ "@" +:+ phone.

(** [fmt.Sprintf("%s%d@%s@%s", CacheKeySMSCode, codeType, zone, phone)] *)
Definition cacheKey (codeType : Z) (zone phone : string) : string :=
  CacheKeySMSCode +:+ GoInt.itoa codeType +:+ "@" +:+ zone +:+ "@" +:+ phone.

(** The switch on [SMSProvider]; [None] is the nil interface value. *)
Definition resolveProvider (zone : string) : option ISMSProvider :=
  match SMSProvider cfg with
  | SMSProviderAliyun =>
      if negb (String.eqb zone "0086")
         && negb (String.eqb (AliyunInternationalSMS_AccessKeyID cfg) "")
      then Some AliyunInternationalProvider
      else Some AliyunProvider
  | SMSProviderUnisms => Some UnismsProvider
  | SMSProviderSmsbao => Some SmsbaoProvider
  | SMSProviderOther => None
  end.

Definition digits : string := "0123456789".

(** The loop of [generateSecureVerifyCode]: [n] more digits to draw. *)
Fixpoint generateLoop (n : nat) (result : string)
  : Prog (string * option error) :=
  match n with
  | O => Ret (result, None)
  | S n' =>
      '(num, err) ← RandInt (Z.of_nat (String.length digits));
      match err with
      | Some e => Ret ("", Some e)
      | None =>
          let c := default "0"%char (String.get (Z.to_nat num) digits) in
          generateLoop n' (result +:+ String c "")
      end
  end.

Definition generateSecureVerifyCode (length : nat)
  : Prog (string * option error) :=
  generateLoop length "".

Definition SendVerifyCode (zone phone : string) (codeType : Z)
  : Prog (option error) :=
  let rateLimitKey := rateLimitKey zone phone in
  '(exists_, err) ← GetString rateLimitKey;
  match err with
  | Some e => Ret (Some e)
  | None =>
  if negb (String.eqb exists_ "") then Ret (Some errTooFrequent) else
  match resolveProvider zone with
  | None => Ret (Some errNoSMSProvider)
  | Some smsProvider =>
  '(verifyCode, err) ← generateSecureVerifyCode 4;
  match err with
  | Some _ => Ret (Some errSystem)
  | None =>
  let cacheKey := cacheKey codeType zone phone in
  err ← SetAndExpire cacheKey verifyCode (Minute * 5);
  match err with
  | Some e => Ret (Some e)
  | None =>
  err ← SetAndExpire rateLimitKey "1" Minute;
  match err with
  | Some e => Ret (Some e)
  | None => SendSMS smsProvider zone phone verifyCode
  end end end end end.

Definition Verify (zone phone code : string) (codeType : Z)
  : Prog (option error) :=
  let lockKey := lockKey zone phone in
  '(locked, err) ← GetString lockKey;
  match err with
  | Some e => Ret (Some e)
  | None =>
  if negb (String.eqb locked "") then Ret (Some errLocked) else
  let cacheKey := cacheKey codeType zone phone in
  '(sysCode, err) ← GetString cacheKey;
  match err with
  | Some e => Ret (Some e)
  | None =>
  if negb (String.eqb sysCode "")
     && (Subtle.ConstantTimeCompare sysCode code =? 1)
  then
    _ ← Del cacheKey;
    let failCountKey := failCountKey zone phone in
    _ ← Del failCountKey;
    _ ← Del lockKey;
    Ret None
  else
    let failCountKey := failCountKey zone phone in
    '(failCountStr, _) ← GetString failCountKey;
    let failCount := 0 in
    let failCount :=
      if negb (String.eqb failCountStr "") then
        match GoInt.Atoi failCountStr with
        | Some count => count
        | None => failCount
        end
      else failCount in
    let failCount := GoInt.incr failCount in
    if 3 <=? failCount then
      _ ← SetAndExpire lockKey "1" (Minute * 10);
      Ret (Some errLockedNow)
    else
      _ ← SetAndExpire failCountKey (GoInt.itoa failCount) (Minute * 10);
      Ret (Some errInvalidCode)
  end end.

(** The calls the request layer makes. *)
Inductive Call : Type :=
  | CallSendVerifyCode (zone phone : string) (codeType : Z)
  | CallVerify (zone phone code : string) (codeType : Z).

Definition perform (c : Call) : Prog (option error) :=
  match c with
  | CallSendVerifyCode zone phone codeType => SendVerifyCode zone phone codeType
  | CallVerify zone phone code codeType => Verify zone phone code codeType
  end.

(** The states of the store this service, under this configuration, brings
    about from an empty store: calls served one at a time, time passing in
    between, every pattern of faults and random draws. *)
Inductive reachable : World → Prop :=
  | reachable_start t fl en : reachable (mkWorld t ∅ fl en [])
  | reachable_call c w : reachable w → reachable (run (perform c) w).2
  | reachable_wait d w : 0 ≤ d → reachable w → reachable (advance d w).

End SMSService.

(** ** A concrete scenario *)

(** The identity and purpose of the specification's worked example, a
    sample value for [CacheKeySMSCode], and a few states of the store at
    time 1000. *)
Module Scenario.

Definition smscode : string := "smscode:".
Definition zone : string := "0086".
Definition phone : string := "13800000000".
Definition login : Z := 1.

Definition unisms : Config := mkConfig SMSProviderUnisms "".
Definition unconfigured : Config := mkConfig SMSProviderOther "".

(** Nothing stored, no faults ahead. *)
Definition fresh : World := mkWorld 1000 ∅ [] [3; 4; 5; 2] [].

(** Just after code 3452 was issued for [login]. *)
Definition issued : World :=
  mkWorld 1000
    (<["sms_rate_limit:0086@13800000000" := ("1", 1060)]>
       (<["smscode:1@0086@13800000000" := ("3452", 1300)]> ∅))
    [] [] [].

(** The same, with the identity locked out. *)
Definition locked : World :=
  mkWorld 1000
    (<["sms_verify_lock:0086@13800000000" := ("1", 1600)]> (kv issued))
    [] [] [].

(** Two failures on record. *)
Definition twice_failed : World :=
  mkWorld 1000 (<["sms_verify_fail:0086@13800000000" := ("2", 1500)]> ∅)
    [] [] [].

(** Code 3452 issued; the next delete of the code will fail. *)
Definition delete_fails : World :=
  mkWorld 1000 (kv issued) [false; false; true; false; false] [] [].

(** Nothing stored; the read of the failure count will fail. *)
Definition count_read_fails : World :=
  mkWorld 1000 ∅ [false; false; true] [] [].

(** Something that is not a number under the failure-count key. *)
Definition count_garbled : World :=
  mkWorld 1000 (<["sms_verify_fail:0086@13800000000" := ("abc", 1500)]> ∅)
    [] [] [].

(** Nothing stored; the delivery will fail. *)
Definition delivery_fails : World :=
  mkWorld 1000 ∅ [false; false; false; false; false; false; false; true]
    [3; 4; 5; 2] [].

(** Both workers read before either writes. *)
Definition overlap : list bool := [true; true; true; false; false; false].

End Scenario.

(** ** Summaries of a call *)

(** The world [n] outgoing calls later: the calls logged as [evs], the store
    now holding [m]. *)
Definition after (n : nat) (evs : list Event) (m : gmap string (string * Z))
    (w : World) : World :=
  mkWorld (now w) m (Nat.iter n tl (faults w)) (entropy w) (trace w ++ evs).

(** The effect of a write or a delete that may have failed. *)
Definition set_unless (failed : bool) (key value : string) (expiry : Z)
    (m : gmap string (string * Z)) : gmap string (string * Z) :=
  if failed then m else <[key := (value, expiry)]> m.

Definition del_unless (failed : bool) (key : string)
    (m : gmap string (string * Z)) : gmap string (string * Z) :=
  if failed then m else delete key m.

(** A string of decimal digits. *)
Fixpoint is_digits (s : string) : bool :=
  match s with
  | EmptyString => true
  | String c rest => bool_decide (is_Some (GoInt.digit_val c)) && is_digits rest
  end.

(** The key a logged call is about, if it is a store command. *)
Definition event_key (ev : Event) : option string :=
  match ev with
  | EvGet key | EvSet key _ _ | EvDel key => Some key
  | EvRand | EvSend _ _ _ _ => None
  end.


(** ** Sessions *)

(** A world none of whose future calls reports an error. *)
Definition calm (w : World) : Prop := ∀ i, fault_at i w = false.

(** Every stored entry expires within ten minutes. *)
Definition short_lived (w : World) : Prop :=
  map_Forall (λ (_ : string) (ve : string * Z), ve.2 ≤ now w + 10 * Minute)
    (kv w).

Definition identity (c : Call) : string * string :=
  match c with
  | CallSendVerifyCode zone phone _ | CallVerify zone phone _ _ => (zone, phone)
  end.

(** The time a list of delayed calls takes. *)
Definition elapsed (cs : list (Z * Call)) : Z :=
  foldr (λ dc t, dc.1 + t) 0 cs.

(** A verification answered on the code presented: one that failed for
    another reason than a lockout in force or an unreadable store. *)
Definition is_guess (cr : Call * option error) : bool :=
  match cr with
  | (CallVerify _ _ _ _, Some errInvalidCode)
  | (CallVerify _ _ _ _, Some errLockedNow) => true
  | _ => false
  end.

Definition accepted (cr : Call * option error) : bool :=
  match cr with
  | (CallVerify _ _ _ _, None) => true
  | _ => false
  end.

Section Sessions.

Variable CacheKeySMSCode : string.
Variable cfg : Config.

(** Calls served one after the other, each after a delay: the calls with
    their results, and the final state. *)
Fixpoint serve (cs : list (Z * Call)) (w : World)
  : list (Call * option error) * World :=
  match cs with
  | [] => ([], w)
  | (d, c) :: cs' =>
      let r := run (perform CacheKeySMSCode cfg c) (advance d w) in
      let rest := serve cs' r.2 in
      ((c, r.1) :: rest.1, rest.2)
  end.

(** How far the failure counting of an identity has got, seen from a
    session that ends before [E]: [k] failures on record until then, or,
    from three on, the lockout in force until then. *)
Definition phase (zone phone : string) (k : nat) (E : Z) (w : World) : Prop :=
  match k with
  | O => live w (failCountKey zone phone) = ""
  | 1%nat | 2%nat =>
      ∃ e, kv w !! failCountKey zone phone = Some (GoInt.itoa (Z.of_nat k), e)
           ∧ E ≤ e
  | _ =>
      ∃ v e, kv w !! lockKey zone phone = Some (v, e) ∧ v ≠ "" ∧ E ≤ e
  end.

End Sessions.

(** A string without the separator of the keys. *)
Fixpoint no_at (s : string) : bool :=
  match s with
  | EmptyString => true
  | String c rest => negb (Ascii.eqb c "@") && no_at rest
  end.

(** * Message service (package [message], service.go)

    The queries behind the service (the three [...DB] types), the IM
    server and the command channel are collaborators declared outside the
    file: each is a function of the service's backend, and every method
    returns, next to its Go results, the calls it made on them. *)

Module Message.

(** ** [strconv.ParseInt(s, 10, 64)] *)

Inductive NumError : Type := ErrSyntax | ErrRange.

Definition maxUint64 : Z := 2 ^ 64 - 1.

(** The loop of [strconv.ParseUint] for base 10 and 64 bits: [n] is the
    value read so far, a [uint64].  An overflow ends the loop at once,
    before the rest of the string is looked at. *)
Fixpoint ParseUint_loop (s : string) (n : Z) : Z * option NumError :=
  match s with
  | EmptyString => (n, None)
  | String c rest =>
      match GoInt.digit_val c with
      | None => (0, Some ErrSyntax)
      | Some d =>
          if maxUint64 / 10 + 1 <=? n then (maxUint64, Some ErrRange)
          else
            let n10 := (n * 10) mod 2 ^ 64 in
            let n1 := (n10 + d) mod 2 ^ 64 in
            if (n1 <? n10) || (maxUint64 <? n1)
            then (maxUint64, Some ErrRange)
            else ParseUint_loop rest n1
      end
  end.

Definition ParseUint (s : string) : Z * option NumError :=
  match s with
  | EmptyString => (0, Some ErrSyntax)
  | _ => ParseUint_loop s 0
  end.

Definition ParseInt (s : string) : Z * option NumError :=
  match s with
  | EmptyString => (0, Some ErrSyntax)
  | String c rest =>
      let neg := Ascii.eqb c "-" in
      let body := if Ascii.eqb c "+" || neg then rest else s in
      let un := (ParseUint body).1 in
      match (ParseUint body).2 with
      | Some ErrSyntax => (0, Some ErrSyntax)
      | _ =>
          let cutoff := 2 ^ 63 in
          if negb neg && (cutoff <=? un) then (cutoff - 1, Some ErrRange)
          else if neg && (cutoff <? un) then (- cutoff, Some ErrRange)
          else
            let n := GoInt.wrap un in
            (if neg then GoInt.wrap (- n) else n, None)
      end
  end.

(** ** Rows and responses *)

Module channelOffsetModel.
Record t : Type := mk { ChannelID : string; ChannelType : Z; MessageSeq : Z }.
End channelOffsetModel.

Module channelOffsetResp.
Record t : Type := mk { ChannelID : string; ChannelType : Z; MessageSeq : Z }.
End channelOffsetResp.

Module messageUserExtraModel.
Record t : Type := mk {
  MessageID : string;
  ChannelID : string;
  ChannelType : Z;
  MessageSeq : Z;
  MessageIsDeleted : Z;
  VoiceReaded : Z
}.
End messageUserExtraModel.

Module messageUserExtraResp.
Record t : Type := mk {
  MessageID : Z;
  MessageIDStr : string;
  ChannelID : string;
  ChannelType : Z;
  MessageSeq : Z;
  MessageIsDeleted : Z;
  VoiceReaded : Z
}.
End messageUserExtraResp.

Module messageExtraModel.
Record t : Type := mk {
  MessageID : string;
  Revoke : Z;
  Revoker : string;
  IsDeleted : Z
}.
End messageExtraModel.

(** The fields of [messageExtraResp] that [newMsgExtraResp] sets; the
    others keep their zero value. *)
Module messageExtraResp.
Record t : Type := mk {
  MessageID : Z;
  MessageIDStr : string;
  Revoke : Z;
  Revoker : string;
  IsMutualDeleted : Z
}.
End messageExtraResp.

Module DeleteConversationReq.
Record t : Type := mk { ChannelID : string; ChannelType : Z; UID : string }.
End DeleteConversationReq.

(** The values put into [Param], a [map[string]interface{}]. *)
Inductive ParamValue : Type :=
  | ParamString (s : string)
  | ParamUint8 (n : Z).

Module MsgCMDReq.
Record t : Type := mk {
  ChannelID : string;
  ChannelType : Z;
  CMD : string;
  Param : gmap string ParamValue
}.
End MsgCMDReq.

(** ** The service *)

Inductive Call : Type :=
  | CallQueryWithUIDAndChannelIDs (uid : string) (channelIDs : list string)
  | CallQueryDeletedWithMessageIDsAndUID (messageIDs : list string)
      (uid : string)
  | CallQueryRevokedWithMessageIDs (messageIDs : list string)
  | CallQueryDeletedWithMessageIDs (messageIDs : list string)
  | CallIMDeleteConversation (req : DeleteConversationReq.t)
  | CallSendCMD (req : MsgCMDReq.t).

Section Service.

(** Go's [error] values; [None] is nil. *)
Variable goerror : Type.

(** [common.ChannelTypePerson.Uint8()] and [common.CMDConversationDeleted],
    constants of the server library. *)
Variable ChannelTypePerson : Z.
Variable CMDConversationDeleted : string.

(** The collaborators. *)
Variable queryWithUIDAndChannelIDs :
  string → list string → list channelOffsetModel.t * option goerror.
Variable queryDeletedWithMessageIDsAndUID :
  list string → string → list messageUserExtraModel.t * option goerror.
Variable queryRevokedWithMessageIDs :
  list string → list messageExtraModel.t * option goerror.
Variable queryDeletedWithMessageIDs :
  list string → list messageExtraModel.t * option goerror.
Variable IMDeleteConversation : DeleteConversationReq.t → option goerror.
Variable SendCMD : MsgCMDReq.t → option goerror.

(** A slice result: [None] is the nil slice, [Some []] the empty slice
    that [make] returns. *)
Definition GetChannelOffsetWithUID (uid : string) (channelIDs : list string)
  : (option (list channelOffsetResp.t) * option goerror) * list Call :=
  if (length channelIDs =? 0)%nat then ((None, None), [])
  else
    let calls := [CallQueryWithUIDAndChannelIDs uid channelIDs] in
    let models := (queryWithUIDAndChannelIDs uid channelIDs).1 in
    match (queryWithUIDAndChannelIDs uid channelIDs).2 with
    | Some err => ((None, Some err), calls)
    | None =>
        let resps :=
          fold_left
            (λ resps model,
               resps ++ [channelOffsetResp.mk
                           (channelOffsetModel.ChannelID model)
                           (channelOffsetModel.ChannelType model)
                           (channelOffsetModel.MessageSeq model)])
            models [] in
        ((Some resps, None), calls)
    end.

Definition GetDeletedMessagesWithUID (uid : string) (messageIDs : list string)
  : (option (list messageUserExtraResp.t) * option goerror) * list Call :=
  if (length messageIDs =? 0)%nat then ((None, None), [])
  else
    let calls := [CallQueryDeletedWithMessageIDsAndUID messageIDs uid] in
    let models := (queryDeletedWithMessageIDsAndUID messageIDs uid).1 in
    match (queryDeletedWithMessageIDsAndUID messageIDs uid).2 with
    | Some err => ((None, Some err), calls)
    | None =>
        let resps :=
          fold_left
            (λ resps model,
               let messageID :=
                 (ParseInt (messageUserExtraModel.MessageID model)).1 in
               resps ++ [messageUserExtraResp.mk
                           messageID
                           (messageUserExtraModel.MessageID model)
                           (messageUserExtraModel.ChannelID model)
                           (messageUserExtraModel.ChannelType model)
                           (messageUserExtraModel.MessageSeq model)
                           (messageUserExtraModel.MessageIsDeleted model)
                           (messageUserExtraModel.VoiceReaded model)])
            models [] in
        ((Some resps, None), calls)
    end.

Definition newMsgExtraResp (m : messageExtraModel.t) : messageExtraResp.t :=
  let messageID := (ParseInt (messageExtraModel.MessageID m)).1 in
  messageExtraResp.mk
    messageID
    (messageExtraModel.MessageID m)
    (messageExtraModel.Revoke m)
    (messageExtraModel.Revoker m)
    (messageExtraModel.IsDeleted m).

Definition GetRevokedMessages (messageIDs : list string)
  : (option (list messageExtraResp.t) * option goerror) * list Call :=
  if (length messageIDs =? 0)%nat then ((None, None), [])
  else
    let calls := [CallQueryRevokedWithMessageIDs messageIDs] in
    let models := (queryRevokedWithMessageIDs messageIDs).1 in
    match (queryRevokedWithMessageIDs messageIDs).2 with
    | Some err => ((None, Some err), calls)
    | None =>
        let resps :=
          fold_left (λ resps model, resps ++ [newMsgExtraResp model])
            models [] in
        ((Some resps, None), calls)
    end.

Definition GetDeletedMessages (messageIDs : list string)
  : (option (list messageExtraResp.t) * option goerror) * list Call :=
  if (length messageIDs =? 0)%nat then ((None, None), [])
  else
    let calls := [CallQueryDeletedWithMessageIDs messageIDs] in
    let models := (queryDeletedWithMessageIDs messageIDs).1 in
    match (queryDeletedWithMessageIDs messageIDs).2 with
    | Some err => ((None, Some err), calls)
    | None =>
        let resps :=
          fold_left (λ resps model, resps ++ [newMsgExtraResp model])
            models [] in
        ((Some resps, None), calls)
    end.

Definition DeleteConversation (uid channelID : string) (channelType : Z)
  : option goerror * list Call :=
  let req := DeleteConversationReq.mk channelID channelType uid in
  match IMDeleteConversation req with
  | Some err => (Some err, [CallIMDeleteConversation req])
  | None =>
      let cmd :=
        MsgCMDReq.mk uid ChannelTypePerson CMDConversationDeleted
          (<["channel_type" := ParamUint8 channelType]>
             (<["channel_id" := ParamString channelID]> ∅)) in
      match SendCMD cmd with
      | Some err =>
          (Some err, [CallIMDeleteConversation req; CallSendCMD cmd])
      | None => (None, [CallIMDeleteConversation req; CallSendCMD cmd])
      end
  end.

End Service.

End Message.

(** ** Further states of the scenario *)

Module Mishaps.
Import Scenario.

(** Code 3452 issued; the read of the lockout mark will fail. *)
Definition lock_read_fails : World := mkWorld 1000 (kv issued) [true] [] [].

(** Nothing stored; the write that records the failure will fail. *)
Definition count_write_fails : World :=
  mkWorld 1000 ∅ [false; false; false; true] [] [].

(** Nothing stored; the third draw of the generator will fail. *)
Definition draw_fails : World :=
  mkWorld 1000 ∅ [false; false; false; true] [3; 4; 5; 2] [].

(** Nothing stored; the write of the code will fail. *)
Definition code_write_fails : World :=
  mkWorld 1000 ∅ [false; false; false; false; false; true] [3; 4; 5; 2] [].

(** Nothing stored; the write of the cooldown mark will fail. *)
Definition mark_write_fails : World :=
  mkWorld 1000 ∅ [false; false; false; false; false; false; true]
    [3; 4; 5; 2] [].

(** Nothing stored; entropy for two codes. *)
Definition two_codes : World :=
  mkWorld 1000 ∅ [] [3; 4; 5; 2; 7; 7; 0; 1] [].

(** Two wrong codes, a request for a new code, two more wrong codes. *)
Definition guessing : list (Z * Call) :=
  [(0, CallVerify zone phone "0000" login);
   (10, CallVerify zone phone "1111" 2);
   (10, CallSendVerifyCode zone phone login);
   (5, CallVerify zone phone "2222" login);
   (5, CallVerify zone phone "3333" login)].

(** A locked identity presents its code and asks for a new one. *)
Definition knocking : list (Z * Call) :=
  [(10, CallVerify zone phone "3452" login);
   (60, CallSendVerifyCode zone phone login);
   (10, CallVerify zone phone "3452" login)].

(** A row with a numeric id. *)
Definition row : Message.messageExtraModel.t :=
  Message.messageExtraModel.mk "1850954375428571136" 1 "u1" 0.

End Mishaps.

(** * Properties *)

(** ** Constant-time comparison decides equality of byte strings *)

Module SubtleFacts.
Import Subtle.

Lemma byte_val_range c : 0 ≤ byte_val c < 256.
Proof.
  unfold byte_val. pose proof (N_ascii_bounded c). lia.
Qed.

Lemma byte_val_inj a b : byte_val a = byte_val b → a = b.
Proof.
  unfold byte_val. intros H. apply Z_of_N_eq_rev in H.
  rewrite <- (ascii_N_embedding a), <- (ascii_N_embedding b). by rewrite H.
Qed.

Lemma below_pow2_bits n a :
  0 ≤ n → 0 ≤ a → (a < 2 ^ n ↔ ∀ m, n ≤ m → Z.testbit a m = false).
Proof.
  intros Hn Ha. split.
  - intros Hlt m Hm.
    destruct (Z.eq_dec a 0) as [->|Hne]; [apply Z.bits_0|].
    apply Z.bits_above_log2; [lia|].
    assert (Z.log2 a < n) by (apply Z.log2_lt_pow2; lia). lia.
  - intros Hb. destruct (Z.lt_ge_cases a (2 ^ n)) as [|Hge]; [done|].
    assert (0 < a) by (pose proof (Z.pow_pos_nonneg 2 n ltac:(lia) Hn); lia).
    pose proof (Z.bit_log2 a ltac:(lia)) as Hl.
    rewrite Hb in Hl; [done|].
    apply Z.log2_le_pow2; lia.
Qed.

Lemma diff_byte_range v a b :
  0 ≤ v < 256 → 0 ≤ Z.lor v (Z.lxor (byte_val a) (byte_val b)) < 256.
Proof.
  intros Hv. pose proof (byte_val_range a). pose proof (byte_val_range b).
  assert (0 ≤ Z.lxor (byte_val a) (byte_val b)) by (apply Z.lxor_nonneg; lia).
  assert (0 ≤ Z.lor v (Z.lxor (byte_val a) (byte_val b)))
    by (apply Z.lor_nonneg; lia).
  split; [done|]. change 256 with (2 ^ 8).
  apply below_pow2_bits; [lia|done|]. intros m Hm.
  rewrite Z.lor_spec, Z.lxor_spec.
  assert (Hbit : ∀ z, 0 ≤ z < 256 → Z.testbit z m = false).
  { intros z Hz. apply (below_pow2_bits 8 z); [lia|lia| |done].
    change (2 ^ 8) with 256. lia. }
  by rewrite !Hbit.
Qed.

Lemma fold_diff_range x : ∀ y v, 0 ≤ v < 256 → 0 ≤ fold_diff x y v < 256.
Proof.
  induction x as [|a x IH]; intros [|b y] v Hv; simpl; try done.
  apply IH, diff_byte_range, Hv.
Qed.

Lemma fold_diff_zero x : ∀ y v,
  String.length x = String.length y → 0 ≤ v →
  (fold_diff x y v = 0 ↔ v = 0 ∧ x = y).
Proof.
  induction x as [|a x IH]; intros [|b y] v Hlen Hv; simpl in *; try done.
  - split; [done | by intros [? _]].
  - pose proof (byte_val_range a). pose proof (byte_val_range b).
    rewrite IH; [|lia|apply Z.lor_nonneg; split; [lia|apply Z.lxor_nonneg; lia]].
    rewrite Z.lor_eq_0_iff, Z.lxor_eq_0_iff.
    split.
    + intros [[-> Hab] ->]. by rewrite (byte_val_inj _ _ Hab).
    + intros [-> [= -> ->]]. done.
Qed.

Lemma ConstantTimeByteEq_zero v :
  0 ≤ v < 256 → (ConstantTimeByteEq v 0 = 1 ↔ v = 0).
Proof.
  intros Hv. unfold ConstantTimeByteEq. rewrite Z.lxor_0_r.
  split.
  - intros H. destruct (Z.eq_dec v 0) as [|Hne]; [done|].
    rewrite Z.mod_small in H by lia.
    rewrite Z.shiftr_div_pow2 in H by lia.
    rewrite Z.div_small in H; [done|]. lia.
  - intros ->. reflexivity.
Qed.

Lemma ConstantTimeCompare_eq x y : ConstantTimeCompare x y = 1 ↔ x = y.
Proof.
  unfold ConstantTimeCompare.
  destruct (Nat.eqb_spec (String.length x) (String.length y)) as [Hlen|Hlen]; simpl.
  - rewrite ConstantTimeByteEq_zero by (apply fold_diff_range; lia).
    rewrite fold_diff_zero by (done || lia).
    split; [by intros [_ ?] | done].
  - split; [done|]. intros ->. done.
Qed.

Lemma ConstantTimeCompare_refl x : ConstantTimeCompare x x = 1.
Proof. by apply ConstantTimeCompare_eq. Qed.

End SubtleFacts.

(** ** The keys of one identity never collide *)

Module KeyFacts.

Lemma app_cons (x : ascii) (a b : string) :
  String x a +:+ b = String x (a +:+ b).
Proof. reflexivity. Qed.

Lemma app_nil_l (a : string) : "" +:+ a = a.
Proof. reflexivity. Qed.

Lemma app_assoc (a b c : string) : (a +:+ b) +:+ c = a +:+ b +:+ c.
Proof.
  induction a as [|x a IH]; [done|]. by rewrite !app_cons, IH.
Qed.

Lemma length_app (a b : string) :
  String.length (a +:+ b) = (String.length a + String.length b)%nat.
Proof.
  induction a as [|x a IH]; [done|]. rewrite app_cons. simpl. by rewrite IH.
Qed.

Lemma app_inv_tail (a b t : string) : a +:+ t = b +:+ t → a = b.
Proof.
  revert b. induction a as [|x a IH]; intros [|y b] H;
    rewrite ?app_cons, ?app_nil_l in H.
  - done.
  - apply (f_equal String.length) in H. simpl in H.
    rewrite length_app in H. lia.
  - apply (f_equal String.length) in H. simpl in H.
    rewrite length_app in H. lia.
  - injection H as -> H. by rewrite (IH _ H).
Qed.

Lemma last_char_differs (a b : string) (x y : ascii) :
  x ≠ y → a +:+ String x "" ≠ b +:+ String y "".
Proof.
  intros Hxy. revert b. induction a as [|c a IH]; intros [|d b] H;
    rewrite ?app_cons, ?app_nil_l in H.
  - congruence.
  - injection H as _ H. by destruct b.
  - injection H as _ H. by destruct a.
  - injection H as _ H. by apply (IH b).
Qed.

Section Keys.
Variable CacheKeySMSCode : string.

Lemma lockKey_ne_failCountKey zone phone :
  lockKey zone phone ≠ failCountKey zone phone.
Proof. unfold lockKey, failCountKey. rewrite !app_cons. congruence. Qed.

Lemma cacheKey_split codeType zone phone :
  cacheKey CacheKeySMSCode codeType zone phone
  = ((CacheKeySMSCode +:+ GoInt.itoa codeType) +:+ "@")
      +:+ (zone +:+ "@" +:+ phone).
Proof. unfold cacheKey. by rewrite !app_assoc. Qed.

Lemma cacheKey_ne_lockKey codeType zone phone :
  cacheKey CacheKeySMSCode codeType zone phone ≠ lockKey zone phone.
Proof.
  rewrite cacheKey_split. unfold lockKey. intros H.
  apply app_inv_tail in H.
  by apply (last_char_differs _ "sms_verify_lock" "@" ":") in H.
Qed.

Lemma cacheKey_ne_failCountKey codeType zone phone :
  cacheKey CacheKeySMSCode codeType zone phone ≠ failCountKey zone phone.
Proof.
  rewrite cacheKey_split. unfold failCountKey. intros H.
  apply app_inv_tail in H.
  by apply (last_char_differs _ "sms_verify_fail" "@" ":") in H.
Qed.

Lemma cacheKey_ne_rateLimitKey codeType zone phone :
  cacheKey CacheKeySMSCode codeType zone phone ≠ rateLimitKey zone phone.
Proof.
  rewrite cacheKey_split. unfold rateLimitKey. intros H.
  apply app_inv_tail in H.
  by apply (last_char_differs _ "sms_rate_limit" "@" ":") in H.
Qed.

End Keys.
End KeyFacts.

(** ** Go's [int] *)

(** Away from the largest [int], [failCount++] adds one. *)
Lemma incr_small (n : Z) : - 2 ^ 63 ≤ n < 2 ^ 63 - 1 → GoInt.incr n = n + 1.
Proof.
  intros H. unfold GoInt.incr, GoInt.wrap. rewrite Z.mod_small by lia. lia.
Qed.

(** ** Worlds *)

Lemma healthy_next w : healthy w → fault_at 0 w = false.
Proof.
  unfold healthy, fault_at. destruct (faults w); [done|].
  by inversion 1.
Qed.

Lemma healthy_called ev w : healthy w → healthy (called ev w).
Proof.
  unfold healthy. simpl. destruct (faults w); [done|]. by inversion 1.
Qed.

Lemma healthy_with_kv m w : healthy w → healthy (with_kv m w).
Proof. done. Qed.

Lemma healthy_advance d w : healthy w → healthy (advance d w).
Proof. done. Qed.

Lemma fault_at_called n ev w : fault_at n (called ev w) = fault_at (S n) w.
Proof. unfold fault_at. simpl. by destruct (faults w), n. Qed.

Lemma fault_at_with_kv n m w : fault_at n (with_kv m w) = fault_at n w.
Proof. done. Qed.

Lemma healthy_fault_at n w : healthy w → fault_at n w = false.
Proof.
  unfold healthy, fault_at. intros H.
  destruct (nth_in_or_default n (faults w) false) as [Hin|Hd];
    [|by rewrite Hd].
  rewrite Forall_forall in H. by apply H, list_elem_of_In.
Qed.

Lemma live_called ev w key : live (called ev w) key = live w key.
Proof. done. Qed.

Lemma not_expired (a d t : Z) : d < t → (a + d <? a + t) = true.
Proof. intros H. apply Z.ltb_lt. lia. Qed.

(** Time only makes entries disappear. *)
Lemma live_advance w d key :
  0 ≤ d → live (advance d w) key = live w key ∨ live (advance d w) key = "".
Proof.
  intros Hd. unfold live. simpl. destruct (kv w !! key) as [[v e]|]; [|by left].
  destruct (Z.ltb_spec (now w + d) e), (Z.ltb_spec (now w) e); auto; lia.
Qed.

Lemma fails_later w d key code :
  0 ≤ d →
  live w key = "" ∨ live w key ≠ code →
  live (advance d w) key = "" ∨ live (advance d w) key ≠ code.
Proof.
  intros Hd H. destruct (live_advance w d key Hd) as [->| ->]; auto.
Qed.

Lemma absent_later w d key :
  0 ≤ d → live w key = "" → live (advance d w) key = "".
Proof.
  intros Hd H. destruct (live_advance w d key Hd) as [->| ->]; auto.
Qed.

(** ** Running programs *)

Lemma run_Ret {A : Type} (a : A) w : run (Ret a) w = (a, w).
Proof. reflexivity. Qed.

Lemma run_bind {A B : Type} (p : Prog A) (f : A → Prog B) (w : World) :
  run (p ≫= f) w = run (f (run p w).1) (run p w).2.
Proof.
  revert w. unfold mbind, Prog_bind.
  induction p as [a|key k IH|key v ttl k IH|key k IH|max k IH|sp z ph c k IH];
    intros w; simpl; [done|..].
  - destruct (do_GetString key w) as [r w']. apply IH.
  - destruct (do_SetAndExpire key v ttl w) as [r w']. apply IH.
  - destruct (do_Del key w) as [r w']. apply IH.
  - destruct (do_RandInt max w) as [r w']. apply IH.
  - destruct (do_SendSMS sp z ph c w) as [r w']. apply IH.
Qed.

Lemma run_GetString key w : run (GetString key) w = do_GetString key w.
Proof. simpl. by destruct (do_GetString key w). Qed.

Lemma run_SetAndExpire key v ttl w :
  run (SetAndExpire key v ttl) w = do_SetAndExpire key v ttl w.
Proof. simpl. by destruct (do_SetAndExpire key v ttl w). Qed.

Lemma run_Del key w : run (Del key) w = do_Del key w.
Proof. simpl. by destruct (do_Del key w). Qed.

Lemma run_RandInt max w : run (RandInt max) w = do_RandInt max w.
Proof. simpl. by destruct (do_RandInt max w). Qed.

Lemma run_SendSMS p z ph c w :
  run (SendSMS p z ph c) w = do_SendSMS p z ph c w.
Proof. reflexivity. Qed.

Lemma do_GetString_ok key w :
  fault_at 0 w = false →
  do_GetString key w = ((live w key, None), called (EvGet key) w).
Proof. unfold do_GetString. by intros ->. Qed.

Lemma do_GetString_fault key w :
  fault_at 0 w = true →
  do_GetString key w = (("", Some errRedis), called (EvGet key) w).
Proof. unfold do_GetString. by intros ->. Qed.

Lemma do_GetString_any key w :
  do_GetString key w
  = (if fault_at 0 w then ("", Some errRedis) else (live w key, None),
     called (EvGet key) w).
Proof. unfold do_GetString. by destruct (fault_at 0 w). Qed.

Lemma do_SetAndExpire_ok key v ttl w :
  fault_at 0 w = false →
  do_SetAndExpire key v ttl w
  = (None, called (EvSet key v ttl)
             (with_kv (<[key := (v, now w + ttl)]> (kv w)) w)).
Proof. unfold do_SetAndExpire. by intros ->. Qed.

Lemma do_SetAndExpire_any key v ttl w :
  do_SetAndExpire key v ttl w
  = (if fault_at 0 w then Some errRedis else None,
     called (EvSet key v ttl)
       (if fault_at 0 w then w
        else with_kv (<[key := (v, now w + ttl)]> (kv w)) w)).
Proof. unfold do_SetAndExpire. by destruct (fault_at 0 w). Qed.

Lemma do_Del_ok key w :
  fault_at 0 w = false →
  do_Del key w = (None, called (EvDel key) (with_kv (delete key (kv w)) w)).
Proof. unfold do_Del. by intros ->. Qed.

Lemma do_Del_any key w :
  do_Del key w
  = (if fault_at 0 w then Some errRedis else None,
     called (EvDel key)
       (if fault_at 0 w then w else with_kv (delete key (kv w)) w)).
Proof. unfold do_Del. by destruct (fault_at 0 w). Qed.

Lemma run_par_first {A B : Type} sched (p : Prog A) (q : Prog B) w :
  run_par (true :: sched) p q w = run_par sched (step p w).1 q (step p w).2.
Proof. simpl. by destruct (step p w). Qed.

Lemma run_par_second {A B : Type} sched (p : Prog A) (q : Prog B) w :
  run_par (false :: sched) p q w = run_par sched p (step q w).1 (step q w).2.
Proof. simpl. by destruct (step q w). Qed.

Lemma run_par_done {A B : Type} (p : Prog A) (q : Prog B) w :
  run_par [] p q w
  = (((run p w).1, (run q (run p w).2).1), (run q (run p w).2).2).
Proof.
  simpl. destruct (run p w) as [a w1]. simpl. by destruct (run q w1).
Qed.

Lemma step_GetString {A : Type} key (f : string * option error → Prog A) w :
  step (GetString key ≫= f) w
  = (f (do_GetString key w).1, (do_GetString key w).2).
Proof.
  unfold mbind, Prog_bind. simpl. by destruct (do_GetString key w).
Qed.

(** ** The tests [Verify] makes *)

Lemma nonempty_true (s : string) : s ≠ "" → negb (String.eqb s "") = true.
Proof. intros H. by destruct (String.eqb_spec s ""). Qed.

Lemma ConstantTimeCompare_ne x y :
  x ≠ y → (Subtle.ConstantTimeCompare x y =? 1) = false.
Proof.
  intros H. apply Z.eqb_neq. by rewrite SubtleFacts.ConstantTimeCompare_eq.
Qed.

(** The condition of the success branch is false when the stored code is
    absent or differs from the presented one. *)
Lemma mismatch_fails (sysCode code : string) :
  sysCode = "" ∨ sysCode ≠ code →
  negb (String.eqb sysCode "")
  && (Subtle.ConstantTimeCompare sysCode code =? 1) = false.
Proof.
  intros [->|Hne]; [done|].
  rewrite ConstantTimeCompare_ne by done. apply andb_false_r.
Qed.

(** A count that reaches the threshold was read from a stored value. *)
Lemma count_present_at_threshold (s : string) :
  3 ≤ GoInt.incr (storedFailCount s) → s ≠ "".
Proof. intros H ->. vm_compute in H. by apply H. Qed.

Create HintDb world.

#[local] Hint Resolve healthy_next healthy_called healthy_with_kv
  healthy_advance : world.

(** The fault decision of a later call, in terms of the world the program
    started in. *)
Ltac fault_now :=
  repeat first [rewrite fault_at_called | rewrite fault_at_with_kv].

Ltac no_fault :=
  first [ reflexivity
        | assumption
        | (fault_now; assumption)
        | (fault_now; apply healthy_fault_at; eauto 10 with world) ].

(** Rewriting one outgoing call of a running program whose fault decision
    is known to be negative. *)
Ltac run_get :=
  rewrite run_bind, run_GetString, do_GetString_ok by no_fault;
  cbn beta iota delta [fst snd].
Ltac run_set :=
  rewrite run_bind, run_SetAndExpire, do_SetAndExpire_ok by no_fault;
  cbn beta iota delta [fst snd].
Ltac run_del :=
  rewrite run_bind, run_Del, do_Del_ok by no_fault;
  cbn beta iota delta [fst snd].
Ltac step_get :=
  rewrite step_GetString, do_GetString_ok by no_fault;
  cbn beta iota delta [fst snd].

(** ** The two methods *)

Section Properties.

Variable CacheKeySMSCode : string.
Variable cfg : Config.

(** *** Code generation *)

(** Code generation leaves the store and the clock alone. *)
Lemma generateLoop_frame n : ∀ result w,
  kv (run (generateLoop n result) w).2 = kv w
  ∧ now (run (generateLoop n result) w).2 = now w.
Proof.
  induction n as [|n IH]; intros result w; [done|].
  cbn [generateLoop]. rewrite run_bind, run_RandInt.
  unfold do_RandInt. destruct (fault_at 0 w); cbn beta iota delta [fst snd].
  - done.
  - destruct (IH (result +:+
        String (default "0"%char
                  (String.get (Z.to_nat (hd 0 (entropy w)
                     mod Z.of_nat (String.length digits))) digits)) "")
        (mkWorld (now (called EvRand w)) (kv (called EvRand w))
           (faults (called EvRand w)) (tl (entropy (called EvRand w)))
           (trace (called EvRand w)))) as [-> ->].
    done.
Qed.

(** With the next [n] calls free of faults, the loop draws [n] digits. *)
Lemma generateLoop_ok n : ∀ result w,
  (∀ i, (i < n)%nat → fault_at i w = false) →
  ∃ verifyCode w',
    run (generateLoop n result) w = ((verifyCode, None), w')
    ∧ kv w' = kv w ∧ now w' = now w
    ∧ (∀ i, fault_at i w' = fault_at (n + i) w)
    ∧ trace w' = trace w ++ repeat EvRand n.
Proof.
  induction n as [|n IH]; intros result w Hf.
  - exists result, w. simpl. by rewrite app_nil_r.
  - cbn [generateLoop]. rewrite run_bind, run_RandInt.
    unfold do_RandInt. rewrite Hf by lia.
    cbn beta iota delta [fst snd].
    edestruct IH as (c & w' & -> & Hkv & Hnow & Hfl & Htr);
      [|exists c, w'; split; [reflexivity|]].
    + intros i Hi. change (fault_at i (called EvRand w) = false).
      rewrite fault_at_called. apply Hf. lia.
    + rewrite Hkv, Hnow, Htr. simpl. split; [done|]. split; [done|].
      split; [|by rewrite <- app_assoc].
      intros i. rewrite Hfl. apply (fault_at_called (n + i) EvRand w).
Qed.

(** *** Verification *)

(** The failure path of [Verify] in a healthy world, for an identity that is
    not locked: three reads, then one write. *)
Lemma Verify_failure_path zone phone code codeType w :
  healthy w →
  live w (lockKey zone phone) = "" →
  (live w (cacheKey CacheKeySMSCode codeType zone phone) = ""
   ∨ live w (cacheKey CacheKeySMSCode codeType zone phone) ≠ code) →
  run (Verify CacheKeySMSCode zone phone code codeType) w
  = let w3 := called (EvGet (failCountKey zone phone))
                (called (EvGet (cacheKey CacheKeySMSCode codeType zone phone))
                   (called (EvGet (lockKey zone phone)) w)) in
    let n := GoInt.incr (storedFailCount (live w (failCountKey zone phone))) in
    if 3 <=? n
    then (Some errLockedNow,
          called (EvSet (lockKey zone phone) "1" (Minute * 10))
            (with_kv (<[lockKey zone phone := ("1", now w + Minute * 10)]>
                        (kv w)) w3))
    else (Some errInvalidCode,
          called (EvSet (failCountKey zone phone) (GoInt.itoa n) (Minute * 10))
            (with_kv (<[failCountKey zone phone
                        := (GoInt.itoa n, now w + Minute * 10)]> (kv w)) w3)).
Proof.
  intros Hw Hlock Hcode. unfold Verify.
  run_get. rewrite Hlock. simpl negb. cbv iota.
  run_get. rewrite live_called.
  rewrite mismatch_fails by done.
  run_get. rewrite !live_called.
  fold (storedFailCount (live w (failCountKey zone phone))).
  cbv zeta.
  destruct (3 <=? GoInt.incr (storedFailCount (live w (failCountKey zone phone)))).
  - run_set. reflexivity.
  - run_set. reflexivity.
Qed.

(** Claim C1, as amended: the identity must not be locked out.  In a healthy
    world, for an identity without a lockout mark, if the stored code of
    (identity, purpose) is present and the presented code equals it, [Verify]
    returns nil after deleting the stored code, the failure count and the
    lockout mark, in this order; the same call repeated on the store it left,
    after any lapse of time [d], fails with the invalid-code error. *)
Theorem Verify_success_once zone phone code codeType w d :
  healthy w →
  live w (lockKey zone phone) = "" →
  live w (cacheKey CacheKeySMSCode codeType zone phone) = code →
  code ≠ "" →
  ∃ w1,
    run (Verify CacheKeySMSCode zone phone code codeType) w = (None, w1)
    ∧ kv w1 = delete (lockKey zone phone)
                (delete (failCountKey zone phone)
                   (delete (cacheKey CacheKeySMSCode codeType zone phone)
                      (kv w)))
    ∧ trace w1 = trace w ++
        [EvGet (lockKey zone phone);
         EvGet (cacheKey CacheKeySMSCode codeType zone phone);
         EvDel (cacheKey CacheKeySMSCode codeType zone phone);
         EvDel (failCountKey zone phone);
         EvDel (lockKey zone phone)]
    ∧ (run (Verify CacheKeySMSCode zone phone code codeType)
         (advance d w1)).1 = Some errInvalidCode
    ∧ kind errInvalidCode = InvalidCode.
Proof.
  intros Hw Hlock Hcode Hne. eexists.
  split; [|split; [|split; [|split; [|done]]]].
  - unfold Verify. run_get. rewrite Hlock. simpl negb. cbv iota.
    run_get. rewrite live_called, Hcode, nonempty_true by done.
    rewrite SubtleFacts.ConstantTimeCompare_refl. simpl andb. cbv iota.
    run_del. run_del. run_del. simpl. reflexivity.
  - reflexivity.
  - simpl. by rewrite <- !app_assoc.
  - set (m := delete _ _).
    assert (Hm : ∀ key,
      key = lockKey zone phone ∨ key = failCountKey zone phone
      ∨ key = cacheKey CacheKeySMSCode codeType zone phone →
      m !! key = None).
    { intros key Hk. unfold m. rewrite !lookup_delete_None.
      destruct Hk as [->|[->| ->]]; auto. }
    rewrite Verify_failure_path.
    + cbv zeta. unfold live at 1. simpl kv. rewrite Hm by tauto. done.
    + eauto 10 with world.
    + unfold live. simpl kv. by rewrite Hm by tauto.
    + left. unfold live. simpl kv. by rewrite Hm by tauto.
Qed.

(** One failed verification by an identity that is not locked. *)
Lemma Verify_failure_step zone phone code codeType w :
  healthy w →
  live w (lockKey zone phone) = "" →
  (live w (cacheKey CacheKeySMSCode codeType zone phone) = ""
   ∨ live w (cacheKey CacheKeySMSCode codeType zone phone) ≠ code) →
  let failCount :=
    GoInt.incr (storedFailCount (live w (failCountKey zone phone))) in
  let reads :=
    [EvGet (lockKey zone phone);
     EvGet (cacheKey CacheKeySMSCode codeType zone phone);
     EvGet (failCountKey zone phone)] in
  ∃ r w',
    run (Verify CacheKeySMSCode zone phone code codeType) w = (Some r, w')
    ∧ (failCount < 3 →
         r = errInvalidCode
         ∧ kind r = InvalidCode
         ∧ kv w' = <[failCountKey zone phone
                      := (GoInt.itoa failCount, now w + 10 * Minute)]> (kv w)
         ∧ trace w' = trace w ++ reads ++
             [EvSet (failCountKey zone phone) (GoInt.itoa failCount)
                (10 * Minute)])
    ∧ (3 ≤ failCount →
         r = errLockedNow
         ∧ kind r = TooManyAttempts
         ∧ kv w' = <[lockKey zone phone := ("1", now w + 10 * Minute)]> (kv w)
         ∧ trace w' = trace w ++ reads ++
             [EvSet (lockKey zone phone) "1" (10 * Minute)]).
Proof.
  intros Hw Hlock Hcode failCount reads.
  rewrite Verify_failure_path by done. cbv zeta. fold failCount.
  destruct (Z.leb_spec 3 failCount) as [Hge|Hlt]; do 2 eexists;
    (split; [reflexivity|]); split; intros H; try lia.
  - repeat split. simpl. by rewrite <- !app_assoc.
  - repeat split. simpl. by rewrite <- !app_assoc.
Qed.

(** A failure below the threshold, seen from the next call: the count it
    wrote is what the next call reads during the following ten minutes, and
    nothing else the next call reads has changed. *)
Lemma Verify_under_threshold zone phone code codeType w d :
  healthy w →
  live w (lockKey zone phone) = "" →
  (live w (cacheKey CacheKeySMSCode codeType zone phone) = ""
   ∨ live w (cacheKey CacheKeySMSCode codeType zone phone) ≠ code) →
  let n := GoInt.incr (storedFailCount (live w (failCountKey zone phone))) in
  n < 3 →
  0 ≤ d < 10 * Minute →
  let r := run (Verify CacheKeySMSCode zone phone code codeType) w in
  r.1 = Some errInvalidCode
  ∧ healthy (advance d r.2)
  ∧ live (advance d r.2) (failCountKey zone phone) = GoInt.itoa n
  ∧ live (advance d r.2) (lockKey zone phone) = ""
  ∧ ∀ codeType' code',
      (live w (cacheKey CacheKeySMSCode codeType' zone phone) = ""
       ∨ live w (cacheKey CacheKeySMSCode codeType' zone phone) ≠ code') →
      (live (advance d r.2) (cacheKey CacheKeySMSCode codeType' zone phone) = ""
       ∨ live (advance d r.2) (cacheKey CacheKeySMSCode codeType' zone phone)
         ≠ code').
Proof.
  intros Hw Hlock Hcode n Hn Hd r. unfold r.
  rewrite Verify_failure_path by done. cbv zeta. fold n.
  destruct (Z.leb_spec 3 n) as [|_]; [lia|]. simpl fst. simpl snd.
  split; [done|]. split; [eauto 10 with world|].
  split; [|split].
  - unfold live. simpl. rewrite lookup_insert_eq.
    by rewrite not_expired by (unfold Minute in *; lia).
  - apply absent_later; [lia|]. unfold live. simpl.
    rewrite lookup_insert_ne by (by intros ?%eq_sym%KeyFacts.lockKey_ne_failCountKey).
    exact Hlock.
  - intros codeType' code' H. apply fails_later; [lia|].
    unfold live. simpl.
    rewrite lookup_insert_ne
      by (by intros ?%eq_sym%KeyFacts.cacheKey_ne_failCountKey).
    exact H.
Qed.

(** Three failed verifications in a row, for any purposes, each within ten
    minutes of the one before: the third one locks the identity. *)
Lemma Verify_third_failure_locks zone phone
    code1 code2 code3 codeType1 codeType2 codeType3 d1 d2 w :
  healthy w →
  live w (lockKey zone phone) = "" →
  live w (failCountKey zone phone) = "" →
  (live w (cacheKey CacheKeySMSCode codeType1 zone phone) = ""
   ∨ live w (cacheKey CacheKeySMSCode codeType1 zone phone) ≠ code1) →
  (live w (cacheKey CacheKeySMSCode codeType2 zone phone) = ""
   ∨ live w (cacheKey CacheKeySMSCode codeType2 zone phone) ≠ code2) →
  (live w (cacheKey CacheKeySMSCode codeType3 zone phone) = ""
   ∨ live w (cacheKey CacheKeySMSCode codeType3 zone phone) ≠ code3) →
  0 ≤ d1 < 10 * Minute →
  0 ≤ d2 < 10 * Minute →
  let r1 := run (Verify CacheKeySMSCode zone phone code1 codeType1) w in
  let r2 := run (Verify CacheKeySMSCode zone phone code2 codeType2)
              (advance d1 r1.2) in
  let r3 := run (Verify CacheKeySMSCode zone phone code3 codeType3)
              (advance d2 r2.2) in
  r1.1 = Some errInvalidCode
  ∧ r2.1 = Some errInvalidCode
  ∧ r3.1 = Some errLockedNow
  ∧ live r3.2 (lockKey zone phone) = "1".
Proof.
  intros Hw Hlock Hcount H1 H2 H3 Hd1 Hd2 r1 r2 r3.
  destruct (Verify_under_threshold zone phone code1 codeType1 w d1)
    as (E1 & Hw1 & Hc1 & Hl1 & Hk1); auto.
  { rewrite Hcount. by vm_compute. }
  fold r1 in E1, Hw1, Hc1, Hl1, Hk1. rewrite Hcount in Hc1.
  change (GoInt.itoa (GoInt.incr (storedFailCount ""))) with "1" in Hc1.
  destruct (Verify_under_threshold zone phone code2 codeType2
              (advance d1 r1.2) d2)
    as (E2 & Hw2 & Hc2 & Hl2 & Hk2); auto.
  { rewrite Hc1. by vm_compute. }
  fold r2 in E2, Hw2, Hc2, Hl2, Hk2. rewrite Hc1 in Hc2.
  change (GoInt.itoa (GoInt.incr (storedFailCount "1"))) with "2" in Hc2.
  split; [done|]. split; [done|].
  unfold r3. rewrite Verify_failure_path by auto. cbv zeta.
  rewrite Hc2. change (3 <=? GoInt.incr (storedFailCount "2")) with true.
  cbv iota. split; [done|].
  unfold live. simpl. rewrite lookup_insert_eq.
  assert ((now r2.2 + d2 <? now r2.2 + d2 + Minute * 10) = true) as ->
    by (apply Z.ltb_lt; unfold Minute; lia).
  done.
Qed.

(** Claim C2: a failed verification (stored code absent or different from
    the presented one) by an identity that is not locked takes the stored
    count (0 when absent or unreadable), adds one, and then: below 3 it
    fails with the invalid-code error and writes the new count with a
    ten-minute expiry, nothing else; from 3 on it fails with the
    too-many-attempts error and its only write is the ten-minute lockout mark.
    Starting without a count, three failures in a row for any purposes give
    invalid code, invalid code, too many attempts. *)
Theorem Verify_failure_counts zone phone :
  (∀ code codeType w,
     healthy w →
     live w (lockKey zone phone) = "" →
     (live w (cacheKey CacheKeySMSCode codeType zone phone) = ""
      ∨ live w (cacheKey CacheKeySMSCode codeType zone phone) ≠ code) →
     let failCount :=
       GoInt.incr (storedFailCount (live w (failCountKey zone phone))) in
     let reads :=
       [EvGet (lockKey zone phone);
        EvGet (cacheKey CacheKeySMSCode codeType zone phone);
        EvGet (failCountKey zone phone)] in
     ∃ r w',
       run (Verify CacheKeySMSCode zone phone code codeType) w = (Some r, w')
       ∧ (failCount < 3 →
            r = errInvalidCode
            ∧ kind r = InvalidCode
            ∧ kv w' = <[failCountKey zone phone
                         := (GoInt.itoa failCount, now w + 10 * Minute)]> (kv w)
            ∧ trace w' = trace w ++ reads ++
                [EvSet (failCountKey zone phone) (GoInt.itoa failCount)
                   (10 * Minute)])
       ∧ (3 ≤ failCount →
            r = errLockedNow
            ∧ kind r = TooManyAttempts
            ∧ kv w' = <[lockKey zone phone := ("1", now w + 10 * Minute)]>
                        (kv w)
            ∧ trace w' = trace w ++ reads ++
                [EvSet (lockKey zone phone) "1" (10 * Minute)]))
  ∧ (∀ code1 code2 code3 codeType1 codeType2 codeType3 d1 d2 w,
       healthy w →
       live w (lockKey zone phone) = "" →
       live w (failCountKey zone phone) = "" →
       (live w (cacheKey CacheKeySMSCode codeType1 zone phone) = ""
        ∨ live w (cacheKey CacheKeySMSCode codeType1 zone phone) ≠ code1) →
       (live w (cacheKey CacheKeySMSCode codeType2 zone phone) = ""
        ∨ live w (cacheKey CacheKeySMSCode codeType2 zone phone) ≠ code2) →
       (live w (cacheKey CacheKeySMSCode codeType3 zone phone) = ""
        ∨ live w (cacheKey CacheKeySMSCode codeType3 zone phone) ≠ code3) →
       0 ≤ d1 < 10 * Minute →
       0 ≤ d2 < 10 * Minute →
       let r1 := run (Verify CacheKeySMSCode zone phone code1 codeType1) w in
       let r2 := run (Verify CacheKeySMSCode zone phone code2 codeType2)
                   (advance d1 r1.2) in
       let r3 := run (Verify CacheKeySMSCode zone phone code3 codeType3)
                   (advance d2 r2.2) in
       r1.1 = Some errInvalidCode
       ∧ r2.1 = Some errInvalidCode
       ∧ r3.1 = Some errLockedNow
       ∧ live r3.2 (lockKey zone phone) = "1").
Proof.
  split.
  - intros code codeType w. apply Verify_failure_step.
  - intros code1 code2 code3 codeType1 codeType2 codeType3 d1 d2 w.
    apply Verify_third_failure_locks.
Qed.

(** Claim C3: when the read of the lockout mark returns a non-empty value,
    [Verify] fails with the too-many-attempts error whatever the purpose and
    the presented code; the store is unchanged and the only call made is the
    read of the lockout key, which is not the key of any stored code of the
    identity. *)
Theorem Verify_locked zone phone code codeType w :
  fault_at 0 w = false →
  live w (lockKey zone phone) ≠ "" →
  ∃ w',
    run (Verify CacheKeySMSCode zone phone code codeType) w
    = (Some errLocked, w')
    ∧ kind errLocked = TooManyAttempts
    ∧ kv w' = kv w
    ∧ trace w' = trace w ++ [EvGet (lockKey zone phone)]
    ∧ ∀ codeType',
        lockKey zone phone ≠ cacheKey CacheKeySMSCode codeType' zone phone.
Proof.
  intros Hf Hl. exists (called (EvGet (lockKey zone phone)) w).
  split; [|split; [done|split; [done|split; [done|]]]].
  - unfold Verify. run_get. rewrite nonempty_true by done. reflexivity.
  - intros codeType' H. by apply (KeyFacts.cacheKey_ne_lockKey
      CacheKeySMSCode codeType' zone phone).
Qed.

(** Claim C6: take two healthy worlds at the same instant that hold the same
    failure count for an identity that is not locked; in the first the
    stored code is absent, in the second it is present and differs from the
    presented one.  [Verify] returns the same error in both, leaves the same
    failure count and issues the same commands. *)
Theorem Verify_absent_like_wrong zone phone code codeType w1 w2 :
  healthy w1 → healthy w2 →
  live w1 (lockKey zone phone) = "" →
  live w2 (lockKey zone phone) = "" →
  now w1 = now w2 →
  kv w1 !! failCountKey zone phone = kv w2 !! failCountKey zone phone →
  live w1 (cacheKey CacheKeySMSCode codeType zone phone) = "" →
  live w2 (cacheKey CacheKeySMSCode codeType zone phone) ≠ "" →
  live w2 (cacheKey CacheKeySMSCode codeType zone phone) ≠ code →
  let r1 := run (Verify CacheKeySMSCode zone phone code codeType) w1 in
  let r2 := run (Verify CacheKeySMSCode zone phone code codeType) w2 in
  r1.1 = r2.1
  ∧ (r1.1 = Some errInvalidCode ∨ r1.1 = Some errLockedNow)
  ∧ kv r1.2 !! failCountKey zone phone = kv r2.2 !! failCountKey zone phone
  ∧ live r1.2 (failCountKey zone phone) = live r2.2 (failCountKey zone phone)
  ∧ ∃ commands,
      trace r1.2 = trace w1 ++ commands ∧ trace r2.2 = trace w2 ++ commands.
Proof.
  intros Hw1 Hw2 Hl1 Hl2 Hnow Hfc Hc1 Hc2 Hne r1 r2.
  unfold r1, r2. rewrite !Verify_failure_path by auto. cbv zeta.
  assert (live w1 (failCountKey zone phone) = live w2 (failCountKey zone phone))
    as Hlive by (unfold live; by rewrite Hfc, Hnow).
  rewrite Hlive.
  pose proof (KeyFacts.lockKey_ne_failCountKey zone phone) as Hk.
  destruct (3 <=? _); simpl.
  - split; [done|]. split; [by right|].
    unfold live. simpl. rewrite !lookup_insert_ne by done.
    rewrite Hfc, Hnow. split; [done|]. split; [done|].
    eexists. rewrite <- !app_assoc. split; reflexivity.
  - split; [done|]. split; [by left|].
    unfold live. simpl. rewrite !lookup_insert_eq. rewrite Hnow.
    split; [done|]. split; [done|].
    eexists. rewrite <- !app_assoc. split; reflexivity.
Qed.

(** Claim C7, as amended: the call that reaches the threshold writes the
    lockout mark and leaves the stored failure count as it is: it makes no
    delete and no write for it, so right after that call the failure count
    and the lockout mark are both present. *)
Theorem Verify_lock_keeps_count zone phone code codeType w :
  healthy w →
  live w (lockKey zone phone) = "" →
  (live w (cacheKey CacheKeySMSCode codeType zone phone) = ""
   ∨ live w (cacheKey CacheKeySMSCode codeType zone phone) ≠ code) →
  3 ≤ GoInt.incr (storedFailCount (live w (failCountKey zone phone))) →
  ∃ w',
    run (Verify CacheKeySMSCode zone phone code codeType) w
    = (Some errLockedNow, w')
    ∧ trace w' = trace w ++
        [EvGet (lockKey zone phone);
         EvGet (cacheKey CacheKeySMSCode codeType zone phone);
         EvGet (failCountKey zone phone);
         EvSet (lockKey zone phone) "1" (10 * Minute)]
    ∧ kv w' !! failCountKey zone phone = kv w !! failCountKey zone phone
    ∧ live w' (failCountKey zone phone) = live w (failCountKey zone phone)
    ∧ live w' (failCountKey zone phone) ≠ ""
    ∧ live w' (lockKey zone phone) = "1".
Proof.
  intros Hw Hlock Hcode Hn.
  rewrite Verify_failure_path by done. cbv zeta.
  destruct (Z.leb_spec 3
    (GoInt.incr (storedFailCount (live w (failCountKey zone phone)))))
    as [_|]; [|lia].
  pose proof (KeyFacts.lockKey_ne_failCountKey zone phone) as Hk.
  eexists. split; [reflexivity|].
  split; [simpl; by rewrite <- !app_assoc|].
  split; [simpl; by rewrite lookup_insert_ne|].
  split; [unfold live; simpl; by rewrite lookup_insert_ne|].
  split.
  - unfold live at 1. simpl. rewrite lookup_insert_ne by done.
    by apply count_present_at_threshold.
  - unfold live. simpl. rewrite lookup_insert_eq.
    assert ((now w <? now w + Minute * 10) = true) as ->
      by (apply Z.ltb_lt; unfold Minute; lia).
    done.
Qed.

(** Claim C9: once the two reads have found no lockout mark and a stored code
    equal to the presented one, [Verify] returns nil whatever the three
    deletes report; when the delete of the stored code fails, the code is
    still in the store afterwards. *)
Theorem Verify_success_ignores_deletes zone phone code codeType w :
  fault_at 0 w = false →
  fault_at 1 w = false →
  live w (lockKey zone phone) = "" →
  live w (cacheKey CacheKeySMSCode codeType zone phone) = code →
  code ≠ "" →
  ∃ w',
    run (Verify CacheKeySMSCode zone phone code codeType) w = (None, w')
    ∧ trace w' = trace w ++
        [EvGet (lockKey zone phone);
         EvGet (cacheKey CacheKeySMSCode codeType zone phone);
         EvDel (cacheKey CacheKeySMSCode codeType zone phone);
         EvDel (failCountKey zone phone);
         EvDel (lockKey zone phone)]
    ∧ (fault_at 2 w = true →
         kv w' !! cacheKey CacheKeySMSCode codeType zone phone
         = kv w !! cacheKey CacheKeySMSCode codeType zone phone
         ∧ live w' (cacheKey CacheKeySMSCode codeType zone phone) = code).
Proof.
  intros Hf0 Hf1 Hlock Hcode Hne.
  pose proof (KeyFacts.cacheKey_ne_lockKey CacheKeySMSCode codeType zone phone).
  pose proof (KeyFacts.cacheKey_ne_failCountKey
                CacheKeySMSCode codeType zone phone).
  assert (Hkeep : ∀ w',
    now w' = now w →
    kv w' !! cacheKey CacheKeySMSCode codeType zone phone
    = kv w !! cacheKey CacheKeySMSCode codeType zone phone →
    live w' (cacheKey CacheKeySMSCode codeType zone phone) = code).
  { intros w' Ht Hm. rewrite <- Hcode. unfold live. by rewrite Hm, Ht. }
  unfold Verify. run_get. rewrite Hlock. simpl negb. cbv iota.
  run_get. rewrite live_called, Hcode, nonempty_true by done.
  rewrite SubtleFacts.ConstantTimeCompare_refl. simpl andb. cbv iota.
  rewrite run_bind, run_Del, do_Del_any. fault_now.
  destruct (fault_at 2 w); cbn beta iota delta [fst snd];
    (rewrite run_bind, run_Del, do_Del_any; fault_now;
     destruct (fault_at 3 w); cbn beta iota delta [fst snd]);
    (rewrite run_bind, run_Del, do_Del_any; fault_now;
     destruct (fault_at 4 w); cbn beta iota delta [fst snd]);
    (eexists; split; [reflexivity|]; split;
     [simpl; by rewrite <- !app_assoc|]);
    intros ?; try done;
    (split; [|apply Hkeep; [done|]]; simpl;
     rewrite ?lookup_delete_ne by (by apply not_eq_sym); done).
Qed.

(** Claim C10: on the failure path, when the read of the failure count fails
    or returns something [strconv.Atoi] rejects, the count is taken as 0:
    the call writes the count 1 and returns the invalid-code error, the same
    as for an absent count. *)
Theorem Verify_count_unreadable zone phone code codeType w :
  fault_at 0 w = false →
  fault_at 1 w = false →
  live w (lockKey zone phone) = "" →
  (live w (cacheKey CacheKeySMSCode codeType zone phone) = ""
   ∨ live w (cacheKey CacheKeySMSCode codeType zone phone) ≠ code) →
  (fault_at 2 w = true
   ∨ GoInt.Atoi (live w (failCountKey zone phone)) = None) →
  ∃ w',
    run (Verify CacheKeySMSCode zone phone code codeType) w
    = (Some errInvalidCode, w')
    ∧ trace w' = trace w ++
        [EvGet (lockKey zone phone);
         EvGet (cacheKey CacheKeySMSCode codeType zone phone);
         EvGet (failCountKey zone phone);
         EvSet (failCountKey zone phone) "1" (10 * Minute)]
    ∧ (fault_at 3 w = false →
         kv w' = <[failCountKey zone phone := ("1", now w + 10 * Minute)]>
                   (kv w)).
Proof.
  intros Hf0 Hf1 Hlock Hcode Hbad.
  unfold Verify. run_get. rewrite Hlock. simpl negb. cbv iota.
  run_get. rewrite live_called, mismatch_fails by done.
  rewrite run_bind, run_GetString.
  set (w2 := called _ (called _ _)).
  assert (∃ s, do_GetString (failCountKey zone phone) w2
               = ((s, if fault_at 2 w then Some errRedis else None),
                  called (EvGet (failCountKey zone phone)) w2)
               ∧ storedFailCount s = 0) as (s & -> & Hs).
  { assert (fault_at 0 w2 = fault_at 2 w) as Hn by (unfold w2; by fault_now).
    destruct (fault_at 2 w) eqn:Hf2.
    - exists "". by rewrite do_GetString_fault.
    - exists (live w2 (failCountKey zone phone)).
      rewrite do_GetString_ok by done. split; [done|].
      destruct Hbad as [|Hbad]; [done|].
      unfold storedFailCount. unfold w2. rewrite !live_called, Hbad.
      by destruct (negb _). }
  cbn beta iota delta [fst snd].
  fold (storedFailCount s). rewrite Hs.
  change (3 <=? GoInt.incr 0) with false. cbv iota.
  change (GoInt.itoa (GoInt.incr 0)) with "1".
  rewrite run_bind, run_SetAndExpire, do_SetAndExpire_any.
  cbn beta iota delta [fst snd]. unfold w2. fault_now.
  destruct (fault_at 3 w); cbv iota;
    (eexists; split; [reflexivity|]); simpl;
    (split; [by rewrite <- !app_assoc|done]).
Qed.

(** Claim C8, as amended: counting is a read followed by a separate write.
    Two failed verifications of one identity, starting without a count: run
    one after the other they leave the count 2; when both read the count
    before either writes they leave the count 1, although both report an
    invalid code. *)
Theorem Verify_counting_not_atomic zone phone code1 code2
    codeType1 codeType2 w :
  healthy w →
  live w (lockKey zone phone) = "" →
  live w (failCountKey zone phone) = "" →
  (live w (cacheKey CacheKeySMSCode codeType1 zone phone) = ""
   ∨ live w (cacheKey CacheKeySMSCode codeType1 zone phone) ≠ code1) →
  (live w (cacheKey CacheKeySMSCode codeType2 zone phone) = ""
   ∨ live w (cacheKey CacheKeySMSCode codeType2 zone phone) ≠ code2) →
  let first := Verify CacheKeySMSCode zone phone code1 codeType1 in
  let second := Verify CacheKeySMSCode zone phone code2 codeType2 in
  let serial := run_par [] first second w in
  let overlapped :=
    run_par [true; true; true; false; false; false] first second w in
  serial.1 = (Some errInvalidCode, Some errInvalidCode)
  ∧ live serial.2 (failCountKey zone phone) = "2"
  ∧ overlapped.1 = (Some errInvalidCode, Some errInvalidCode)
  ∧ live overlapped.2 (failCountKey zone phone) = "1".
Proof.
  intros Hw Hlock Hcount H1 H2 first second serial overlapped.
  pose proof (KeyFacts.lockKey_ne_failCountKey zone phone) as Hlf.
  pose proof (KeyFacts.cacheKey_ne_failCountKey CacheKeySMSCode codeType2
                zone phone) as Hcf.
  pose proof mismatch_fails as Hfail.
  assert (Hfresh : (now w <? now w + Minute * 10) = true)
    by (apply Z.ltb_lt; unfold Minute; lia).
  assert (serial.1 = (Some errInvalidCode, Some errInvalidCode)
          ∧ live serial.2 (failCountKey zone phone) = "2") as Hserial.
  { unfold serial, first, second. rewrite run_par_done.
    rewrite (Verify_failure_path zone phone code1) by done. cbv zeta.
    rewrite Hcount. change (3 <=? GoInt.incr (storedFailCount "")) with false.
    cbv iota. cbn beta iota delta [fst snd].
    change (GoInt.itoa (GoInt.incr (storedFailCount ""))) with "1".
    set (w1 := called _ _).
    assert (live w1 (failCountKey zone phone) = "1") as Hc1
      by (unfold live; simpl; by rewrite lookup_insert_eq, Hfresh).
    assert (live w1 (lockKey zone phone) = "") as Hl1
      by (unfold live; simpl;
          by rewrite lookup_insert_ne by (by apply not_eq_sym)).
    rewrite Verify_failure_path.
    - cbv zeta. rewrite Hc1.
      change (3 <=? GoInt.incr (storedFailCount "1")) with false. cbv iota.
      split; [done|]. unfold live. simpl. by rewrite lookup_insert_eq, Hfresh.
    - unfold w1. eauto 10 with world.
    - done.
    - unfold live. simpl. by rewrite lookup_insert_ne by (by apply not_eq_sym). }
  split; [apply Hserial|]. split; [apply Hserial|].
  unfold overlapped, first, second, Verify.
  rewrite run_par_first. step_get. rewrite Hlock. simpl negb. cbv iota.
  rewrite run_par_first. step_get. rewrite live_called, Hfail by done.
  rewrite run_par_first. step_get. rewrite !live_called, Hcount.
  simpl negb. cbv iota zeta.
  change (3 <=? GoInt.incr 0) with false. cbv iota.
  rewrite run_par_second. step_get. rewrite !live_called, Hlock.
  simpl negb. cbv iota.
  rewrite run_par_second. step_get. rewrite !live_called, Hfail by done.
  rewrite run_par_second. step_get. rewrite !live_called, Hcount.
  simpl negb. cbv iota zeta.
  change (3 <=? GoInt.incr 0) with false. cbv iota.
  change (GoInt.itoa (GoInt.incr 0)) with "1".
  rewrite run_par_done.
  run_set. rewrite run_Ret. cbn beta iota delta [fst snd].
  run_set. rewrite run_Ret. cbn beta iota delta [fst snd].
  split; [done|]. unfold live. simpl. by rewrite lookup_insert_eq, Hfresh.
Qed.

(** *** Issuance *)

(** A call of [SendVerifyCode] that returns nil has written the cooldown
    mark. *)
Lemma SendVerifyCode_nil_marks zone phone codeType w w1 :
  run (SendVerifyCode CacheKeySMSCode cfg zone phone codeType) w = (None, w1) →
  kv w1 !! rateLimitKey zone phone = Some ("1", now w + Minute)
  ∧ now w1 = now w.
Proof.
  unfold SendVerifyCode. rewrite run_bind, run_GetString.
  unfold do_GetString. destruct (fault_at 0 w); cbn beta iota delta [fst snd];
    [done|].
  destruct (negb _); [done|].
  destruct (resolveProvider cfg zone) as [smsProvider|]; [|done].
  rewrite run_bind. unfold generateSecureVerifyCode.
  destruct (generateLoop_frame 4 "" (called (EvGet (rateLimitKey zone phone)) w))
    as [Hkv Hnow].
  destruct (run (generateLoop 4 "") _) as [[verifyCode [e|]] w2];
    cbn beta iota delta [fst snd] in *; [done|].
  rewrite run_bind, run_SetAndExpire, do_SetAndExpire_any.
  destruct (fault_at 0 w2); cbn beta iota delta [fst snd]; [done|].
  rewrite run_bind, run_SetAndExpire, do_SetAndExpire_any.
  destruct (fault_at 0 _); cbn beta iota delta [fst snd]; [done|].
  rewrite run_SendSMS. unfold do_SendSMS. intros [= _ <-]. simpl.
  rewrite lookup_insert_eq. by rewrite Hnow.
Qed.

(** Claim C4: when the read of the cooldown mark returns a non-empty value,
    [SendVerifyCode] fails with the too-frequent error and the store is
    unchanged; the key of the mark is built from zone and phone only, so for
    59 seconds and less after a call that returned nil, a further call for
    the same identity and any purpose fails with that error. *)
Theorem SendVerifyCode_throttled zone phone :
  (∀ codeType w,
     fault_at 0 w = false →
     live w (rateLimitKey zone phone) ≠ "" →
     ∃ w',
       run (SendVerifyCode CacheKeySMSCode cfg zone phone codeType) w
       = (Some errTooFrequent, w')
       ∧ kind errTooFrequent = RateLimited
       ∧ kv w' = kv w
       ∧ trace w' = trace w ++ [EvGet (rateLimitKey zone phone)])
  ∧ (∀ codeType1 codeType2 w w1 d,
       run (SendVerifyCode CacheKeySMSCode cfg zone phone codeType1) w
       = (None, w1) →
       0 ≤ d < Minute →
       fault_at 0 w1 = false →
       (run (SendVerifyCode CacheKeySMSCode cfg zone phone codeType2)
          (advance d w1)).1 = Some errTooFrequent).
Proof.
  assert (Hthrottle : ∀ codeType w,
     fault_at 0 w = false →
     live w (rateLimitKey zone phone) ≠ "" →
     run (SendVerifyCode CacheKeySMSCode cfg zone phone codeType) w
     = (Some errTooFrequent, called (EvGet (rateLimitKey zone phone)) w)).
  { intros codeType w Hf Hl. unfold SendVerifyCode. run_get.
    by rewrite nonempty_true by done. }
  split.
  - intros codeType w Hf Hl. eexists. split; [by apply Hthrottle|done].
  - intros codeType1 codeType2 w w1 d Hrun Hd Hf.
    apply SendVerifyCode_nil_marks in Hrun as [Hmark Hnow].
    rewrite Hthrottle; [done|done|].
    unfold live. simpl. rewrite Hmark, Hnow.
    by rewrite not_expired by lia.
Qed.

(** *** A configuration without a provider never sets a cooldown mark *)

Lemma rateLimitKey_ne_lockKey zone phone zone' phone' :
  rateLimitKey zone phone ≠ lockKey zone' phone'.
Proof. unfold rateLimitKey, lockKey. rewrite !KeyFacts.app_cons. congruence. Qed.

Lemma rateLimitKey_ne_failCountKey zone phone zone' phone' :
  rateLimitKey zone phone ≠ failCountKey zone' phone'.
Proof.
  unfold rateLimitKey, failCountKey. rewrite !KeyFacts.app_cons. congruence.
Qed.

Lemma resolveProvider_None zone :
  resolveProvider cfg zone = None ↔ SMSProvider cfg = SMSProviderOther.
Proof.
  unfold resolveProvider. destruct (SMSProvider cfg); try done.
  by destruct (_ && _).
Qed.

(** Whatever the faults, [Verify] writes under the lock key and the
    failure-count key only, and otherwise deletes. *)
Lemma Verify_keeps_absent zone phone code codeType w key :
  key ≠ lockKey zone phone →
  key ≠ failCountKey zone phone →
  kv w !! key = None →
  kv (run (Verify CacheKeySMSCode zone phone code codeType) w).2 !! key = None.
Proof.
  intros Hl Hf Hkey. unfold Verify.
  rewrite run_bind, run_GetString, do_GetString_any.
  destruct (fault_at 0 w); cbn beta iota delta [fst snd]; [done|].
  destruct (negb _); [done|].
  rewrite run_bind, run_GetString, do_GetString_any. fault_now.
  destruct (fault_at 1 w); cbn beta iota delta [fst snd]; [done|].
  destruct (_ && _).
  - rewrite run_bind, run_Del, do_Del_any. fault_now.
    destruct (fault_at 2 w); cbn beta iota delta [fst snd];
      (rewrite run_bind, run_Del, do_Del_any; fault_now;
       destruct (fault_at 3 w); cbn beta iota delta [fst snd]);
      (rewrite run_bind, run_Del, do_Del_any; fault_now;
       destruct (fault_at 4 w); cbn beta iota delta [fst snd]);
      rewrite run_Ret; simpl; rewrite ?lookup_delete_None; tauto.
  - rewrite run_bind, run_GetString, do_GetString_any. fault_now.
    set (r := if fault_at 2 w then _ else _). destruct r as [failCountStr e].
    cbn beta iota delta [fst snd].
    destruct (3 <=? _);
      rewrite run_bind, run_SetAndExpire, do_SetAndExpire_any;
      cbn beta iota delta [fst snd]; fault_now; rewrite run_Ret;
      destruct (fault_at 3 w); simpl; try done;
      by rewrite lookup_insert_ne by (by apply not_eq_sym).
Qed.

(** Without a provider [SendVerifyCode] writes nothing, whatever the
    faults. *)
Lemma SendVerifyCode_unconfigured_frame zone phone codeType w :
  resolveProvider cfg zone = None →
  kv (run (SendVerifyCode CacheKeySMSCode cfg zone phone codeType) w).2 = kv w.
Proof.
  intros Hnone. unfold SendVerifyCode.
  rewrite run_bind, run_GetString, do_GetString_any.
  destruct (fault_at 0 w); cbn beta iota delta [fst snd]; [done|].
  destruct (negb _); [done|]. by rewrite Hnone.
Qed.

Lemma unconfigured_never_marks w :
  SMSProvider cfg = SMSProviderOther →
  reachable CacheKeySMSCode cfg w →
  ∀ zone phone, kv w !! rateLimitKey zone phone = None.
Proof.
  intros Hcfg Hw. induction Hw as [t fl en|c w Hw IH|d w Hd Hw IH];
    intros zone phone.
  - apply lookup_empty.
  - destruct c as [zone' phone' codeType|zone' phone' code codeType];
      unfold perform.
    + rewrite SendVerifyCode_unconfigured_frame; [apply IH|].
      by apply resolveProvider_None.
    + apply Verify_keeps_absent; [|by apply rateLimitKey_ne_failCountKey|done].
      apply rateLimitKey_ne_lockKey.
  - apply IH.
Qed.

(** Claim C5: under a configuration without a provider, in every state the
    service reaches from an empty store, [SendVerifyCode] fails with the
    no-provider error after the one read of the cooldown mark and has
    written nothing.  When the call gets to resolve a provider (the cooldown
    check has passed) and the code is generated and both writes succeed, the
    stored code, with a five-minute expiry, and the cooldown mark, with a
    one-minute expiry, are written before the delivery; both stay when the
    delivery fails, and the error of the delivery is returned. *)
Theorem SendVerifyCode_provider zone phone codeType :
  (resolveProvider cfg zone = None →
   ∀ w,
     reachable CacheKeySMSCode cfg w →
     fault_at 0 w = false →
     ∃ w',
       run (SendVerifyCode CacheKeySMSCode cfg zone phone codeType) w
       = (Some errNoSMSProvider, w')
       ∧ kind errNoSMSProvider = NoProviderConfigured
       ∧ kv w' = kv w
       ∧ trace w' = trace w ++ [EvGet (rateLimitKey zone phone)])
  ∧ (∀ smsProvider w,
       resolveProvider cfg zone = Some smsProvider →
       (∀ i, (i < 7)%nat → fault_at i w = false) →
       live w (rateLimitKey zone phone) = "" →
       ∃ verifyCode w',
         run (SendVerifyCode CacheKeySMSCode cfg zone phone codeType) w
         = (if fault_at 7 w then Some errProvider else None, w')
         ∧ kind errProvider = DeliveryFailed
         ∧ kv w' = <[rateLimitKey zone phone := ("1", now w + Minute)]>
                     (<[cacheKey CacheKeySMSCode codeType zone phone
                        := (verifyCode, now w + 5 * Minute)]> (kv w))
         ∧ trace w' = trace w ++
             [EvGet (rateLimitKey zone phone);
              EvRand; EvRand; EvRand; EvRand;
              EvSet (cacheKey CacheKeySMSCode codeType zone phone) verifyCode
                (5 * Minute);
              EvSet (rateLimitKey zone phone) "1" Minute;
              EvSend smsProvider zone phone verifyCode]).
Proof.
  split.
  - intros Hnone w Hw Hf.
    assert (live w (rateLimitKey zone phone) = "") as Hrate.
    { unfold live. rewrite (unconfigured_never_marks w); [done| |done].
      by apply (resolveProvider_None zone). }
    unfold SendVerifyCode. run_get. rewrite Hrate. simpl negb. cbv iota.
    rewrite Hnone. eexists. split; [reflexivity|]. done.
  - intros smsProvider w Hsome Hf Hrate. unfold SendVerifyCode.
    rewrite run_bind, run_GetString, do_GetString_ok by (apply Hf; lia).
    cbn beta iota delta [fst snd]. rewrite Hrate. simpl negb. cbv iota.
    rewrite Hsome.
    rewrite run_bind. unfold generateSecureVerifyCode.
    destruct (generateLoop_ok 4 "" (called (EvGet (rateLimitKey zone phone)) w))
      as (verifyCode & w1 & -> & Hkv & Hnow & Hfl & Htr).
    { intros i Hi. rewrite fault_at_called. apply Hf. lia. }
    cbn beta iota delta [fst snd].
    assert (Hfl' : ∀ i, fault_at i w1 = fault_at (5 + i) w)
      by (intros i; by rewrite Hfl, fault_at_called).
    rewrite run_bind, run_SetAndExpire, do_SetAndExpire_ok
      by (rewrite Hfl'; apply Hf; lia).
    cbn beta iota delta [fst snd].
    rewrite run_bind, run_SetAndExpire, do_SetAndExpire_ok
      by (fault_now; rewrite Hfl'; apply Hf; lia).
    cbn beta iota delta [fst snd].
    rewrite run_SendSMS. unfold do_SendSMS. fault_now. rewrite Hfl'.
    exists verifyCode. eexists. split; [reflexivity|].
    split; [done|]. simpl. rewrite Hkv, Hnow, Htr. simpl.
    split; [done|]. by rewrite <- !app_assoc.
Qed.

End Properties.

(** * The scenario, checked *)

Import Scenario.

(** Claim C1 as stated fails on a locked identity.  Three wrong codes lock
    the identity; a code is then issued (issuance does not look at the
    lockout mark) and presented at once: it is stored and equal to the
    presented one, yet [Verify] does not succeed. *)
Lemma Verify_success_once_counterexample :
  let wrong := Verify smscode zone phone "0000" login in
  let w3 := (run wrong (run wrong (run wrong fresh).2).2).2 in
  let sent := run (SendVerifyCode smscode unisms zone phone login) w3 in
  healthy sent.2
  ∧ sent.1 = None
  ∧ live sent.2 (cacheKey smscode login zone phone) = "3452"
  ∧ (run (Verify smscode zone phone "3452" login) sent.2).1 = Some errLocked
  ∧ kind errLocked = TooManyAttempts.
Proof.
  split; [by constructor|]. split; [by vm_compute|].
  split; [by vm_compute|]. split; by vm_compute.
Qed.

Lemma Verify_success_once_witness :
  healthy issued
  ∧ live issued (lockKey zone phone) = ""
  ∧ live issued (cacheKey smscode login zone phone) = "3452"
  ∧ "3452" ≠ ""
  ∧ ∃ w1,
      run (Verify smscode zone phone "3452" login) issued = (None, w1)
      ∧ (run (Verify smscode zone phone "3452" login) (advance 0 w1)).1
        = Some errInvalidCode.
Proof.
  assert (H1 : healthy issued) by (by constructor).
  assert (H2 : live issued (lockKey zone phone) = "") by (by vm_compute).
  assert (H3 : live issued (cacheKey smscode login zone phone) = "3452")
    by (by vm_compute).
  assert (H4 : "3452" ≠ "") by done.
  repeat (split; [assumption|]).
  destruct (Verify_success_once smscode zone phone "3452" login issued 0
              H1 H2 H3 H4) as (w1 & E1 & _ & _ & E2 & _).
  by exists w1.
Defined.

Lemma Verify_failure_counts_witness :
  healthy fresh
  ∧ live fresh (lockKey zone phone) = ""
  ∧ live fresh (failCountKey zone phone) = ""
  ∧ live fresh (cacheKey smscode 1 zone phone) = ""
  ∧ live fresh (cacheKey smscode 2 zone phone) = ""
  ∧ (∃ r w',
       run (Verify smscode zone phone "0000" 1) fresh = (Some r, w')
       ∧ r = errInvalidCode)
  ∧ let r1 := run (Verify smscode zone phone "0000" 1) fresh in
    let r2 := run (Verify smscode zone phone "1111" 2) (advance 10 r1.2) in
    let r3 := run (Verify smscode zone phone "2222" 1) (advance 20 r2.2) in
    r3.1 = Some errLockedNow.
Proof.
  assert (H1 : healthy fresh) by (by constructor).
  assert (H2 : live fresh (lockKey zone phone) = "") by (by vm_compute).
  assert (H3 : live fresh (failCountKey zone phone) = "") by (by vm_compute).
  assert (H4 : live fresh (cacheKey smscode 1 zone phone) = "")
    by (by vm_compute).
  assert (H5 : live fresh (cacheKey smscode 2 zone phone) = "")
    by (by vm_compute).
  repeat (split; [assumption|]).
  destruct (Verify_failure_counts smscode zone phone) as [Hstep Hthree].
  split.
  - destruct (Hstep "0000" 1 fresh H1 H2 (or_introl H4))
      as (r & w' & E & Hlow & _).
    exists r, w'. split; [exact E|]. apply Hlow. by vm_compute.
  - apply (Hthree "0000" "1111" "2222" 1 2 1 10 20 fresh H1 H2 H3
             (or_introl H4) (or_introl H5) (or_introl H4));
      unfold Minute; lia.
Defined.

Lemma Verify_locked_witness :
  fault_at 0 locked = false
  ∧ live locked (lockKey zone phone) ≠ ""
  ∧ (run (Verify smscode zone phone "3452" login) locked).1 = Some errLocked.
Proof.
  assert (H1 : fault_at 0 locked = false) by reflexivity.
  assert (H2 : live locked (lockKey zone phone) ≠ "") by (by vm_compute).
  split; [exact H1|]. split; [exact H2|].
  destruct (Verify_locked smscode zone phone "3452" login locked H1 H2)
    as (w' & -> & _).
  reflexivity.
Defined.

Lemma SendVerifyCode_throttled_witness :
  fault_at 0 issued = false
  ∧ live issued (rateLimitKey zone phone) ≠ ""
  ∧ (run (SendVerifyCode smscode unisms zone phone 2) issued).1
    = Some errTooFrequent
  ∧ (run (SendVerifyCode smscode unisms zone phone login) fresh).1 = None
  ∧ (run (SendVerifyCode smscode unisms zone phone 2)
       (advance 59 (run (SendVerifyCode smscode unisms zone phone login)
                      fresh).2)).1
    = Some errTooFrequent.
Proof.
  assert (H1 : fault_at 0 issued = false) by reflexivity.
  assert (H2 : live issued (rateLimitKey zone phone) ≠ "") by (by vm_compute).
  assert (H3 : run (SendVerifyCode smscode unisms zone phone login) fresh
               = (None, (run (SendVerifyCode smscode unisms zone phone login)
                           fresh).2)) by (by vm_compute).
  destruct (SendVerifyCode_throttled smscode unisms zone phone)
    as [Hmark Hagain].
  split; [exact H1|]. split; [exact H2|]. split; [|split].
  - destruct (Hmark 2 issued H1 H2) as (w' & -> & _). reflexivity.
  - by rewrite H3.
  - apply (Hagain login 2 fresh _ 59 H3); [unfold Minute; lia|reflexivity].
Defined.

(** A cooldown mark left in the store by a differently configured instance
    is honoured first: the call is throttled before the provider is looked
    up. *)
Lemma throttle_precedes_provider_lookup :
  resolveProvider unconfigured zone = None
  ∧ (run (SendVerifyCode smscode unconfigured zone phone login) issued).1
    = Some errTooFrequent.
Proof. split; [reflexivity|]. by vm_compute. Qed.

Lemma SendVerifyCode_provider_witness :
  resolveProvider unconfigured zone = None
  ∧ reachable smscode unconfigured fresh
  ∧ fault_at 0 fresh = false
  ∧ resolveProvider unisms zone = Some UnismsProvider
  ∧ (∀ i, (i < 7)%nat → fault_at i delivery_fails = false)
  ∧ live delivery_fails (rateLimitKey zone phone) = ""
  ∧ (∃ w',
       run (SendVerifyCode smscode unconfigured zone phone login) fresh
       = (Some errNoSMSProvider, w')
       ∧ kv w' = kv fresh)
  ∧ (∃ verifyCode w',
       run (SendVerifyCode smscode unisms zone phone login) delivery_fails
       = (Some errProvider, w')
       ∧ kv w' = <[rateLimitKey zone phone := ("1", 1000 + Minute)]>
                   (<[cacheKey smscode login zone phone
                      := (verifyCode, 1000 + 5 * Minute)]> ∅)).
Proof.
  assert (H1 : resolveProvider unconfigured zone = None) by reflexivity.
  assert (H2 : reachable smscode unconfigured fresh) by apply reachable_start.
  assert (H3 : fault_at 0 fresh = false) by reflexivity.
  assert (H4 : resolveProvider unisms zone = Some UnismsProvider)
    by reflexivity.
  assert (H5 : ∀ i, (i < 7)%nat → fault_at i delivery_fails = false).
  { intros i Hi. do 7 (destruct i as [|i]; [reflexivity|]). lia. }
  assert (H6 : live delivery_fails (rateLimitKey zone phone) = "")
    by (by vm_compute).
  repeat (split; [assumption|]).
  split.
  - destruct (SendVerifyCode_provider smscode unconfigured zone phone login)
      as [Hnone _].
    destruct (Hnone H1 fresh H2 H3) as (w' & E & _ & Hkv & _). by exists w'.
  - destruct (SendVerifyCode_provider smscode unisms zone phone login)
      as [_ Hsome].
    destruct (Hsome UnismsProvider delivery_fails H4 H5 H6)
      as (verifyCode & w' & E & _ & Hkv & _).
    change (fault_at 7 delivery_fails) with true in E.
    by exists verifyCode, w'.
Defined.

Lemma Verify_absent_like_wrong_witness :
  live fresh (cacheKey smscode login zone phone) = ""
  ∧ live issued (cacheKey smscode login zone phone) ≠ ""
  ∧ live issued (cacheKey smscode login zone phone) ≠ "0000"
  ∧ (run (Verify smscode zone phone "0000" login) fresh).1
    = (run (Verify smscode zone phone "0000" login) issued).1
  ∧ live (run (Verify smscode zone phone "0000" login) fresh).2
      (failCountKey zone phone)
    = live (run (Verify smscode zone phone "0000" login) issued).2
        (failCountKey zone phone).
Proof.
  assert (H1 : live fresh (cacheKey smscode login zone phone) = "")
    by (by vm_compute).
  assert (H2 : live issued (cacheKey smscode login zone phone) ≠ "")
    by (by vm_compute).
  assert (H3 : live issued (cacheKey smscode login zone phone) ≠ "0000")
    by (by vm_compute).
  assert (H4 : healthy fresh) by (by constructor).
  assert (H5 : healthy issued) by (by constructor).
  assert (H6 : live fresh (lockKey zone phone) = "") by (by vm_compute).
  assert (H7 : live issued (lockKey zone phone) = "") by (by vm_compute).
  assert (H8 : kv fresh !! failCountKey zone phone
               = kv issued !! failCountKey zone phone) by (by vm_compute).
  repeat (split; [assumption|]).
  destruct (Verify_absent_like_wrong smscode zone phone "0000" login
              fresh issued H4 H5 H6 H7 eq_refl H8 H1 H2 H3)
    as (E & _ & _ & L & _).
  split; [exact E|exact L].
Defined.

(** Claim C7 as stated fails: after three failed verifications on an empty
    store the failure count and the lockout mark are both present. *)
Lemma mutual_exclusion_counterexample :
  let attempt := Verify smscode zone phone "0000" login in
  let after := (run attempt (run attempt (run attempt fresh).2).2).2 in
  live after (lockKey zone phone) = "1"
  ∧ live after (failCountKey zone phone) = "2".
Proof. by vm_compute. Qed.

Lemma Verify_lock_keeps_count_witness :
  healthy twice_failed
  ∧ live twice_failed (lockKey zone phone) = ""
  ∧ live twice_failed (cacheKey smscode login zone phone) = ""
  ∧ 3 ≤ GoInt.incr
          (storedFailCount (live twice_failed (failCountKey zone phone)))
  ∧ ∃ w',
      run (Verify smscode zone phone "0000" login) twice_failed
      = (Some errLockedNow, w')
      ∧ live w' (failCountKey zone phone) = "2"
      ∧ live w' (lockKey zone phone) = "1".
Proof.
  assert (H1 : healthy twice_failed) by (by constructor).
  assert (H2 : live twice_failed (lockKey zone phone) = "") by (by vm_compute).
  assert (H3 : live twice_failed (cacheKey smscode login zone phone) = "")
    by (by vm_compute).
  assert (H4 : 3 ≤ GoInt.incr
                     (storedFailCount
                        (live twice_failed (failCountKey zone phone))))
    by (by vm_compute).
  repeat (split; [assumption|]).
  destruct (Verify_lock_keeps_count smscode zone phone "0000" login
              twice_failed H1 H2 (or_introl H3) H4)
    as (w' & E & _ & _ & Hsame & _ & Hlock).
  exists w'. split; [exact E|]. split; [|exact Hlock].
  rewrite Hsame. by vm_compute.
Defined.

(** Claim C8 as stated fails: two failed verifications whose commands
    interleave both read the absent count and both write 1. *)
Lemma atomic_counting_counterexample :
  let attempt := Verify smscode zone phone "0000" login in
  let r := run_par overlap attempt attempt fresh in
  r.1 = (Some errInvalidCode, Some errInvalidCode)
  ∧ live r.2 (failCountKey zone phone) = "1"
  ∧ trace r.2 =
      [EvGet (lockKey zone phone);
       EvGet (cacheKey smscode login zone phone);
       EvGet (failCountKey zone phone);
       EvGet (lockKey zone phone);
       EvGet (cacheKey smscode login zone phone);
       EvGet (failCountKey zone phone);
       EvSet (failCountKey zone phone) "1" 600;
       EvSet (failCountKey zone phone) "1" 600].
Proof. by vm_compute. Qed.

Lemma Verify_counting_not_atomic_witness :
  healthy fresh
  ∧ live fresh (lockKey zone phone) = ""
  ∧ live fresh (failCountKey zone phone) = ""
  ∧ live fresh (cacheKey smscode login zone phone) = ""
  ∧ live (run_par [] (Verify smscode zone phone "0000" login)
            (Verify smscode zone phone "1111" login) fresh).2
      (failCountKey zone phone) = "2"
  ∧ live (run_par overlap (Verify smscode zone phone "0000" login)
            (Verify smscode zone phone "1111" login) fresh).2
      (failCountKey zone phone) = "1".
Proof.
  assert (H1 : healthy fresh) by (by constructor).
  assert (H2 : live fresh (lockKey zone phone) = "") by (by vm_compute).
  assert (H3 : live fresh (failCountKey zone phone) = "") by (by vm_compute).
  assert (H4 : live fresh (cacheKey smscode login zone phone) = "")
    by (by vm_compute).
  repeat (split; [assumption|]).
  destruct (Verify_counting_not_atomic smscode zone phone "0000" "1111"
              login login fresh H1 H2 H3 (or_introl H4) (or_introl H4))
    as (_ & Hserial & _ & Hoverlap).
  split; [exact Hserial|exact Hoverlap].
Defined.

Lemma Verify_success_ignores_deletes_witness :
  fault_at 0 delete_fails = false
  ∧ fault_at 1 delete_fails = false
  ∧ live delete_fails (lockKey zone phone) = ""
  ∧ live delete_fails (cacheKey smscode login zone phone) = "3452"
  ∧ "3452" ≠ ""
  ∧ fault_at 2 delete_fails = true
  ∧ ∃ w',
      run (Verify smscode zone phone "3452" login) delete_fails = (None, w')
      ∧ live w' (cacheKey smscode login zone phone) = "3452".
Proof.
  assert (H0 : fault_at 0 delete_fails = false) by reflexivity.
  assert (H1 : fault_at 1 delete_fails = false) by reflexivity.
  assert (H2 : live delete_fails (lockKey zone phone) = "") by (by vm_compute).
  assert (H3 : live delete_fails (cacheKey smscode login zone phone) = "3452")
    by (by vm_compute).
  assert (H4 : "3452" ≠ "") by done.
  assert (H5 : fault_at 2 delete_fails = true) by reflexivity.
  repeat (split; [assumption|]).
  destruct (Verify_success_ignores_deletes smscode zone phone "3452" login
              delete_fails H0 H1 H2 H3 H4)
    as (w' & E & _ & Hkept).
  exists w'. split; [exact E|]. by apply Hkept.
Defined.

Lemma Verify_count_unreadable_witness :
  fault_at 0 count_read_fails = false
  ∧ fault_at 1 count_read_fails = false
  ∧ live count_read_fails (lockKey zone phone) = ""
  ∧ live count_read_fails (cacheKey smscode login zone phone) = ""
  ∧ fault_at 2 count_read_fails = true
  ∧ GoInt.Atoi (live count_garbled (failCountKey zone phone)) = None
  ∧ (∃ w',
       run (Verify smscode zone phone "0000" login) count_read_fails
       = (Some errInvalidCode, w')
       ∧ kv w' = <[failCountKey zone phone := ("1", 1000 + 10 * Minute)]> ∅)
  ∧ (∃ w',
       run (Verify smscode zone phone "0000" login) count_garbled
       = (Some errInvalidCode, w')
       ∧ kv w' = <[failCountKey zone phone := ("1", 1000 + 10 * Minute)]>
                   (kv count_garbled)).
Proof.
  assert (H0 : fault_at 0 count_read_fails = false) by reflexivity.
  assert (H1 : fault_at 1 count_read_fails = false) by reflexivity.
  assert (H2 : live count_read_fails (lockKey zone phone) = "")
    by (by vm_compute).
  assert (H3 : live count_read_fails (cacheKey smscode login zone phone) = "")
    by (by vm_compute).
  assert (H4 : fault_at 2 count_read_fails = true) by reflexivity.
  assert (H5 : GoInt.Atoi (live count_garbled (failCountKey zone phone)) = None)
    by (by vm_compute).
  repeat (split; [assumption|]).
  split.
  - destruct (Verify_count_unreadable smscode zone phone "0000" login
                count_read_fails H0 H1 H2 (or_introl H3) (or_introl H4))
      as (w' & E & _ & Hkv).
    exists w'. split; [exact E|]. by apply Hkv.
  - assert (G0 : fault_at 0 count_garbled = false) by reflexivity.
    assert (G1 : fault_at 1 count_garbled = false) by reflexivity.
    assert (G2 : live count_garbled (lockKey zone phone) = "")
      by (by vm_compute).
    assert (G3 : live count_garbled (cacheKey smscode login zone phone) = "")
      by (by vm_compute).
    destruct (Verify_count_unreadable smscode zone phone "0000" login
                count_garbled G0 G1 G2 (or_introl G3) (or_intror H5))
      as (w' & E & _ & Hkv).
    exists w'. split; [exact E|]. by apply Hkv.
Defined.

(** * Further properties *)

(** ** [%d] and [strconv.Atoi] undo each other *)

Module GoIntFacts.
Import GoInt.

Lemma digit_val_char (d : Z) : 0 ≤ d < 10 → digit_val (digit_char d) = Some d.
Proof.
  intros H.
  assert (d = 0 ∨ d = 1 ∨ d = 2 ∨ d = 3 ∨ d = 4 ∨ d = 5 ∨ d = 6 ∨ d = 7
          ∨ d = 8 ∨ d = 9) as Hd by lia.
  repeat (destruct Hd as [->|Hd]; [reflexivity|]). by subst.
Qed.

Lemma digit_not_sign (c : ascii) (d : Z) :
  digit_val c = Some d → Ascii.eqb c "-" = false ∧ Ascii.eqb c "+" = false.
Proof.
  intros H. split; apply Ascii.eqb_neq; intros ->; discriminate.
Qed.

Lemma parse_digits_app (s1 s2 : string) : ∀ a,
  parse_digits (s1 +:+ s2) a
  = match parse_digits s1 a with
    | Some a' => parse_digits s2 a'
    | None => None
    end.
Proof.
  induction s1 as [|c s1 IH]; intros a; [done|].
  rewrite KeyFacts.app_cons. simpl. destruct (digit_val c); [apply IH|done].
Qed.

Lemma utoa_go_acc (fuel : nat) : ∀ n acc,
  utoa_go fuel n acc = utoa_go fuel n "" +:+ acc.
Proof.
  induction fuel as [|fuel IH]; intros n acc; [done|].
  simpl. destruct (n / 10 =? 0); [done|].
  rewrite IH, (IH _ (String _ "")), KeyFacts.app_assoc. done.
Qed.

Lemma utoa_go_nonempty (fuel : nat) (n : Z) (acc : string) :
  utoa_go (S fuel) n acc ≠ "".
Proof.
  simpl. destruct (n / 10 =? 0); [done|].
  rewrite utoa_go_acc. intros H%(f_equal String.length).
  rewrite KeyFacts.length_app in H. simpl in H. lia.
Qed.

Lemma parse_utoa_go (fuel : nat) : ∀ n,
  0 ≤ n < 2 ^ Z.of_nat fuel → (1 ≤ fuel)%nat →
  parse_digits (utoa_go fuel n "") 0 = Some n.
Proof.
  induction fuel as [|fuel IH]; intros n Hn Hf; [lia|].
  assert (0 ≤ n mod 10 < 10) as Hd by (apply Z.mod_pos_bound; lia).
  pose proof (Z.div_mod n 10 ltac:(lia)) as Hdm.
  simpl. destruct (Z.eqb_spec (n / 10) 0) as [Hz|Hnz].
  - simpl. rewrite digit_val_char by done. f_equal. lia.
  - rewrite utoa_go_acc, parse_digits_app.
    assert (0 < n / 10) by (pose proof (Z.div_pos n 10); lia).
    assert (n / 10 < 2 ^ Z.of_nat fuel).
    { rewrite Nat2Z.inj_succ, Z.pow_succ_r in Hn by lia.
      apply Z.div_lt_upper_bound; lia. }
    rewrite IH; [|lia|].
    + simpl. rewrite digit_val_char by done. f_equal. lia.
    + destruct fuel; [|lia]. simpl in *. lia.
Qed.

Lemma parse_utoa (n : Z) : 0 ≤ n → parse_digits (utoa n) 0 = Some n.
Proof.
  intros Hn. unfold utoa. apply parse_utoa_go; [|lia].
  split; [done|]. rewrite Nat2Z.inj_succ, Z2Nat.id by apply Z.log2_nonneg.
  destruct (Z.eq_dec n 0) as [->|]; [done|].
  apply Z.log2_spec. lia.
Qed.

Lemma utoa_head (n : Z) :
  0 ≤ n → ∃ c rest d, utoa n = String c rest ∧ digit_val c = Some d.
Proof.
  intros Hn. pose proof (parse_utoa n Hn) as Hp.
  pose proof (utoa_go_nonempty (Z.to_nat (Z.log2 n)) n "") as Hne.
  fold (utoa n) in Hne. destruct (utoa n) as [|c rest]; [done|].
  simpl in Hp. destruct (digit_val c) as [d|] eqn:Hc; [|done].
  by exists c, rest, d.
Qed.

Lemma itoa_nonempty (n : Z) : itoa n ≠ "".
Proof.
  unfold itoa. destruct (n <? 0); [done|]. apply utoa_go_nonempty.
Qed.

(** What [fmt.Sprintf("%d", n)] prints for an [int], [strconv.Atoi] reads
    back as [n], without an error. *)
Lemma Atoi_itoa (n : Z) : - 2 ^ 63 ≤ n < 2 ^ 63 → Atoi (itoa n) = Some n.
Proof.
  intros Hn. unfold itoa. destruct (Z.ltb_spec n 0) as [Hneg|Hpos].
  - destruct (utoa_head (- n)) as (c & rest & d & Hu & Hc); [lia|].
    pose proof (parse_utoa (- n) ltac:(lia)) as Hp.
    unfold Atoi. change (Ascii.eqb "-" "-") with true. cbv iota beta zeta.
    change (true || _) with true. cbv iota. rewrite Hu in *. rewrite Hp.
    destruct (Z.leb_spec (- n) (2 ^ 63)); [f_equal; lia|lia].
  - destruct (utoa_head n) as (c & rest & d & Hu & Hc); [lia|].
    pose proof (parse_utoa n ltac:(lia)) as Hp.
    destruct (digit_not_sign c d Hc) as [Hm Hplus].
    rewrite Hu in *. unfold Atoi. rewrite Hm, Hplus. cbv iota beta zeta.
    simpl orb. cbv iota. rewrite Hp.
    destruct (Z.ltb_spec n (2 ^ 63)); [done|lia].
Qed.

Lemma itoa_inj (n m : Z) :
  - 2 ^ 63 ≤ n < 2 ^ 63 → - 2 ^ 63 ≤ m < 2 ^ 63 → itoa n = itoa m → n = m.
Proof.
  intros Hn Hm H. apply (f_equal Atoi) in H.
  rewrite !Atoi_itoa in H by done. by injection H.
Qed.

End GoIntFacts.

(** ** Every path of [Verify] *)

Lemma after_start w : w = after 0 [] (kv w) w.
Proof. destruct w. unfold after. simpl. by rewrite app_nil_r. Qed.

Lemma called_after ev n evs m w :
  called ev (after n evs m w) = after (S n) (evs ++ [ev]) m w.
Proof. unfold called, after. simpl. by rewrite app_assoc. Qed.

Lemma with_kv_after m' n evs m w : with_kv m' (after n evs m w) = after n evs m' w.
Proof. done. Qed.

Lemma fault_at_after k n evs m w : fault_at k (after n evs m w) = fault_at (n + k) w.
Proof.
  unfold fault_at, after. simpl. generalize (faults w) as l.
  induction n as [|n IH]; intros l; [done|].
  rewrite Nat.iter_succ_r. rewrite IH. change (S n + k)%nat with (S (n + k)).
  by destruct l, (n + k)%nat.
Qed.

Lemma live_after n evs m w key :
  live (after n evs m w) key
  = match m !! key with
    | Some (v, expiry) => if now w <? expiry then v else ""
    | None => ""
    end.
Proof. done. Qed.

(** Two worlds built from the same one by the same calls are equal. *)
Ltac world_eq :=
  rewrite ?run_Ret; f_equal;
  unfold after, called, with_kv, set_unless, del_unless; simpl;
  rewrite <- ?app_assoc; reflexivity.

Section Summaries.

Variable CacheKeySMSCode : string.
Variable cfg : Config.

(** What [Verify] returns and leaves behind, for every state of the store
    and every pattern of faults. *)
Lemma Verify_summary zone phone code codeType w :
  let lockKey := lockKey zone phone in
  let cacheKey := cacheKey CacheKeySMSCode codeType zone phone in
  let failCountKey := failCountKey zone phone in
  run (Verify CacheKeySMSCode zone phone code codeType) w
  = if fault_at 0 w then
      (Some errRedis, after 1 [EvGet lockKey] (kv w) w)
    else if negb (String.eqb (live w lockKey) "") then
      (Some errLocked, after 1 [EvGet lockKey] (kv w) w)
    else if fault_at 1 w then
      (Some errRedis, after 2 [EvGet lockKey; EvGet cacheKey] (kv w) w)
    else if negb (String.eqb (live w cacheKey) "")
            && (Subtle.ConstantTimeCompare (live w cacheKey) code =? 1) then
      (None,
       after 5 [EvGet lockKey; EvGet cacheKey;
                EvDel cacheKey; EvDel failCountKey; EvDel lockKey]
         (del_unless (fault_at 4 w) lockKey
            (del_unless (fault_at 3 w) failCountKey
               (del_unless (fault_at 2 w) cacheKey (kv w)))) w)
    else
      let failCount :=
        GoInt.incr
          (storedFailCount (if fault_at 2 w then "" else live w failCountKey)) in
      if 3 <=? failCount then
        (Some errLockedNow,
         after 4 [EvGet lockKey; EvGet cacheKey; EvGet failCountKey;
                  EvSet lockKey "1" (Minute * 10)]
           (set_unless (fault_at 3 w) lockKey "1" (now w + Minute * 10) (kv w))
           w)
      else
        (Some errInvalidCode,
         after 4 [EvGet lockKey; EvGet cacheKey; EvGet failCountKey;
                  EvSet failCountKey (GoInt.itoa failCount) (Minute * 10)]
           (set_unless (fault_at 3 w) failCountKey (GoInt.itoa failCount)
              (now w + Minute * 10) (kv w)) w).
Proof.
  cbv zeta. unfold Verify.
  rewrite run_bind, run_GetString, do_GetString_any.
  destruct (fault_at 0 w); cbn beta iota delta [fst snd]; [world_eq|].
  destruct (negb _); [world_eq|].
  rewrite run_bind, run_GetString, do_GetString_any. fault_now.
  destruct (fault_at 1 w); cbn beta iota delta [fst snd]; [world_eq|].
  rewrite live_called. destruct (_ && _).
  - rewrite run_bind, run_Del, do_Del_any. fault_now.
    destruct (fault_at 2 w); cbn beta iota delta [fst snd];
      (rewrite run_bind, run_Del, do_Del_any; fault_now;
       destruct (fault_at 3 w); cbn beta iota delta [fst snd]);
      (rewrite run_bind, run_Del, do_Del_any; fault_now;
       destruct (fault_at 4 w); cbn beta iota delta [fst snd]);
      world_eq.
  - rewrite run_bind, run_GetString, do_GetString_any. fault_now.
    rewrite !live_called. unfold storedFailCount.
    destruct (fault_at 2 w); cbn beta iota delta [fst snd];
      (destruct (3 <=? _);
       rewrite run_bind, run_SetAndExpire, do_SetAndExpire_any; fault_now;
       destruct (fault_at 3 w); cbn beta iota delta [fst snd]; world_eq).
Qed.


(** *** Code generation *)

Lemma digits_get (num : Z) :
  0 ≤ num < 10 →
  String.get (Z.to_nat num) digits = Some (GoInt.digit_char num).
Proof.
  intros H.
  assert (num = 0 ∨ num = 1 ∨ num = 2 ∨ num = 3 ∨ num = 4 ∨ num = 5 ∨ num = 6
          ∨ num = 7 ∨ num = 8 ∨ num = 9) as Hd by lia.
  repeat (destruct Hd as [->|Hd]; [reflexivity|]). by subst.
Qed.

Lemma is_digits_snoc (s : string) (c : ascii) :
  is_digits (s +:+ String c "")
  = is_digits s && bool_decide (is_Some (GoInt.digit_val c)).
Proof.
  induction s as [|x s IH]; rewrite ?KeyFacts.app_cons, ?KeyFacts.app_nil_l;
    simpl.
  - apply andb_true_r.
  - by rewrite IH, andb_assoc.
Qed.

(** Whatever the faults and the random draws: a result without an error is
    the given prefix followed by [n] decimal digits; a result with an error
    is the empty string. *)
Lemma generateLoop_shape n : ∀ result w,
  let r := run (generateLoop n result) w in
  match r.1.2 with
  | None =>
      String.length r.1.1 = (String.length result + n)%nat
      ∧ is_digits r.1.1 = is_digits result
  | Some e => r.1.1 = "" ∧ e = errRandReader
  end.
Proof.
  induction n as [|n IH]; intros result w; cbv zeta.
  - simpl. split; [lia|done].
  - cbn [generateLoop]. rewrite run_bind, run_RandInt.
    unfold do_RandInt. destruct (fault_at 0 w); cbn beta iota delta [fst snd];
      [done|].
    set (num := hd 0 (entropy w) mod Z.of_nat (String.length digits)).
    assert (0 ≤ num < 10) as Hnum by (apply Z.mod_pos_bound; by vm_compute).
    rewrite digits_get by done. cbn [default from_option]. unfold id.
    match goal with |- context [run (generateLoop n ?r) ?w'] =>
      specialize (IH r w') end.
    cbv zeta in IH. destruct (run (generateLoop n _) _) as [[c [e|]] w'];
      cbn beta iota delta [fst snd] in *; [done|].
    destruct IH as [Hlen Hdig]. split.
    + rewrite Hlen, KeyFacts.length_app. simpl. lia.
    + rewrite Hdig, is_digits_snoc, GoIntFacts.digit_val_char by done.
      rewrite bool_decide_eq_true_2 by eauto. apply andb_true_r.
Qed.


(** The calls the loop makes: it draws until a draw fails or [n] digits are
    there, and touches neither the store nor the clock. *)
Lemma generateLoop_calls n : ∀ result w,
  let r := run (generateLoop n result) w in
  ∃ k,
    (k ≤ n)%nat
    ∧ kv r.2 = kv w ∧ now r.2 = now w
    ∧ trace r.2 = trace w ++ repeat EvRand k
    ∧ (∀ i, fault_at i r.2 = fault_at (k + i) w)
    ∧ (∀ i, (S i < k)%nat → fault_at i w = false)
    ∧ match r.1.2 with
      | None => k = n ∧ ∀ i, (i < n)%nat → fault_at i w = false
      | Some _ => ∃ j, k = S j ∧ fault_at j w = true
      end.
Proof.
  induction n as [|n IH]; intros result w; cbv zeta.
  - exists 0%nat. simpl. rewrite app_nil_r. repeat split; try done; lia.
  - cbn [generateLoop]. rewrite run_bind, run_RandInt.
    unfold do_RandInt. destruct (fault_at 0 w) eqn:F0;
      cbn beta iota delta [fst snd].
    + exists 1%nat. simpl. repeat split; try done; try lia.
      * intros i. apply fault_at_called.
      * by exists 0%nat.
    + match goal with |- context [run (generateLoop n ?r) ?w'] =>
        destruct (IH r w') as (k & Hk & Hkv & Hnow & Htr & Hfl & Hno & Hres)
      end.
      exists (S k). rewrite Hkv, Hnow, Htr. simpl.
      split; [lia|]. split; [done|]. split; [done|].
      split; [by rewrite <- app_assoc|].
      split; [intros i; rewrite Hfl; apply (fault_at_called (k + i) EvRand w)|].
      assert (Hshift : ∀ i, fault_at i
        (mkWorld (now w) (kv w) (tl (faults w)) (tl (entropy w))
           (trace w ++ [EvRand])) = fault_at (S i) w)
        by (intros i; apply (fault_at_called i EvRand w)).
      split.
      * intros [|i] Hi; [done|]. rewrite <- Hshift. apply Hno. lia.
      * destruct (run (generateLoop n _) _) as [[c [e|]] w'];
          cbn beta iota delta [fst snd] in *.
        -- destruct Hres as (j & -> & Hj). exists (S j). split; [done|].
           by rewrite <- Hshift.
        -- destruct Hres as [-> Hall]. split; [done|].
           intros [|i] Hi; [done|]. rewrite <- Hshift. apply Hall. lia.
Qed.

(** What [SendVerifyCode] returns and leaves behind, for every state of the
    store and every pattern of faults; [g] is the run of the code
    generator. *)
Lemma SendVerifyCode_summary zone phone codeType w :
  let rateLimitKey := rateLimitKey zone phone in
  let cacheKey := cacheKey CacheKeySMSCode codeType zone phone in
  let w0 := called (EvGet rateLimitKey) w in
  let g := run (generateSecureVerifyCode 4) w0 in
  run (SendVerifyCode CacheKeySMSCode cfg zone phone codeType) w
  = if fault_at 0 w then (Some errRedis, w0)
    else if negb (String.eqb (live w rateLimitKey) "") then
      (Some errTooFrequent, w0)
    else
      match resolveProvider cfg zone with
      | None => (Some errNoSMSProvider, w0)
      | Some smsProvider =>
          match g.1.2 with
          | Some _ => (Some errSystem, g.2)
          | None =>
              let verifyCode := g.1.1 in
              let stored :=
                <[cacheKey := (verifyCode, now w + Minute * 5)]> (kv w) in
              let marked :=
                <[rateLimitKey := ("1", now w + Minute)]> stored in
              let w1 := called (EvSet cacheKey verifyCode (Minute * 5)) in
              let w2 := called (EvSet rateLimitKey "1" Minute) in
              if fault_at 0 g.2 then (Some errRedis, w1 g.2)
              else if fault_at 1 g.2 then
                (Some errRedis, w2 (w1 (with_kv stored g.2)))
              else
                (if fault_at 2 g.2 then Some errProvider else None,
                 called (EvSend smsProvider zone phone verifyCode)
                   (w2 (with_kv marked (w1 (with_kv stored g.2)))))
          end
      end.
Proof.
  cbv zeta. unfold SendVerifyCode.
  rewrite run_bind, run_GetString, do_GetString_any.
  destruct (fault_at 0 w); cbn beta iota delta [fst snd]; [done|].
  destruct (negb _); [done|].
  destruct (resolveProvider cfg zone) as [smsProvider|]; [|done].
  rewrite run_bind.
  destruct (generateLoop_frame 4 "" (called (EvGet (rateLimitKey zone phone)) w))
    as [Hkv Hnow].
  unfold generateSecureVerifyCode in *.
  destruct (run (generateLoop 4 "") _) as [[verifyCode [e|]] w1];
    cbn beta iota delta [fst snd] in *; [done|].
  simpl in Hkv, Hnow.
  rewrite run_bind, run_SetAndExpire, do_SetAndExpire_any.
  destruct (fault_at 0 w1); cbn beta iota delta [fst snd]; [done|].
  rewrite run_bind, run_SetAndExpire, do_SetAndExpire_any. fault_now.
  destruct (fault_at 1 w1); cbn beta iota delta [fst snd];
    [by rewrite run_Ret, Hkv, Hnow|].
  rewrite run_SendSMS. unfold do_SendSMS. fault_now. simpl kv. simpl now.
  by rewrite Hkv, Hnow.
Qed.


(** *** What [Verify] never does *)

(** A nil result needs a match. *)
Lemma Verify_sound zone phone code codeType w w' :
  run (Verify CacheKeySMSCode zone phone code codeType) w = (None, w') →
  fault_at 0 w = false
  ∧ fault_at 1 w = false
  ∧ live w (lockKey zone phone) = ""
  ∧ live w (cacheKey CacheKeySMSCode codeType zone phone) = code
  ∧ code ≠ "".
Proof.
  rewrite Verify_summary. cbv zeta.
  destruct (fault_at 0 w); [done|].
  destruct (String.eqb_spec (live w (lockKey zone phone)) "") as [Hl|];
    [|done]. simpl negb. cbv iota.
  destruct (fault_at 1 w); [done|].
  destruct (String.eqb_spec
              (live w (cacheKey CacheKeySMSCode codeType zone phone)) "")
    as [|Hc]; simpl negb; simpl andb; cbv iota.
  - by destruct (3 <=? _).
  - destruct (Z.eqb_spec
      (Subtle.ConstantTimeCompare
         (live w (cacheKey CacheKeySMSCode codeType zone phone)) code) 1)
      as [Heq|]; [|by destruct (3 <=? _)].
    apply SubtleFacts.ConstantTimeCompare_eq in Heq. intros _.
    repeat split; try done. by rewrite <- Heq.
Qed.

(** X1: whatever the state of the store and whatever calls fail, [Verify]
    returns nil only when both reads succeeded, the identity was not locked
    and the stored code was present and equal to the presented one. *)
Theorem Verify_accepts_only_match zone phone code codeType w w' :
  run (Verify CacheKeySMSCode zone phone code codeType) w = (None, w') →
  fault_at 0 w = false
  ∧ fault_at 1 w = false
  ∧ live w (lockKey zone phone) = ""
  ∧ live w (cacheKey CacheKeySMSCode codeType zone phone) = code
  ∧ code ≠ "".
Proof. apply Verify_sound. Qed.

(** X2: when the read of the lockout mark fails, or that read finds no
    mark and the read of the stored code fails, [Verify] returns the store's
    error after those reads only: the store is unchanged, so no failure is
    counted. *)
Theorem Verify_read_error zone phone code codeType w :
  fault_at 0 w = true
  ∨ (fault_at 0 w = false ∧ live w (lockKey zone phone) = ""
     ∧ fault_at 1 w = true) →
  ∃ w',
    run (Verify CacheKeySMSCode zone phone code codeType) w
    = (Some errRedis, w')
    ∧ kind errRedis = StoreUnavailable
    ∧ kv w' = kv w
    ∧ (trace w' = trace w ++ [EvGet (lockKey zone phone)]
       ∨ trace w' = trace w ++
           [EvGet (lockKey zone phone);
            EvGet (cacheKey CacheKeySMSCode codeType zone phone)]).
Proof.
  intros H. rewrite Verify_summary. cbv zeta.
  destruct H as [->|(-> & -> & ->)]; simpl; eexists;
    (split; [reflexivity|]); repeat split; auto.
Qed.

(** X3: on the failure path the outcome of the one write is ignored.  When
    the three reads succeed and the write fails, the caller still gets the
    invalid-code error, or the too-many-attempts error from a count of 3 on,
    but the store is unchanged: the failure is not counted, the identity is
    not locked. *)
Theorem Verify_write_error_swallowed zone phone code codeType w :
  fault_at 0 w = false → fault_at 1 w = false → fault_at 2 w = false →
  fault_at 3 w = true →
  live w (lockKey zone phone) = "" →
  (live w (cacheKey CacheKeySMSCode codeType zone phone) = ""
   ∨ live w (cacheKey CacheKeySMSCode codeType zone phone) ≠ code) →
  let failCount :=
    GoInt.incr (storedFailCount (live w (failCountKey zone phone))) in
  ∃ w',
    run (Verify CacheKeySMSCode zone phone code codeType) w
    = (Some (if 3 <=? failCount then errLockedNow else errInvalidCode), w')
    ∧ kv w' = kv w
    ∧ live w' (lockKey zone phone) = "".
Proof.
  intros F0 F1 F2 F3 Hlock Hcode failCount.
  rewrite Verify_summary. cbv zeta. rewrite F0, F1, F2, F3, Hlock.
  rewrite mismatch_fails by done. simpl negb. cbv iota. fold failCount.
  destruct (3 <=? failCount); eexists; (split; [reflexivity|]);
    (split; [reflexivity|exact Hlock]).
Qed.



(** *** Code generation and issuance *)

Lemma trace_called ev w : trace (called ev w) = trace w ++ [ev].
Proof. done. Qed.
Lemma trace_with_kv m w : trace (with_kv m w) = trace w.
Proof. done. Qed.
Lemma kv_called ev w : kv (called ev w) = kv w.
Proof. done. Qed.
Lemma kv_with_kv m w : kv (with_kv m w) = m.
Proof. done. Qed.
Lemma now_called ev w : now (called ev w) = now w.
Proof. done. Qed.
Lemma now_with_kv m w : now (with_kv m w) = now w.
Proof. done. Qed.

(** Projections of a world built by calls and store updates. *)
Ltac project :=
  repeat first [ rewrite trace_called | rewrite trace_with_kv
               | rewrite kv_called | rewrite kv_with_kv
               | rewrite now_called | rewrite now_with_kv ].


(** X5: [generateSecureVerifyCode] touches neither the store nor the clock;
    it succeeds exactly when none of its [length] draws fails, and then
    returns [length] decimal digits whatever the random source delivers;
    when a draw fails it returns the empty string with the error of the
    random source. *)
Theorem generateSecureVerifyCode_digits (length : nat) (w : World) :
  let r := run (generateSecureVerifyCode length) w in
  kv r.2 = kv w
  ∧ now r.2 = now w
  ∧ (r.1.2 = None ↔ ∀ i, (i < length)%nat → fault_at i w = false)
  ∧ match r.1.2 with
    | None => String.length r.1.1 = length ∧ is_digits r.1.1 = true
    | Some e => r.1.1 = "" ∧ e = errRandReader
    end.
Proof.
  cbv zeta. unfold generateSecureVerifyCode.
  destruct (generateLoop_calls length "" w)
    as (k & Hk & Hkv & Hnow & Htr & Hfl & Hno & Hres).
  pose proof (generateLoop_shape length "" w) as Hshape. cbv zeta in Hshape.
  split; [done|]. split; [done|].
  destruct (run (generateLoop length "") w) as [[c [e|]] w'];
    cbn beta iota delta [fst snd] in *.
  - split; [|done]. split; [done|]. intros Hall.
    destruct Hres as (j & -> & Hj). rewrite Hall in Hj by lia. done.
  - split; [|done]. split; [intros _; apply Hres|done].
Qed.

(** The run of the generator inside [SendVerifyCode]: either a draw failed,
    or four digits were drawn by the four calls after the cooldown read. *)
Lemma generate4_cases (w0 : World) :
  let g := run (generateSecureVerifyCode 4) w0 in
  kv g.2 = kv w0 ∧ now g.2 = now w0
  ∧ ((∃ e k j, g.1.2 = Some e ∧ (k ≤ 4)%nat
        ∧ trace g.2 = trace w0 ++ repeat EvRand k
        ∧ (j < 4)%nat ∧ fault_at j w0 = true)
     ∨ (g.1.2 = None
        ∧ String.length g.1.1 = 4%nat ∧ is_digits g.1.1 = true
        ∧ trace g.2 = trace w0 ++ [EvRand; EvRand; EvRand; EvRand]
        ∧ (∀ i, (i < 4)%nat → fault_at i w0 = false)
        ∧ ∀ i, fault_at i g.2 = fault_at (4 + i) w0)).
Proof.
  cbv zeta. unfold generateSecureVerifyCode.
  destruct (generateLoop_calls 4 "" w0)
    as (k & Hk & Hkv & Hnow & Htr & Hfl & Hno & Hres).
  pose proof (generateLoop_shape 4 "" w0) as Hshape. cbv zeta in Hshape.
  split; [done|]. split; [done|].
  destruct (run (generateLoop 4 "") w0) as [[c [e|]] w'];
    cbn beta iota delta [fst snd] in *.
  - left. destruct Hres as (j & -> & Hj). exists e, (S j), j.
    repeat split; try done; lia.
  - right. destruct Hres as [-> Hall]. destruct Hshape as [Hlen Hdig].
    repeat split; try done.
Qed.

(** X6: when a draw of the generator fails, [SendVerifyCode] returns its own
    system error, not the error of the random source, and has stored and
    sent nothing. *)
Theorem SendVerifyCode_rand_failure zone phone codeType w smsProvider j :
  fault_at 0 w = false →
  live w (rateLimitKey zone phone) = "" →
  resolveProvider cfg zone = Some smsProvider →
  (j < 4)%nat →
  fault_at (S j) w = true →
  ∃ w' k,
    run (SendVerifyCode CacheKeySMSCode cfg zone phone codeType) w
    = (Some errSystem, w')
    ∧ kind errSystem = SystemError
    ∧ kv w' = kv w
    ∧ (k ≤ 4)%nat
    ∧ trace w' = trace w ++ EvGet (rateLimitKey zone phone) :: repeat EvRand k.
Proof.
  intros F0 Hrate Hp Hj Hfault.
  rewrite SendVerifyCode_summary. cbv zeta. rewrite F0, Hrate, Hp.
  simpl negb. cbv iota.
  destruct (generate4_cases (called (EvGet (rateLimitKey zone phone)) w))
    as (Hkv & Hnow & [(e & k & j' & -> & Hk & Htr & _)
                      |(_ & _ & _ & _ & Hall & _)]).
  - exists (run (generateSecureVerifyCode 4)
              (called (EvGet (rateLimitKey zone phone)) w)).2, k.
    split; [done|]. split; [done|]. split; [done|]. split; [done|].
    rewrite Htr. simpl. by rewrite <- app_assoc.
  - specialize (Hall j Hj). rewrite fault_at_called in Hall. congruence.
Qed.

(** X7: a store error before anything is written ends the call with that
    error and an unchanged store: the failed read of the cooldown mark, or
    the failed write of the code. *)
Theorem SendVerifyCode_store_error zone phone codeType w :
  fault_at 0 w = true
  ∨ ((∀ i, (i < 5)%nat → fault_at i w = false)
     ∧ live w (rateLimitKey zone phone) = ""
     ∧ is_Some (resolveProvider cfg zone)
     ∧ fault_at 5 w = true) →
  ∃ w',
    run (SendVerifyCode CacheKeySMSCode cfg zone phone codeType) w
    = (Some errRedis, w')
    ∧ kind errRedis = StoreUnavailable
    ∧ kv w' = kv w
    ∧ ∀ p z ph c, EvSend p z ph c ∉ drop (length (trace w)) (trace w').
Proof.
  intros H. rewrite SendVerifyCode_summary. cbv zeta.
  destruct H as [->|(Hf & Hrate & [smsProvider Hp] & F5)].
  - eexists. split; [reflexivity|]. split; [done|]. split; [done|].
    intros p z ph c. simpl. rewrite drop_app_length.
    rewrite list_elem_of_singleton. done.
  - rewrite Hf, Hrate, Hp by lia. simpl negb. cbv iota.
    destruct (generate4_cases (called (EvGet (rateLimitKey zone phone)) w))
      as (Hkv & Hnow & [(e & k & j & _ & _ & _ & Hj & Hfault)
                        |(-> & _ & _ & Htr & _ & Hfl)]).
    { rewrite fault_at_called, Hf in Hfault by lia. done. }
    rewrite Hfl, fault_at_called. change (S (4 + 0)) with 5%nat. rewrite F5.
    eexists. split; [reflexivity|]. split; [done|]. split; [done|].
    intros p z ph c. project. rewrite Htr. project.
    rewrite <- !app_assoc, drop_app_length. simpl.
    rewrite !elem_of_cons, elem_of_nil. intros H.
    repeat (destruct H as [H|H]; [done|]). done.
Qed.

(** X8: when the write of the cooldown mark fails, the call returns that
    error with the code already stored: the code is never sent and the
    identity is not throttled. *)
Theorem SendVerifyCode_mark_write_fails zone phone codeType w smsProvider :
  (∀ i, (i < 6)%nat → fault_at i w = false) →
  fault_at 6 w = true →
  live w (rateLimitKey zone phone) = "" →
  resolveProvider cfg zone = Some smsProvider →
  ∃ verifyCode w',
    run (SendVerifyCode CacheKeySMSCode cfg zone phone codeType) w
    = (Some errRedis, w')
    ∧ String.length verifyCode = 4%nat
    ∧ is_digits verifyCode = true
    ∧ kv w' = <[cacheKey CacheKeySMSCode codeType zone phone
                := (verifyCode, now w + 5 * Minute)]> (kv w)
    ∧ live w' (rateLimitKey zone phone) = ""
    ∧ trace w' = trace w ++
        [EvGet (rateLimitKey zone phone);
         EvRand; EvRand; EvRand; EvRand;
         EvSet (cacheKey CacheKeySMSCode codeType zone phone) verifyCode
           (5 * Minute);
         EvSet (rateLimitKey zone phone) "1" Minute].
Proof.
  intros Hf F6 Hrate Hp.
  rewrite SendVerifyCode_summary. cbv zeta. rewrite Hf, Hrate, Hp by lia.
  simpl negb. cbv iota.
  destruct (generate4_cases (called (EvGet (rateLimitKey zone phone)) w))
    as (Hkv & Hnow & [(e & k & j & _ & _ & _ & Hj & Hfault)
                      |(-> & Hlen & Hdig & Htr & _ & Hfl)]).
  { rewrite fault_at_called, Hf in Hfault by lia. done. }
  rewrite !Hfl, !fault_at_called. change (S (4 + 0)) with 5%nat.
  change (S (4 + 1)) with 6%nat. rewrite Hf, F6 by lia.
  eexists. eexists. split; [reflexivity|]. split; [done|]. split; [done|].
  split; [done|]. split.
  - unfold live. project.
    rewrite lookup_insert_ne
      by apply (KeyFacts.cacheKey_ne_rateLimitKey CacheKeySMSCode).
    rewrite Hnow. exact Hrate.
  - project. rewrite Htr. project. by rewrite <- !app_assoc.
Qed.


(** X10: whatever fails, [SendVerifyCode] touches the store only under the
    cooldown key of its identity and the code key of its purpose, and does
    not move the clock; it never reads or writes the lockout mark or the
    failure count. *)
Theorem SendVerifyCode_frame zone phone codeType w :
  let w' := (run (SendVerifyCode CacheKeySMSCode cfg zone phone codeType) w).2 in
  let keys := [rateLimitKey zone phone;
               cacheKey CacheKeySMSCode codeType zone phone] in
  (∀ key, key ∉ keys → kv w' !! key = kv w !! key)
  ∧ now w' = now w
  ∧ ∃ calls,
      trace w' = trace w ++ calls
      ∧ Forall (λ ev, ∀ key, event_key ev = Some key → key ∈ keys) calls.
Proof.
  cbv zeta. rewrite SendVerifyCode_summary. cbv zeta.
  assert (Hk : ∀ key,
    key ∉ [rateLimitKey zone phone;
           cacheKey CacheKeySMSCode codeType zone phone] →
    rateLimitKey zone phone ≠ key
    ∧ cacheKey CacheKeySMSCode codeType zone phone ≠ key).
  { intros key Hkey.
    split; intros <-; apply Hkey; rewrite !elem_of_cons; auto. }
  assert (Hrand : ∀ k, Forall (λ ev, ∀ key, event_key ev = Some key →
    key ∈ [rateLimitKey zone phone;
           cacheKey CacheKeySMSCode codeType zone phone]) (repeat EvRand k)).
  { intros k. induction k; simpl; constructor; done. }
  destruct (generate4_cases (called (EvGet (rateLimitKey zone phone)) w))
    as (Hkv & Hnow & Hg).
  rewrite kv_called in Hkv. rewrite now_called in Hnow.
  assert (∃ k, trace (run (generateSecureVerifyCode 4)
                        (called (EvGet (rateLimitKey zone phone)) w)).2
               = trace w ++ EvGet (rateLimitKey zone phone) :: repeat EvRand k)
    as [k Htr].
  { destruct Hg as [(e & k & j & _ & _ & Htr & _)|(_ & _ & _ & Htr & _)].
    - exists k. rewrite Htr. simpl. by rewrite <- app_assoc.
    - exists 4%nat. rewrite Htr. simpl. by rewrite <- app_assoc. }
  assert (Hget : ∀ key, event_key (EvGet (rateLimitKey zone phone)) = Some key →
    key ∈ [rateLimitKey zone phone;
           cacheKey CacheKeySMSCode codeType zone phone]).
  { intros key [= <-]. rewrite !elem_of_cons. auto. }
  clear Hg. remember (run (generateSecureVerifyCode 4) _) as g eqn:Eg. clear Eg.
  repeat match goal with
         | |- context [if ?b then _ else _] => destruct b
         | |- context [match ?o with Some _ => _ | None => _ end] => destruct o
         end;
    (split; [intros key Hkey; destruct (Hk key Hkey) as [? ?]; simpl;
             rewrite ?lookup_insert_ne by done; by rewrite ?Hkv|]);
    (split; [simpl; by rewrite ?Hnow|]);
    simpl; rewrite ?Htr; rewrite <- ?app_assoc; eexists;
    (split; [reflexivity|]); simpl;
    (apply Forall_cons_2; [exact Hget|]);
    first [apply Forall_nil_2 | apply Hrand | apply Forall_app_2; [apply Hrand|]];
    repeat first
      [ apply Forall_nil_2
      | apply Forall_cons_2;
          [intros key Hkey; simpl in Hkey;
           first [discriminate
                 | injection Hkey as <-; rewrite !elem_of_cons; auto]|] ].
Qed.


(** *** Issuing a code, then presenting it *)

Lemma fault_at_advance i d w : fault_at i (advance d w) = fault_at i w.
Proof. done. Qed.

Lemma live_same w1 w2 key :
  kv w1 !! key = kv w2 !! key → now w1 = now w2 → live w1 key = live w2 key.
Proof. unfold live. by intros -> ->. Qed.

Lemma cacheKey_inj_codeType codeType codeType' zone phone :
  - 2 ^ 63 ≤ codeType < 2 ^ 63 → - 2 ^ 63 ≤ codeType' < 2 ^ 63 →
  cacheKey CacheKeySMSCode codeType zone phone
  = cacheKey CacheKeySMSCode codeType' zone phone →
  codeType = codeType'.
Proof.
  intros Hc Hc' H. unfold cacheKey in H.
  apply (inj (String.app CacheKeySMSCode)) in H.
  apply KeyFacts.app_inv_tail in H. by apply GoIntFacts.itoa_inj.
Qed.

(** An issuance whose calls up to the second write all succeed. *)
Lemma SendVerifyCode_stores zone phone codeType w smsProvider :
  (∀ i, (i < 7)%nat → fault_at i w = false) →
  live w (rateLimitKey zone phone) = "" →
  resolveProvider cfg zone = Some smsProvider →
  ∃ verifyCode w',
    run (SendVerifyCode CacheKeySMSCode cfg zone phone codeType) w
    = (if fault_at 7 w then Some errProvider else None, w')
    ∧ String.length verifyCode = 4%nat
    ∧ is_digits verifyCode = true
    ∧ kv w' = <[rateLimitKey zone phone := ("1", now w + Minute)]>
                (<[cacheKey CacheKeySMSCode codeType zone phone
                   := (verifyCode, now w + 5 * Minute)]> (kv w))
    ∧ now w' = now w
    ∧ (∀ i, fault_at i w' = fault_at (8 + i) w)
    ∧ trace w' = trace w ++
        [EvGet (rateLimitKey zone phone);
         EvRand; EvRand; EvRand; EvRand;
         EvSet (cacheKey CacheKeySMSCode codeType zone phone) verifyCode
           (5 * Minute);
         EvSet (rateLimitKey zone phone) "1" Minute;
         EvSend smsProvider zone phone verifyCode].
Proof.
  intros Hf Hrate Hp.
  rewrite SendVerifyCode_summary. cbv zeta. rewrite Hf, Hrate, Hp by lia.
  simpl negb. cbv iota.
  destruct (generate4_cases (called (EvGet (rateLimitKey zone phone)) w))
    as (Hkv & Hnow & [(e & k & j & _ & _ & _ & Hj & Hfault)
                      |(-> & Hlen & Hdig & Htr & _ & Hfl)]).
  { rewrite fault_at_called, Hf in Hfault by lia. done. }
  rewrite !Hfl, !fault_at_called.
  change (S (4 + 0)) with 5%nat. change (S (4 + 1)) with 6%nat.
  change (S (4 + 2)) with 7%nat. rewrite !Hf by lia.
  remember (run (generateSecureVerifyCode 4) _) as g eqn:Eg. clear Eg.
  eexists. eexists. split; [reflexivity|]. split; [exact Hlen|].
  split; [done|]. split; [done|]. split; [by project|]. split.
  - intros i. fault_now. rewrite Hfl, fault_at_called. reflexivity.
  - project. rewrite Htr. project. by rewrite <- !app_assoc.
Qed.

(** X11: the code an issuance sends verifies.  When all calls of
    [SendVerifyCode] up to the delivery succeed, for an identity that is
    neither throttled nor locked: the code handed to the provider, presented
    for the same purpose less than five minutes later, makes [Verify] return
    nil, and this whether or not the delivery itself reported an error. *)
Theorem issued_code_verifies zone phone codeType w smsProvider d :
  (∀ i, i ≠ 7%nat → fault_at i w = false) →
  live w (rateLimitKey zone phone) = "" →
  live w (lockKey zone phone) = "" →
  resolveProvider cfg zone = Some smsProvider →
  0 ≤ d < 5 * Minute →
  let sent := run (SendVerifyCode CacheKeySMSCode cfg zone phone codeType) w in
  ∃ verifyCode,
    sent.1 = (if fault_at 7 w then Some errProvider else None)
    ∧ last (trace sent.2) = Some (EvSend smsProvider zone phone verifyCode)
    ∧ (run (Verify CacheKeySMSCode zone phone verifyCode codeType)
         (advance d sent.2)).1 = None.
Proof.
  intros Hf Hrate Hlock Hp Hd sent. unfold sent.
  destruct (SendVerifyCode_stores zone phone codeType w smsProvider)
    as (verifyCode & w' & -> & Hlen & Hdig & Hkv & Hnow & Hfl & Htr);
    [intros i Hi; apply Hf; lia|done|done|].
  exists verifyCode. cbn beta iota delta [fst snd].
  split; [done|]. split; [by rewrite Htr, last_app|].
  pose proof (KeyFacts.cacheKey_ne_lockKey CacheKeySMSCode codeType zone phone).
  pose proof (KeyFacts.cacheKey_ne_rateLimitKey
                CacheKeySMSCode codeType zone phone).
  pose proof (rateLimitKey_ne_lockKey zone phone zone phone).
  rewrite Verify_summary. cbv zeta.
  rewrite !fault_at_advance, !Hfl, !Hf by lia.
  assert (live (advance d w') (lockKey zone phone) = "") as ->.
  { apply absent_later; [lia|].
    rewrite (live_same w' w); [done| |done].
    rewrite Hkv. by rewrite !lookup_insert_ne. }
  assert (live (advance d w')
            (cacheKey CacheKeySMSCode codeType zone phone) = verifyCode) as ->.
  { unfold live. simpl. rewrite Hkv.
    rewrite lookup_insert_ne, lookup_insert_eq by (by apply not_eq_sym).
    rewrite Hnow. by rewrite not_expired by lia. }
  simpl negb. cbv iota.
  rewrite nonempty_true, SubtleFacts.ConstantTimeCompare_refl;
    [done|by intros ->].
Qed.

(** X12: the code lapses.  In the same situation, five minutes or more
    after the issuance the code no longer verifies: presenting it is a
    failed attempt like any other; with no failure on record it gives the
    invalid-code error and is counted as the first failure. *)
Theorem issued_code_expires zone phone codeType w smsProvider d :
  (∀ i, i ≠ 7%nat → fault_at i w = false) →
  live w (rateLimitKey zone phone) = "" →
  live w (lockKey zone phone) = "" →
  live w (failCountKey zone phone) = "" →
  resolveProvider cfg zone = Some smsProvider →
  5 * Minute ≤ d →
  let sent := run (SendVerifyCode CacheKeySMSCode cfg zone phone codeType) w in
  ∃ verifyCode,
    last (trace sent.2) = Some (EvSend smsProvider zone phone verifyCode)
    ∧ ∃ w',
        run (Verify CacheKeySMSCode zone phone verifyCode codeType)
          (advance d sent.2) = (Some errInvalidCode, w')
        ∧ kv w' !! failCountKey zone phone = Some ("1", now w + d + 10 * Minute).
Proof.
  intros Hf Hrate Hlock Hcount Hp Hd sent. unfold sent.
  destruct (SendVerifyCode_stores zone phone codeType w smsProvider)
    as (verifyCode & w' & -> & Hlen & Hdig & Hkv & Hnow & Hfl & Htr);
    [intros i Hi; apply Hf; lia|done|done|].
  exists verifyCode. cbn beta iota delta [fst snd].
  split; [by rewrite Htr, last_app|].
  pose proof (KeyFacts.cacheKey_ne_lockKey CacheKeySMSCode codeType zone phone).
  pose proof (KeyFacts.cacheKey_ne_failCountKey
                CacheKeySMSCode codeType zone phone).
  pose proof (KeyFacts.cacheKey_ne_rateLimitKey
                CacheKeySMSCode codeType zone phone).
  pose proof (rateLimitKey_ne_lockKey zone phone zone phone).
  pose proof (rateLimitKey_ne_failCountKey zone phone zone phone).
  unfold Minute in *.
  rewrite Verify_summary. cbv zeta.
  rewrite !fault_at_advance, !Hfl, !Hf by lia.
  assert (live (advance d w') (lockKey zone phone) = "") as ->.
  { apply absent_later; [lia|].
    rewrite (live_same w' w); [done| |done].
    rewrite Hkv. by rewrite !lookup_insert_ne. }
  assert (live (advance d w')
            (cacheKey CacheKeySMSCode codeType zone phone) = "") as ->.
  { unfold live. simpl. rewrite Hkv.
    rewrite lookup_insert_ne, lookup_insert_eq by (by apply not_eq_sym).
    rewrite Hnow.
    destruct (Z.ltb_spec (now w + d) (now w + 5 * 60)); [lia|done]. }
  assert (live (advance d w') (failCountKey zone phone) = "") as ->.
  { apply absent_later; [lia|].
    rewrite (live_same w' w); [done| |done].
    rewrite Hkv. by rewrite !lookup_insert_ne. }
  simpl. eexists. split; [reflexivity|].
  unfold after. simpl. rewrite lookup_insert_eq, Hnow. do 2 f_equal; lia.
Qed.

(** X13: a code is good for its purpose only.  The code issued for one
    purpose, presented for another purpose of the same identity for which
    no code is stored, is not accepted. *)
Theorem issued_code_other_purpose zone phone codeType codeType' w
    smsProvider d :
  (∀ i, (i < 7)%nat → fault_at i w = false) →
  live w (rateLimitKey zone phone) = "" →
  resolveProvider cfg zone = Some smsProvider →
  - 2 ^ 63 ≤ codeType < 2 ^ 63 →
  - 2 ^ 63 ≤ codeType' < 2 ^ 63 →
  codeType' ≠ codeType →
  live w (cacheKey CacheKeySMSCode codeType' zone phone) = "" →
  0 ≤ d →
  let sent := run (SendVerifyCode CacheKeySMSCode cfg zone phone codeType) w in
  ∃ verifyCode,
    last (trace sent.2) = Some (EvSend smsProvider zone phone verifyCode)
    ∧ (run (Verify CacheKeySMSCode zone phone verifyCode codeType')
         (advance d sent.2)).1 ≠ None.
Proof.
  intros Hf Hrate Hp Hc Hc' Hne Hnone Hd sent. unfold sent.
  destruct (SendVerifyCode_stores zone phone codeType w smsProvider)
    as (verifyCode & w' & -> & Hlen & Hdig & Hkv & Hnow & Hfl & Htr);
    [done|done|done|].
  exists verifyCode. cbn beta iota delta [fst snd].
  split; [by rewrite Htr, last_app|].
  destruct (run _ (advance d w')) as [[e|] w''] eqn:Hrun; [done|].
  apply Verify_sound in Hrun as (_ & _ & _ & Hcode & Hempty).
  exfalso. apply Hempty. rewrite <- Hcode.
  apply absent_later; [done|].
  rewrite (live_same w' w); [done| |done].
  rewrite Hkv. rewrite !lookup_insert_ne; [done| |].
  - intros H. apply Hne. symmetry. by apply (cacheKey_inj_codeType _ _ zone phone).
  - apply not_eq_sym, KeyFacts.cacheKey_ne_rateLimitKey.
Qed.


(** *** Sessions of one identity *)

Lemma calm_healthy w : healthy w → calm w.
Proof. intros H i. by apply healthy_fault_at. Qed.

Lemma calm_advance d w : calm w → calm (advance d w).
Proof. done. Qed.

Lemma calm_after n evs m w : calm w → calm (after n evs m w).
Proof. intros H i. by rewrite fault_at_after. Qed.

Lemma elapsed_nonneg cs : Forall (λ dc : Z * Call, 0 ≤ dc.1) cs → 0 ≤ elapsed cs.
Proof. induction 1; simpl; lia. Qed.

(** [SendVerifyCode] leaves every key but its two alone, and the clock. *)
Lemma SendVerifyCode_keeps zone phone codeType w key :
  key ≠ rateLimitKey zone phone →
  key ≠ cacheKey CacheKeySMSCode codeType zone phone →
  let w' := (run (SendVerifyCode CacheKeySMSCode cfg zone phone codeType) w).2 in
  now w' = now w ∧ kv w' !! key = kv w !! key.
Proof.
  intros Hr Hc. cbv zeta. rewrite SendVerifyCode_summary. cbv zeta.
  destruct (generate4_cases (called (EvGet (rateLimitKey zone phone)) w))
    as (Hkv & Hnow & _).
  remember (run (generateSecureVerifyCode 4) _) as g eqn:Eg. clear Eg.
  destruct (fault_at 0 w); [done|].
  destruct (negb _); [done|].
  destruct (resolveProvider cfg zone); [|done].
  destruct (g.1.2); cbn beta iota delta [fst snd]; [by rewrite Hkv, Hnow|].
  destruct (fault_at 0 g.2); cbn beta iota delta [fst snd];
    [by project; rewrite Hkv, Hnow|].
  destruct (fault_at 1 g.2); cbn beta iota delta [fst snd]; project;
    rewrite ?Hnow; (split; [done|]);
    by rewrite ?lookup_insert_ne by (by apply not_eq_sym).
Qed.

Lemma SendVerifyCode_calm zone phone codeType w :
  calm w →
  calm (run (SendVerifyCode CacheKeySMSCode cfg zone phone codeType) w).2.
Proof.
  intros Hcalm. rewrite SendVerifyCode_summary. cbv zeta.
  destruct (generate4_cases (called (EvGet (rateLimitKey zone phone)) w))
    as (_ & _ & [(e & k & j & _ & _ & _ & _ & Hfault)
                |(-> & _ & _ & _ & _ & Hfl)]).
  { by rewrite fault_at_called, Hcalm in Hfault. }
  remember (run (generateSecureVerifyCode 4) _) as g eqn:Eg. clear Eg.
  rewrite !Hfl, !fault_at_called, !Hcalm.
  destruct (negb _); [|destruct (resolveProvider cfg zone)];
    cbn beta iota delta [fst snd]; intros n; fault_now;
    rewrite ?Hfl, ?fault_at_called; apply Hcalm.
Qed.

(** What [Verify] does while the store answers. *)
Lemma Verify_calm zone phone code codeType w :
  calm w →
  let r := run (Verify CacheKeySMSCode zone phone code codeType) w in
  let failCount :=
    GoInt.incr (storedFailCount (live w (failCountKey zone phone))) in
  calm r.2 ∧ now r.2 = now w
  ∧ ((r.1 = Some errLocked ∧ live w (lockKey zone phone) ≠ ""
      ∧ kv r.2 = kv w)
     ∨ r.1 = None
     ∨ (live w (lockKey zone phone) = ""
        ∧ 3 ≤ failCount ∧ r.1 = Some errLockedNow
        ∧ kv r.2 = <[lockKey zone phone := ("1", now w + Minute * 10)]> (kv w))
     ∨ (live w (lockKey zone phone) = ""
        ∧ failCount < 3 ∧ r.1 = Some errInvalidCode
        ∧ kv r.2 = <[failCountKey zone phone
                     := (GoInt.itoa failCount, now w + Minute * 10)]> (kv w))).
Proof.
  intros Hcalm. cbv zeta. rewrite Verify_summary. cbv zeta.
  rewrite !Hcalm.
  destruct (String.eqb_spec (live w (lockKey zone phone)) "") as [Hl|Hl];
    simpl negb; cbv iota.
  2:{ split; [by apply calm_after|]. split; [done|]. by left. }
  destruct (_ && _).
  { split; [by apply calm_after|]. split; [done|]. right. by left. }
  destruct (Z.leb_spec 3
    (GoInt.incr (storedFailCount (live w (failCountKey zone phone)))));
    (split; [by apply calm_after|]); (split; [done|]); right; right.
  - by left.
  - by right.
Qed.

(** What [Verify] does while the lockout is in force, whatever the store
    does. *)
Lemma Verify_while_locked zone phone code codeType w :
  live w (lockKey zone phone) ≠ "" →
  let r := run (Verify CacheKeySMSCode zone phone code codeType) w in
  (r.1 = Some errLocked ∨ r.1 = Some errRedis)
  ∧ kv r.2 = kv w ∧ now r.2 = now w.
Proof.
  intros Hl. cbv zeta. rewrite Verify_summary. cbv zeta.
  destruct (fault_at 0 w); [by auto|].
  destruct (String.eqb_spec (live w (lockKey zone phone)) ""); [done|].
  simpl. auto.
Qed.

Lemma phase_same zone phone k E w1 w2 :
  kv w2 !! failCountKey zone phone = kv w1 !! failCountKey zone phone →
  kv w2 !! lockKey zone phone = kv w1 !! lockKey zone phone →
  now w2 = now w1 →
  phase zone phone k E w1 → phase zone phone k E w2.
Proof.
  intros Hf Hl Hn. destruct k as [|[|[|k]]]; simpl; rewrite ?Hf, ?Hl; [|done..].
  by rewrite (live_same w2 w1).
Qed.

Lemma phase_advance zone phone k E d w :
  0 ≤ d → phase zone phone k E w → phase zone phone k E (advance d w).
Proof.
  intros Hd. destruct k as [|[|[|k]]]; simpl; [|done..].
  by apply absent_later.
Qed.

Lemma live_until w key v e :
  kv w !! key = Some (v, e) → now w < e → live w key = v.
Proof.
  intros H Hlt. unfold live. rewrite H.
  by destruct (Z.ltb_spec (now w) e); [|lia].
Qed.

Lemma locked_phase zone phone k E w :
  (3 ≤ k)%nat → phase zone phone k E w → now w < E →
  live w (lockKey zone phone) ≠ "".
Proof.
  intros Hk Hph Hlt. destruct k as [|[|[|k]]]; [lia..|].
  destruct Hph as (v & e & Hkv & Hv & He).
  rewrite (live_until w _ v e); [done|done|lia].
Qed.

Lemma is_guess_skip cr l :
  is_guess cr = false → filter is_guess (cr :: l) = filter is_guess l.
Proof.
  intros H. rewrite filter_cons_False; [done|]. rewrite H. by intros [].
Qed.

Lemma is_guess_keep cr l :
  is_guess cr = true → filter is_guess (cr :: l) = cr :: filter is_guess l.
Proof.
  intros H. rewrite filter_cons_True; [done|]. rewrite H. exact I.
Qed.

Lemma guesses_from zone phone cs : ∀ k E w,
  calm w →
  phase zone phone k E w →
  now w + elapsed cs < E →
  E ≤ now w + 10 * Minute →
  Forall (λ dc : Z * Call, 0 ≤ dc.1 ∧ identity dc.2 = (zone, phone)) cs →
  Forall (λ cr, accepted cr = false) (serve CacheKeySMSCode cfg cs w).1 →
  (length (filter is_guess (serve CacheKeySMSCode cfg cs w).1) + k ≤ 3
   ∨ 3 < k ∧ filter is_guess (serve CacheKeySMSCode cfg cs w).1 = [])%nat.
Proof.
  induction cs as [|[d c] cs IH]; intros k E w Hcalm Hph Hel HE Hall Hacc.
  { cbn [serve fst]. rewrite filter_nil. simpl length.
    destruct (decide (k ≤ 3)%nat); [left|right]; [lia|split; [lia|done]]. }
  apply Forall_cons in Hall as [[Hd Hid] Hall]. simpl in Hd, Hid.
  assert (0 ≤ elapsed cs) as Hpos.
  { apply elapsed_nonneg. eapply Forall_impl; [exact Hall|]. by intros ? []. }
  simpl in Hel.
  cbn [serve fst snd] in Hacc |- *.
  apply Forall_cons in Hacc as [Hacc1 Hacc].
  pose proof (calm_advance d w Hcalm) as Hcalm1.
  pose proof (phase_advance zone phone k E d w Hd Hph) as Hph1.
  assert (now (advance d w) = now w + d) as Hnow1 by done.
  unfold Minute in *.
  destruct c as [z p codeType|z p code codeType];
    simpl in Hid; injection Hid as -> ->; cbn [perform] in *.
  - destruct (SendVerifyCode_keeps zone phone codeType (advance d w)
                (failCountKey zone phone)) as [Hn Hf].
    { apply not_eq_sym, rateLimitKey_ne_failCountKey. }
    { apply not_eq_sym, KeyFacts.cacheKey_ne_failCountKey. }
    destruct (SendVerifyCode_keeps zone phone codeType (advance d w)
                (lockKey zone phone)) as [_ Hl].
    { apply not_eq_sym, rateLimitKey_ne_lockKey. }
    { apply not_eq_sym, KeyFacts.cacheKey_ne_lockKey. }
    pose proof (SendVerifyCode_calm zone phone codeType _ Hcalm1) as Hcalm2.
    cbv zeta in Hn, Hf, Hl.
    remember (run (SendVerifyCode CacheKeySMSCode cfg zone phone codeType)
                (advance d w)) as r eqn:Er. clear Er.
    rewrite is_guess_skip by done.
    apply (IH k E r.2); try done; try lia.
    by apply (phase_same zone phone k E (advance d w)).
  - destruct (Verify_calm zone phone code codeType _ Hcalm1)
      as (Hcalm2 & Hn & Hcases).
    remember (run (Verify CacheKeySMSCode zone phone code codeType)
                (advance d w)) as r eqn:Er. clear Er.
    destruct Hcases as [(Hr & Hl & Hkv)|[Hr|[(Hl & H3 & Hr & Hkv)
                                            |(Hl & H3 & Hr & Hkv)]]].
    + rewrite is_guess_skip by (by rewrite Hr).
      apply (IH k E r.2); try done; try lia.
      apply (phase_same zone phone k E (advance d w)); try done;
        by rewrite Hkv.
    + by rewrite Hr in Hacc1.
    + destruct (decide (3 ≤ k)%nat) as [Hk|Hk].
      { exfalso.
        apply (locked_phase zone phone k E (advance d w));
          [done|done|lia|done]. }
      rewrite is_guess_keep by (by rewrite Hr). left. simpl length.
      destruct (IH 3%nat E r.2) as [Hlen|[? _]]; try done; try lia.
      exists "1", (now w + d + 60 * 10). rewrite Hkv, lookup_insert_eq.
      repeat split; [done|lia].
    + destruct k as [|[|[|k]]].
      * simpl in Hph1. rewrite Hph1 in Hkv.
        rewrite is_guess_keep by (by rewrite Hr). left. simpl length.
        destruct (IH 1%nat E r.2) as [Hlen|[? _]]; try done; try lia.
        exists (now w + d + 60 * 10). rewrite Hkv, lookup_insert_eq.
        split; [by rewrite Hnow1|lia].
      * destruct Hph1 as (e & Hf & He).
        rewrite (live_until _ _ _ _ Hf) in Hkv by lia.
        rewrite is_guess_keep by (by rewrite Hr). left. simpl length.
        destruct (IH 2%nat E r.2) as [Hlen|[? _]]; try done; try lia.
        exists (now w + d + 60 * 10). rewrite Hkv, lookup_insert_eq.
        split; [by rewrite Hnow1|lia].
      * destruct Hph1 as (e & Hf & He).
        rewrite (live_until _ _ _ _ Hf) in H3 by lia.
        vm_compute in H3. done.
      * exfalso.
        apply (locked_phase zone phone (S (S (S k))) E (advance d w));
          [lia|done|lia|done].
Qed.

(** X14: three guesses per ten minutes.  In a session of calls for one
    identity that takes less than ten minutes, with the store answering and
    no failure on record at its start, at most three verifications are
    answered on the code presented unless one is accepted: every further one
    is turned away by the lockout.  Requests for new codes in between, and
    the purposes named, make no difference. *)
Theorem guesses_bounded zone phone cs w :
  healthy w →
  live w (failCountKey zone phone) = "" →
  Forall (λ dc : Z * Call, 0 ≤ dc.1 ∧ identity dc.2 = (zone, phone)) cs →
  elapsed cs < 10 * Minute →
  let log := (serve CacheKeySMSCode cfg cs w).1 in
  Forall (λ cr, accepted cr = false) log →
  (length (filter is_guess log) ≤ 3)%nat.
Proof.
  intros Hh Hcount Hall Hel log Hacc.
  assert (now w + elapsed cs < now w + 10 * Minute) as Hlt by lia.
  assert (now w + 10 * Minute ≤ now w + 10 * Minute) as Hle by lia.
  destruct (guesses_from zone phone cs 0 (now w + 10 * Minute) w
              (calm_healthy w Hh) Hcount Hlt Hle Hall Hacc) as [H|[H _]];
    [unfold log|]; lia.
Qed.

(** X15: a lockout holds.  While the lockout mark of an identity is in
    force, whatever the store and the provider do, no call for that identity
    moves the end of the lockout or touches the failure count, and no
    verification is accepted or even answered on its code. *)
Theorem lockout_holds zone phone cs : ∀ w v e,
  kv w !! lockKey zone phone = Some (v, e) →
  v ≠ "" →
  now w + elapsed cs < e →
  Forall (λ dc : Z * Call, 0 ≤ dc.1 ∧ identity dc.2 = (zone, phone)) cs →
  let out := serve CacheKeySMSCode cfg cs w in
  kv out.2 !! lockKey zone phone = Some (v, e)
  ∧ kv out.2 !! failCountKey zone phone = kv w !! failCountKey zone phone
  ∧ Forall (λ cr, accepted cr = false ∧ is_guess cr = false) out.1.
Proof.
  induction cs as [|[d c] cs IH]; intros w v e Hlock Hv Hel Hall.
  { simpl. by repeat split. }
  apply Forall_cons in Hall as [[Hd Hid] Hall]. simpl in Hd, Hid.
  assert (0 ≤ elapsed cs) as Hpos.
  { apply elapsed_nonneg. eapply Forall_impl; [exact Hall|]. by intros ? []. }
  simpl in Hel. cbv zeta. cbn [serve fst snd].
  assert (now (advance d w) = now w + d) as Hnow1 by done.
  assert (kv (advance d w) = kv w) as Hkv1 by done.
  destruct c as [z p codeType|z p code codeType];
    simpl in Hid; injection Hid as -> ->; cbn [perform] in *.
  - destruct (SendVerifyCode_keeps zone phone codeType (advance d w)
                (failCountKey zone phone)) as [Hn Hf].
    { apply not_eq_sym, rateLimitKey_ne_failCountKey. }
    { apply not_eq_sym, KeyFacts.cacheKey_ne_failCountKey. }
    destruct (SendVerifyCode_keeps zone phone codeType (advance d w)
                (lockKey zone phone)) as [_ Hl].
    { apply not_eq_sym, rateLimitKey_ne_lockKey. }
    { apply not_eq_sym, KeyFacts.cacheKey_ne_lockKey. }
    cbv zeta in Hn, Hf, Hl.
    remember (run (SendVerifyCode CacheKeySMSCode cfg zone phone codeType)
                (advance d w)) as r eqn:Er. clear Er.
    destruct (IH r.2 v e) as (H1 & H2 & H3); try done.
    { by rewrite Hl. } { lia. }
    cbv zeta in H1, H2, H3. rewrite H1, H2, Hf.
    repeat split; try done. by apply Forall_cons.
  - destruct (Verify_while_locked zone phone code codeType (advance d w))
      as (Hr & Hkv & Hn).
    { rewrite (live_until _ _ v e); [done|done|lia]. }
    cbv zeta in Hr, Hkv, Hn.
    remember (run (Verify CacheKeySMSCode zone phone code codeType)
                (advance d w)) as r eqn:Er. clear Er.
    destruct (IH r.2 v e) as (H1 & H2 & H3); try done.
    { by rewrite Hkv. } { lia. }
    cbv zeta in H1, H2, H3. rewrite H1, H2, Hkv.
    repeat split; try done. apply Forall_cons. split; [|done].
    by destruct Hr as [-> | ->].
Qed.


(** *** Counting across calls *)

Lemma wrap_range z : - 2 ^ 63 ≤ GoInt.wrap z < 2 ^ 63.
Proof.
  unfold GoInt.wrap.
  pose proof (Z.mod_pos_bound (z + 2 ^ 63) (2 ^ 64) ltac:(lia)). lia.
Qed.

Lemma storedFailCount_itoa n :
  - 2 ^ 63 ≤ n < 2 ^ 63 → storedFailCount (GoInt.itoa n) = n.
Proof.
  intros Hn. unfold storedFailCount.
  rewrite GoIntFacts.Atoi_itoa by done.
  destruct (String.eqb_spec (GoInt.itoa n) "") as [H|]; [|done].
  by apply GoIntFacts.itoa_nonempty in H.
Qed.

(** X16: the count survives the store.  When a failed [Verify] answers
    with the invalid-code error and the store took its write, the count the
    next call reads back under the failure-count key, parsed as that call
    parses it, is the count this call computed: one more than the count it
    had read, and below the threshold. *)
Theorem Verify_count_round_trip zone phone code codeType w :
  healthy w →
  let r := run (Verify CacheKeySMSCode zone phone code codeType) w in
  r.1 = Some errInvalidCode →
  storedFailCount (live r.2 (failCountKey zone phone))
  = GoInt.incr (storedFailCount (live w (failCountKey zone phone)))
  ∧ storedFailCount (live r.2 (failCountKey zone phone)) < 3.
Proof.
  intros Hh r Hr. subst r.
  destruct (Verify_calm zone phone code codeType w (calm_healthy w Hh))
    as (_ & Hn & [(Hr' & _)|[Hr'|[(_ & _ & Hr' & _)|(_ & H3 & _ & Hkv)]]]);
    try congruence.
  remember (run _ w) as r eqn:Er. clear Er.
  unfold Minute in *.
  rewrite (live_until r.2 _
             (GoInt.itoa (GoInt.incr
                (storedFailCount (live w (failCountKey zone phone)))))
             (now w + 60 * 10)).
  - rewrite storedFailCount_itoa by apply wrap_range. done.
  - by rewrite Hkv, lookup_insert_eq.
  - lia.
Qed.

(** *** Nothing is kept for long *)

Lemma short_lived_insert t key v e (m : gmap string (string * Z)) :
  e ≤ t + 10 * Minute →
  map_Forall (λ (_ : string) (ve : string * Z), ve.2 ≤ t + 10 * Minute) m →
  map_Forall (λ (_ : string) (ve : string * Z), ve.2 ≤ t + 10 * Minute)
    (<[key := (v, e)]> m).
Proof. intros He Hm. by apply map_Forall_insert_2. Qed.

Lemma short_lived_set b t key v e (m : gmap string (string * Z)) :
  e ≤ t + 10 * Minute →
  map_Forall (λ (_ : string) (ve : string * Z), ve.2 ≤ t + 10 * Minute) m →
  map_Forall (λ (_ : string) (ve : string * Z), ve.2 ≤ t + 10 * Minute)
    (set_unless b key v e m).
Proof. destruct b; [done|]. apply short_lived_insert. Qed.

Lemma short_lived_del b t key (m : gmap string (string * Z)) :
  map_Forall (λ (_ : string) (ve : string * Z), ve.2 ≤ t + 10 * Minute) m →
  map_Forall (λ (_ : string) (ve : string * Z), ve.2 ≤ t + 10 * Minute)
    (del_unless b key m).
Proof. destruct b; [done|]. apply map_Forall_delete. Qed.

Lemma Verify_short_lived zone phone code codeType w :
  short_lived w →
  short_lived (run (Verify CacheKeySMSCode zone phone code codeType) w).2.
Proof.
  intros Hs. rewrite Verify_summary. cbv zeta. unfold short_lived in *.
  repeat match goal with
         | |- context [if ?b then _ else _] => destruct b
         end; cbn [snd after kv now];
    repeat first [ assumption
                 | apply short_lived_del
                 | apply short_lived_set; [unfold Minute; lia|] ].
Qed.

Lemma SendVerifyCode_short_lived zone phone codeType w :
  short_lived w →
  short_lived (run (SendVerifyCode CacheKeySMSCode cfg zone phone codeType) w).2.
Proof.
  intros Hs. rewrite SendVerifyCode_summary. cbv zeta.
  destruct (generate4_cases (called (EvGet (rateLimitKey zone phone)) w))
    as (Hkv & Hnow & _).
  remember (run (generateSecureVerifyCode 4) _) as g eqn:Eg. clear Eg.
  unfold short_lived in *.
  destruct (fault_at 0 w); [done|].
  destruct (negb _); [done|].
  destruct (resolveProvider cfg zone); [|done].
  destruct (g.1.2); cbn beta iota delta [fst snd]; [by rewrite Hkv, Hnow|].
  destruct (fault_at 0 g.2); cbn beta iota delta [fst snd];
    [by project; rewrite Hkv, Hnow|].
  destruct (fault_at 1 g.2); cbn beta iota delta [fst snd]; project;
    rewrite ?Hnow; project;
    repeat first [ assumption
                 | apply short_lived_insert; [unfold Minute; lia|] ].
Qed.

(** X17: nothing is kept for long.  In every state the service brings
    about from an empty store, whatever the calls, their order, the faults
    and the time in between, every entry expires within ten minutes: after
    ten minutes without a call no cooldown, code, count or lockout is
    left. *)
Theorem stored_entries_short_lived w :
  reachable CacheKeySMSCode cfg w →
  ∀ key,
    (∀ v e, kv w !! key = Some (v, e) → e ≤ now w + 10 * Minute)
    ∧ (∀ d, 10 * Minute ≤ d → live (advance d w) key = "").
Proof.
  intros Hreach.
  assert (short_lived w) as Hs.
  { induction Hreach as [t fl en|c w _ IH|d w Hd _ IH].
    - apply map_Forall_empty.
    - destruct c; [by apply SendVerifyCode_short_lived
                  |by apply Verify_short_lived].
    - unfold short_lived in *. simpl.
      eapply map_Forall_impl; [exact IH|]. simpl. intros _ [v e]. simpl. lia. }
  intros key.
  assert (∀ v e, kv w !! key = Some (v, e) → e ≤ now w + 10 * Minute) as Hb.
  { intros v e Hkv. by apply (Hs key (v, e)). }
  split; [done|]. intros d Hd. unfold live. simpl.
  destruct (kv w !! key) as [[v e]|] eqn:Hkv; [|done].
  specialize (Hb v e eq_refl).
  destruct (Z.ltb_spec (now w + d) e); [lia|done].
Qed.

(** *** Two issuances at once *)

Lemma SendVerifyCode_step zone phone codeType w :
  (step (SendVerifyCode CacheKeySMSCode cfg zone phone codeType) w).2
  = called (EvGet (rateLimitKey zone phone)) w.
Proof.
  unfold SendVerifyCode. rewrite step_GetString, do_GetString_any.
  by destruct (fault_at 0 w).
Qed.

(** What is left of an issuance once it has found no cooldown mark. *)
Lemma SendVerifyCode_after_check zone phone codeType smsProvider w0 w :
  fault_at 0 w0 = false →
  live w0 (rateLimitKey zone phone) = "" →
  resolveProvider cfg zone = Some smsProvider →
  (∀ i, (i < 7)%nat → fault_at i w = false) →
  ∃ verifyCode w',
    run (step (SendVerifyCode CacheKeySMSCode cfg zone phone codeType) w0).1 w
    = (None, w')
    ∧ kv w' = <[rateLimitKey zone phone := ("1", now w + Minute)]>
                (<[cacheKey CacheKeySMSCode codeType zone phone
                   := (verifyCode, now w + Minute * 5)]> (kv w))
    ∧ now w' = now w
    ∧ (∀ i, fault_at i w' = fault_at (7 + i) w)
    ∧ trace w' = trace w ++
        [EvRand; EvRand; EvRand; EvRand;
         EvSet (cacheKey CacheKeySMSCode codeType zone phone) verifyCode
           (Minute * 5);
         EvSet (rateLimitKey zone phone) "1" Minute;
         EvSend smsProvider zone phone verifyCode].
Proof.
  intros Hf0 Hrate Hp Hf.
  unfold SendVerifyCode. rewrite step_GetString, do_GetString_any.
  rewrite Hf0, Hrate, Hp. cbn beta iota delta [fst snd]. simpl negb. cbv iota.
  rewrite run_bind. unfold generateSecureVerifyCode.
  destruct (generateLoop_ok 4 "" w) as (verifyCode & w1 & -> & Hkv & Hnow
                                        & Hfl & Htr);
    [intros i Hi; apply Hf; lia|].
  cbn beta iota delta [fst snd].
  rewrite run_bind, run_SetAndExpire, do_SetAndExpire_any.
  rewrite Hfl, Hf by lia. cbn beta iota delta [fst snd].
  rewrite run_bind, run_SetAndExpire, do_SetAndExpire_any. fault_now.
  rewrite Hfl, Hf by lia. cbn beta iota delta [fst snd].
  rewrite run_SendSMS. unfold do_SendSMS. fault_now.
  rewrite Hfl, Hf by lia.
  exists verifyCode. eexists. split; [reflexivity|].
  split; [by project; rewrite Hkv, Hnow|]. split; [by project|]. split.
  - intros i. fault_now. by rewrite Hfl.
  - project. rewrite Htr. by rewrite <- !app_assoc.
Qed.

(** X18: the cooldown is a read followed by a separate write.  Two
    issuances for one identity, starting without a cooldown mark: served one
    after the other the second is refused as too frequent; when both read
    the mark before either writes it, both go through, and two codes are
    sent within the minute. *)
Theorem SendVerifyCode_cooldown_not_atomic zone phone codeType1 codeType2
    smsProvider w :
  healthy w →
  live w (rateLimitKey zone phone) = "" →
  resolveProvider cfg zone = Some smsProvider →
  let first := SendVerifyCode CacheKeySMSCode cfg zone phone codeType1 in
  let second := SendVerifyCode CacheKeySMSCode cfg zone phone codeType2 in
  let serial := run_par [] first second w in
  let overlapped := run_par [true; false] first second w in
  serial.1 = (None, Some errTooFrequent)
  ∧ overlapped.1 = (None, None)
  ∧ ∃ code1 code2,
      trace overlapped.2 = trace w ++
        [EvGet (rateLimitKey zone phone); EvGet (rateLimitKey zone phone);
         EvRand; EvRand; EvRand; EvRand;
         EvSet (cacheKey CacheKeySMSCode codeType1 zone phone) code1
           (Minute * 5);
         EvSet (rateLimitKey zone phone) "1" Minute;
         EvSend smsProvider zone phone code1;
         EvRand; EvRand; EvRand; EvRand;
         EvSet (cacheKey CacheKeySMSCode codeType2 zone phone) code2
           (Minute * 5);
         EvSet (rateLimitKey zone phone) "1" Minute;
         EvSend smsProvider zone phone code2].
Proof.
  intros Hh Hrate Hp first second serial overlapped.
  pose proof (calm_healthy w Hh) as Hcalm.
  split.
  { unfold serial, first, second. rewrite run_par_done.
    destruct (SendVerifyCode_stores zone phone codeType1 w smsProvider)
      as (verifyCode & w' & Hrun & _ & _ & Hkv & Hnow & Hfl & _);
      [by intros; apply Hcalm|done|done|].
    rewrite Hrun, Hcalm. cbn beta iota delta [fst snd].
    rewrite SendVerifyCode_summary. cbv zeta.
    rewrite Hfl, Hcalm.
    rewrite (live_until w' _ "1" (now w + Minute));
      [done|by rewrite Hkv, lookup_insert_eq|unfold Minute; lia]. }
  unfold overlapped, first, second.
  rewrite run_par_first, run_par_second, run_par_done.
  rewrite !SendVerifyCode_step.
  set (w2 := called _ (called _ w)).
  destruct (SendVerifyCode_after_check zone phone codeType1 smsProvider w w2)
    as (code1 & w3 & Hrun1 & Hkv3 & Hnow3 & Hfl3 & Htr3);
    [apply Hcalm|done|done|
     intros i _; unfold w2; by rewrite !fault_at_called|].
  rewrite Hrun1. cbn beta iota delta [fst snd].
  destruct (SendVerifyCode_after_check zone phone codeType2 smsProvider
              (called (EvGet (rateLimitKey zone phone)) w) w3)
    as (code2 & w4 & Hrun2 & Hkv4 & Hnow4 & Hfl4 & Htr4);
    [by rewrite fault_at_called|by rewrite live_called|done|
     intros i _; rewrite Hfl3; unfold w2; by rewrite !fault_at_called|].
  rewrite Hrun2. cbn beta iota delta [fst snd].
  split; [done|]. exists code1, code2.
  rewrite Htr4, Htr3. unfold w2. project. by rewrite <- !app_assoc.
Qed.

(** *** Identities *)

Lemma joined_split (zone : string) : ∀ zone' phone phone',
  no_at zone = true → no_at zone' = true →
  zone +:+ "@" +:+ phone = zone' +:+ "@" +:+ phone' →
  zone = zone' ∧ phone = phone'.
Proof.
  induction zone as [|c zone IH]; intros [|c' zone'] phone phone' Hz Hz' H;
    rewrite ?KeyFacts.app_cons, ?KeyFacts.app_nil_l in H; simpl in Hz, Hz'.
  - by injection H.
  - injection H as <- _. done.
  - injection H as -> _. done.
  - injection H as -> H. apply andb_prop in Hz as [_ Hz].
    apply andb_prop in Hz' as [_ Hz'].
    by destruct (IH zone' phone phone' Hz Hz' H) as [-> ->].
Qed.

(** X19: an identity is the string [zone@phone].  Two pairs of zone and
    phone number that give the same string when joined by ['@'] are one
    identity to [Verify], which runs the same program for both, and share
    the cooldown of [SendVerifyCode]; pairs whose zones hold no ['@'] are
    joined to the same string only if they are the same pair. *)
Theorem identity_is_joined_string zone phone zone' phone' :
  zone +:+ "@" +:+ phone = zone' +:+ "@" +:+ phone' →
  (∀ code codeType,
     Verify CacheKeySMSCode zone phone code codeType
     = Verify CacheKeySMSCode zone' phone' code codeType)
  ∧ rateLimitKey zone phone = rateLimitKey zone' phone'
  ∧ (no_at zone = true → no_at zone' = true →
     zone = zone' ∧ phone = phone').
Proof.
  intros H. split; [|split].
  - intros code codeType.
    unfold Verify, lockKey, failCountKey, cacheKey. by rewrite H.
  - unfold rateLimitKey. by rewrite H.
  - intros Hz Hz'. by apply (joined_split zone zone' phone phone').
Qed.

(** X20: a rejected attempt leaves the codes alone.  Whatever the store
    does, a [Verify] that returns an error has not changed the code stored
    for any purpose of the identity. *)
Theorem Verify_rejected_keeps_codes zone phone code codeType w :
  let r := run (Verify CacheKeySMSCode zone phone code codeType) w in
  r.1 ≠ None →
  ∀ codeType',
    kv r.2 !! cacheKey CacheKeySMSCode codeType' zone phone
    = kv w !! cacheKey CacheKeySMSCode codeType' zone phone.
Proof.
  cbv zeta. rewrite Verify_summary. cbv zeta. intros Hr codeType'.
  pose proof (KeyFacts.cacheKey_ne_lockKey CacheKeySMSCode codeType'
                zone phone) as Hl.
  pose proof (KeyFacts.cacheKey_ne_failCountKey CacheKeySMSCode codeType'
                zone phone) as Hf.
  revert Hr.
  destruct (fault_at 0 w); [done|].
  destruct (negb _); [done|].
  destruct (fault_at 1 w); [done|].
  destruct (_ && _); [done|].
  destruct (3 <=? _); intros _; cbn [snd after kv];
    unfold set_unless; destruct (fault_at 3 w); try done;
    by rewrite lookup_insert_ne by (by apply not_eq_sym).
Qed.

End Summaries.

(** ** The message service *)

Module MessageFacts.
Import GoInt Message.

Lemma digit_val_range (c : ascii) (d : Z) : digit_val c = Some d → 0 ≤ d ≤ 9.
Proof.
  unfold digit_val. cbv zeta.
  destruct (Z.leb_spec 48 (Z.of_N (N_of_ascii c)));
    destruct (Z.leb_spec (Z.of_N (N_of_ascii c)) 57); simpl;
    intros [= <-]; lia.
Qed.

Lemma parse_digits_ge (s : string) : ∀ a v,
  0 ≤ a → parse_digits s a = Some v → a ≤ v.
Proof.
  induction s as [|c s IH]; intros a v Ha; simpl.
  - intros [= <-]. lia.
  - destruct (digit_val c) as [d|] eqn:Hd; [|done].
    apply digit_val_range in Hd. intros H%IH; lia.
Qed.

(** Below 2^64 the loop of [ParseUint] reads what the digits say. *)
Lemma ParseUint_loop_digits (s : string) : ∀ a v,
  0 ≤ a → parse_digits s a = Some v → v < 2 ^ 64 →
  ParseUint_loop s a = (v, None).
Proof.
  induction s as [|c s IH]; intros a v Ha; simpl.
  - by intros [= <-].
  - destruct (digit_val c) as [d|] eqn:Hd; [|done].
    apply digit_val_range in Hd. intros Hp Hv.
    assert (a * 10 + d ≤ v) as Hge
      by (apply (parse_digits_ge s); [lia|done]).
    unfold maxUint64.
    change ((2 ^ 64 - 1) / 10 + 1) with 1844674407370955162.
    destruct (Z.leb_spec 1844674407370955162 a) as [Hc|Hc]; [lia|].
    rewrite (Z.mod_small (a * 10)) by lia.
    rewrite (Z.mod_small (a * 10 + d)) by lia.
    destruct (Z.ltb_spec (a * 10 + d) (a * 10)); [lia|].
    destruct (Z.ltb_spec (2 ^ 64 - 1) (a * 10 + d)); [lia|].
    simpl. apply IH; [lia|done|done].
Qed.

Lemma wrap_small z : - 2 ^ 63 ≤ z < 2 ^ 63 → wrap z = z.
Proof. intros H. unfold wrap. rewrite Z.mod_small by lia. lia. Qed.

(** What [%d] prints for an [int64], [ParseInt] reads back without an
    error. *)
Lemma ParseInt_itoa (n : Z) :
  - 2 ^ 63 ≤ n < 2 ^ 63 → ParseInt (itoa n) = (n, None).
Proof.
  intros Hn. unfold itoa. destruct (Z.ltb_spec n 0) as [Hneg|Hpos].
  - destruct (GoIntFacts.utoa_head (- n)) as (c & rest & d & Hu & Hc); [lia|].
    pose proof (GoIntFacts.parse_utoa (- n) ltac:(lia)) as Hp.
    unfold ParseInt. change (Ascii.eqb "-" "-") with true.
    change (Ascii.eqb "-" "+") with false. cbv iota beta zeta. simpl orb.
    cbv iota. unfold ParseUint. rewrite Hu in *.
    rewrite (ParseUint_loop_digits _ 0 (- n)) by (done || lia).
    cbn [fst snd]. simpl negb. simpl andb.
    destruct (Z.ltb_spec (2 ^ 63) (- n)); [lia|]. cbv iota.
    f_equal. destruct (Z.eq_dec n (- 2 ^ 63)) as [->|]; [done|].
    rewrite (wrap_small (- n)) by lia. rewrite Z.opp_involutive.
    apply wrap_small. lia.
  - destruct (GoIntFacts.utoa_head n) as (c & rest & d & Hu & Hc); [lia|].
    pose proof (GoIntFacts.parse_utoa n ltac:(lia)) as Hp.
    destruct (GoIntFacts.digit_not_sign c d Hc) as [Hm Hplus].
    rewrite Hu in *. unfold ParseInt. rewrite Hm, Hplus.
    cbv iota beta zeta. simpl orb. cbv iota. unfold ParseUint.
    rewrite (ParseUint_loop_digits _ 0 n) by (done || lia).
    cbn [fst snd]. simpl negb. simpl andb.
    destruct (Z.leb_spec (2 ^ 63) n); [lia|]. cbv iota.
    f_equal. apply wrap_small. lia.
Qed.

(** Whatever the string, the number is an [int64]. *)
Lemma ParseInt_range (s : string) : - 2 ^ 63 ≤ (ParseInt s).1 < 2 ^ 63.
Proof.
  unfold ParseInt. destruct s as [|c rest]; [simpl; lia|]. cbv zeta.
  destruct (ParseUint _).2 as [[|]|];
    repeat match goal with
           | |- context [if ?b then _ else _] => destruct b
           end; cbn [fst]; try apply wrap_range; lia.
Qed.

(** The append loops build the list a map builds. *)
Lemma append_loop {A B : Type} (f : A → B) (models : list A) : ∀ resps,
  fold_left (λ resps model, resps ++ [f model]) models resps
  = resps ++ map f models.
Proof.
  induction models as [|m models IH]; intros resps; simpl.
  - by rewrite app_nil_r.
  - by rewrite IH, <- app_assoc.
Qed.

Section ServiceFacts.

Variable goerror : Type.
Variable ChannelTypePerson : Z.
Variable CMDConversationDeleted : string.
Variable queryWithUIDAndChannelIDs :
  string → list string → list channelOffsetModel.t * option goerror.
Variable queryDeletedWithMessageIDsAndUID :
  list string → string → list messageUserExtraModel.t * option goerror.
Variable queryRevokedWithMessageIDs :
  list string → list messageExtraModel.t * option goerror.
Variable queryDeletedWithMessageIDs :
  list string → list messageExtraModel.t * option goerror.
Variable IMDeleteConversation : DeleteConversationReq.t → option goerror.
Variable SendCMD : MsgCMDReq.t → option goerror.

(** X21: numeric message ids.  For a row whose [MessageID] is the decimal
    form of a 64-bit integer, as [%d] prints it, [newMsgExtraResp] returns
    that integer as [MessageID], next to the string itself: printing the
    number gives the string again. *)
Theorem newMsgExtraResp_round_trip (m : messageExtraModel.t) (n : Z) :
  - 2 ^ 63 ≤ n < 2 ^ 63 →
  messageExtraModel.MessageID m = itoa n →
  messageExtraResp.MessageID (newMsgExtraResp m) = n
  ∧ itoa (messageExtraResp.MessageID (newMsgExtraResp m))
    = messageExtraResp.MessageIDStr (newMsgExtraResp m).
Proof.
  intros Hn Hm. unfold newMsgExtraResp. simpl.
  by rewrite Hm, ParseInt_itoa.
Qed.

(** X22: ids that are not numbers.  [newMsgExtraResp] drops the error of
    [ParseInt]: a row whose [MessageID] is empty, or starts with a character
    that is neither a sign nor a decimal digit, is answered with the numeric
    id 0, the string kept as it is; and whatever the string, the numeric id
    is a 64-bit integer. *)
Theorem newMsgExtraResp_bad_id (m : messageExtraModel.t) :
  let resp := newMsgExtraResp m in
  messageExtraResp.MessageIDStr resp = messageExtraModel.MessageID m
  ∧ - 2 ^ 63 ≤ messageExtraResp.MessageID resp < 2 ^ 63
  ∧ (match messageExtraModel.MessageID m with
     | EmptyString => True
     | String c _ =>
         digit_val c = None ∧ c ≠ "+"%char ∧ c ≠ "-"%char
     end →
     messageExtraResp.MessageID resp = 0).
Proof.
  cbv zeta. unfold newMsgExtraResp. simpl.
  split; [done|]. split; [apply ParseInt_range|].
  destruct (messageExtraModel.MessageID m) as [|c rest]; [done|].
  intros (Hd & Hp%Ascii.eqb_neq & Hm%Ascii.eqb_neq).
  unfold ParseInt. rewrite Hp, Hm. cbv iota beta zeta. simpl orb. cbv iota.
  unfold ParseUint. simpl. by rewrite Hd.
Qed.

(** X23: revoked and deleted messages.  [GetRevokedMessages] and
    [GetDeletedMessages] return the nil list without asking the database
    when no id is given; otherwise they ask once, pass a database error on
    with the nil list, and else return one response per row, in the order
    of the rows, each made by [newMsgExtraResp]: a non-nil list also when
    there is no row. *)
Theorem GetRevokedMessages_rows (messageIDs : list string) :
  let revoked := GetRevokedMessages goerror queryRevokedWithMessageIDs
                   messageIDs in
  let deleted := GetDeletedMessages goerror queryDeletedWithMessageIDs
                   messageIDs in
  (messageIDs = [] →
   revoked = ((None, None), []) ∧ deleted = ((None, None), []))
  ∧ (messageIDs ≠ [] →
     revoked.2 = [CallQueryRevokedWithMessageIDs messageIDs]
     ∧ deleted.2 = [CallQueryDeletedWithMessageIDs messageIDs]
     ∧ revoked.1
       = match (queryRevokedWithMessageIDs messageIDs).2 with
         | Some err => (None, Some err)
         | None =>
             (Some (map newMsgExtraResp
                      (queryRevokedWithMessageIDs messageIDs).1), None)
         end
     ∧ deleted.1
       = match (queryDeletedWithMessageIDs messageIDs).2 with
         | Some err => (None, Some err)
         | None =>
             (Some (map newMsgExtraResp
                      (queryDeletedWithMessageIDs messageIDs).1), None)
         end).
Proof.
  cbv zeta. unfold GetRevokedMessages, GetDeletedMessages.
  split; [by intros ->|]. intros Hne.
  destruct messageIDs as [|x ids]; [done|]. simpl Nat.eqb. cbv iota.
  destruct (queryRevokedWithMessageIDs (x :: ids)) as [models [e|]],
    (queryDeletedWithMessageIDs (x :: ids)) as [models' [e'|]];
    cbn [fst snd]; rewrite ?append_loop; done.
Qed.

(** X24: messages a user deleted.  [GetDeletedMessagesWithUID] returns the
    nil list without asking the database when no id is given; otherwise it
    asks once, passes a database error on, and else answers row by row, in
    order: every field copied, the id also as a 64-bit number. *)
Theorem GetDeletedMessagesWithUID_rows (uid : string)
    (messageIDs : list string) :
  let out := GetDeletedMessagesWithUID goerror
               queryDeletedWithMessageIDsAndUID uid messageIDs in
  (messageIDs = [] → out = ((None, None), []))
  ∧ (messageIDs ≠ [] →
     out.2 = [CallQueryDeletedWithMessageIDsAndUID messageIDs uid]
     ∧ match (queryDeletedWithMessageIDsAndUID messageIDs uid).2 with
       | Some err => out.1 = (None, Some err)
       | None =>
           ∃ resps,
             out.1 = (Some resps, None)
             ∧ Forall2
                 (λ model resp,
                    messageUserExtraResp.MessageIDStr resp
                    = messageUserExtraModel.MessageID model
                    ∧ messageUserExtraResp.MessageID resp
                      = (ParseInt (messageUserExtraModel.MessageID model)).1
                    ∧ - 2 ^ 63 ≤ messageUserExtraResp.MessageID resp < 2 ^ 63
                    ∧ messageUserExtraResp.ChannelID resp
                      = messageUserExtraModel.ChannelID model
                    ∧ messageUserExtraResp.ChannelType resp
                      = messageUserExtraModel.ChannelType model
                    ∧ messageUserExtraResp.MessageSeq resp
                      = messageUserExtraModel.MessageSeq model
                    ∧ messageUserExtraResp.MessageIsDeleted resp
                      = messageUserExtraModel.MessageIsDeleted model
                    ∧ messageUserExtraResp.VoiceReaded resp
                      = messageUserExtraModel.VoiceReaded model)
                 (queryDeletedWithMessageIDsAndUID messageIDs uid).1 resps
       end).
Proof.
  cbv zeta. unfold GetDeletedMessagesWithUID.
  split; [by intros ->|]. intros Hne.
  destruct messageIDs as [|x ids]; [done|]. simpl Nat.eqb. cbv iota.
  destruct (queryDeletedWithMessageIDsAndUID (x :: ids) uid)
    as [models [e|]]; cbn [fst snd]; [done|].
  split; [done|]. eexists. split; [reflexivity|].
  rewrite append_loop. simpl app. apply Forall2_fmap_r, Forall_Forall2_diag.
  apply Forall_forall. intros model _. simpl.
  repeat split; try done; apply ParseInt_range.
Qed.

(** X25: channel offsets.  [GetChannelOffsetWithUID] returns the nil list
    without asking the database when no channel is given; otherwise it asks
    once, passes a database error on, and else answers row by row, in
    order, with the three fields of the row. *)
Theorem GetChannelOffsetWithUID_rows (uid : string)
    (channelIDs : list string) :
  let out := GetChannelOffsetWithUID goerror queryWithUIDAndChannelIDs
               uid channelIDs in
  (channelIDs = [] → out = ((None, None), []))
  ∧ (channelIDs ≠ [] →
     out.2 = [CallQueryWithUIDAndChannelIDs uid channelIDs]
     ∧ match (queryWithUIDAndChannelIDs uid channelIDs).2 with
       | Some err => out.1 = (None, Some err)
       | None =>
           ∃ resps,
             out.1 = (Some resps, None)
             ∧ Forall2
                 (λ model resp,
                    channelOffsetResp.ChannelID resp
                    = channelOffsetModel.ChannelID model
                    ∧ channelOffsetResp.ChannelType resp
                      = channelOffsetModel.ChannelType model
                    ∧ channelOffsetResp.MessageSeq resp
                      = channelOffsetModel.MessageSeq model)
                 (queryWithUIDAndChannelIDs uid channelIDs).1 resps
       end).
Proof.
  cbv zeta. unfold GetChannelOffsetWithUID.
  split; [by intros ->|]. intros Hne.
  destruct channelIDs as [|x ids]; [done|]. simpl Nat.eqb. cbv iota.
  destruct (queryWithUIDAndChannelIDs uid (x :: ids))
    as [models [e|]]; cbn [fst snd]; [done|].
  split; [done|]. eexists. split; [reflexivity|].
  rewrite append_loop. simpl app. apply Forall2_fmap_r, Forall_Forall2_diag.
  apply Forall_forall. by intros model _.
Qed.

(** X26: deleting a conversation.  [DeleteConversation] first asks the IM
    server; when that fails it returns the error and sends no command.
    Otherwise it sends one command, to the personal channel of the user
    (not to the deleted channel), naming the channel deleted, and returns
    what the sending returned: an error then does not undo the deletion. *)
Theorem DeleteConversation_order (uid channelID : string) (channelType : Z) :
  let out := DeleteConversation goerror ChannelTypePerson
               CMDConversationDeleted IMDeleteConversation SendCMD
               uid channelID channelType in
  let req := DeleteConversationReq.mk channelID channelType uid in
  match IMDeleteConversation req with
  | Some err => out = (Some err, [CallIMDeleteConversation req])
  | None =>
      ∃ cmd,
        out = (SendCMD cmd, [CallIMDeleteConversation req; CallSendCMD cmd])
        ∧ MsgCMDReq.ChannelID cmd = uid
        ∧ MsgCMDReq.ChannelType cmd = ChannelTypePerson
        ∧ MsgCMDReq.CMD cmd = CMDConversationDeleted
        ∧ MsgCMDReq.Param cmd !! "channel_id" = Some (ParamString channelID)
        ∧ MsgCMDReq.Param cmd !! "channel_type"
          = Some (ParamUint8 channelType)
        ∧ size (MsgCMDReq.Param cmd) = 2%nat
  end.
Proof.
  cbv zeta. unfold DeleteConversation.
  destruct (IMDeleteConversation _); [done|].
  exists (MsgCMDReq.mk uid ChannelTypePerson CMDConversationDeleted
            (<["channel_type" := ParamUint8 channelType]>
               (<["channel_id" := ParamString channelID]> ∅))).
  split; [by destruct (SendCMD _)|]. simpl.
  repeat split.
Qed.

End ServiceFacts.

End MessageFacts.

(** ** The further properties in the scenario *)

Import Mishaps.

Lemma Verify_accepts_only_match_witness :
  (run (Verify smscode zone phone "3452" login) issued).1 = None
  ∧ live issued (lockKey zone phone) = ""
  ∧ live issued (cacheKey smscode login zone phone) = "3452".
Proof.
  assert (H : run (Verify smscode zone phone "3452" login) issued
              = (None, (run (Verify smscode zone phone "3452" login) issued).2))
    by (by vm_compute).
  split; [by rewrite H|].
  destruct (Verify_accepts_only_match smscode zone phone "3452" login
              issued _ H) as (_ & _ & Hl & Hc & _).
  by split.
Defined.

Lemma Verify_read_error_witness :
  fault_at 0 lock_read_fails = true
  ∧ ∃ w',
      run (Verify smscode zone phone "3452" login) lock_read_fails
      = (Some errRedis, w')
      ∧ kv w' = kv lock_read_fails.
Proof.
  assert (H : fault_at 0 lock_read_fails = true) by reflexivity.
  split; [exact H|].
  destruct (Verify_read_error smscode zone phone "3452" login lock_read_fails
              (or_introl H)) as (w' & E & _ & Hkv & _).
  by exists w'.
Defined.

Lemma Verify_write_error_swallowed_witness :
  fault_at 3 count_write_fails = true
  ∧ live count_write_fails (lockKey zone phone) = ""
  ∧ live count_write_fails (cacheKey smscode login zone phone) = ""
  ∧ ∃ w',
      run (Verify smscode zone phone "0000" login) count_write_fails
      = (Some errInvalidCode, w')
      ∧ kv w' = kv count_write_fails.
Proof.
  assert (H3 : fault_at 3 count_write_fails = true) by reflexivity.
  assert (Hl : live count_write_fails (lockKey zone phone) = "")
    by (by vm_compute).
  assert (Hc : live count_write_fails (cacheKey smscode login zone phone) = "")
    by (by vm_compute).
  repeat (split; [assumption|]).
  destruct (Verify_write_error_swallowed smscode zone phone "0000" login
              count_write_fails eq_refl eq_refl eq_refl H3 Hl (or_introl Hc))
    as (w' & E & Hkv & _).
  by exists w'.
Defined.

Lemma SendVerifyCode_rand_failure_witness :
  fault_at 3 draw_fails = true
  ∧ live draw_fails (rateLimitKey zone phone) = ""
  ∧ resolveProvider unisms zone = Some UnismsProvider
  ∧ ∃ w',
      run (SendVerifyCode smscode unisms zone phone login) draw_fails
      = (Some errSystem, w')
      ∧ kv w' = kv draw_fails.
Proof.
  assert (Hf : fault_at 3 draw_fails = true) by reflexivity.
  assert (Hr : live draw_fails (rateLimitKey zone phone) = "")
    by (by vm_compute).
  assert (Hp : resolveProvider unisms zone = Some UnismsProvider)
    by reflexivity.
  repeat (split; [assumption|]).
  destruct (SendVerifyCode_rand_failure smscode unisms zone phone login
              draw_fails UnismsProvider 2 eq_refl Hr Hp ltac:(lia) Hf)
    as (w' & k & E & _ & Hkv & _).
  by exists w'.
Defined.

Lemma SendVerifyCode_store_error_witness :
  fault_at 5 code_write_fails = true
  ∧ live code_write_fails (rateLimitKey zone phone) = ""
  ∧ ∃ w',
      run (SendVerifyCode smscode unisms zone phone login) code_write_fails
      = (Some errRedis, w')
      ∧ kv w' = kv code_write_fails.
Proof.
  assert (Hf : fault_at 5 code_write_fails = true) by reflexivity.
  assert (Hr : live code_write_fails (rateLimitKey zone phone) = "")
    by (by vm_compute).
  repeat (split; [assumption|]).
  assert (Hn : ∀ i, (i < 5)%nat → fault_at i code_write_fails = false).
  { intros i Hi. do 5 (destruct i as [|i]; [reflexivity|]). lia. }
  destruct (SendVerifyCode_store_error smscode unisms zone phone login
              code_write_fails
              (or_intror (conj Hn (conj Hr (conj (mk_is_Some _ _ eq_refl) Hf)))))
    as (w' & E & _ & Hkv & _).
  by exists w'.
Defined.

Lemma SendVerifyCode_mark_write_fails_witness :
  fault_at 6 mark_write_fails = true
  ∧ live mark_write_fails (rateLimitKey zone phone) = ""
  ∧ ∃ w',
      run (SendVerifyCode smscode unisms zone phone login) mark_write_fails
      = (Some errRedis, w')
      ∧ live w' (rateLimitKey zone phone) = "".
Proof.
  assert (Hf : fault_at 6 mark_write_fails = true) by reflexivity.
  assert (Hr : live mark_write_fails (rateLimitKey zone phone) = "")
    by (by vm_compute).
  repeat (split; [assumption|]).
  assert (Hn : ∀ i, (i < 6)%nat → fault_at i mark_write_fails = false).
  { intros i Hi. do 6 (destruct i as [|i]; [reflexivity|]). lia. }
  destruct (SendVerifyCode_mark_write_fails smscode unisms zone phone login
              mark_write_fails UnismsProvider Hn Hf Hr eq_refl)
    as (verifyCode & w' & E & _ & _ & _ & Hl & _).
  by exists w'.
Defined.


Lemma issued_code_verifies_witness :
  live delivery_fails (rateLimitKey zone phone) = ""
  ∧ live delivery_fails (lockKey zone phone) = ""
  ∧ let sent := run (SendVerifyCode smscode unisms zone phone login)
                  delivery_fails in
    ∃ verifyCode,
      sent.1 = Some errProvider
      ∧ (run (Verify smscode zone phone verifyCode login)
           (advance 299 sent.2)).1 = None.
Proof.
  assert (Hr : live delivery_fails (rateLimitKey zone phone) = "")
    by (by vm_compute).
  assert (Hl : live delivery_fails (lockKey zone phone) = "")
    by (by vm_compute).
  repeat (split; [assumption|]).
  assert (Hn : ∀ i, i ≠ 7%nat → fault_at i delivery_fails = false).
  { intros i Hi. do 7 (destruct i as [|i]; [reflexivity|]).
    destruct i as [|i]; [done|]. by destruct i. }
  destruct (issued_code_verifies smscode unisms zone phone login
              delivery_fails UnismsProvider 299 Hn Hr Hl eq_refl
              ltac:(unfold Minute; lia))
    as (verifyCode & E & _ & Hv).
  by exists verifyCode.
Defined.

Lemma issued_code_expires_witness :
  healthy fresh
  ∧ live fresh (rateLimitKey zone phone) = ""
  ∧ live fresh (lockKey zone phone) = ""
  ∧ live fresh (failCountKey zone phone) = ""
  ∧ let sent := run (SendVerifyCode smscode unisms zone phone login) fresh in
    ∃ verifyCode,
      last (trace sent.2) = Some (EvSend UnismsProvider zone phone verifyCode)
      ∧ (run (Verify smscode zone phone verifyCode login)
           (advance 300 sent.2)).1 = Some errInvalidCode.
Proof.
  assert (Hh : healthy fresh) by (by constructor).
  assert (Hr : live fresh (rateLimitKey zone phone) = "") by (by vm_compute).
  assert (Hl : live fresh (lockKey zone phone) = "") by (by vm_compute).
  assert (Hc : live fresh (failCountKey zone phone) = "") by (by vm_compute).
  repeat (split; [assumption|]).
  destruct (issued_code_expires smscode unisms zone phone login
              fresh UnismsProvider 300
              (λ i _, healthy_fault_at i fresh Hh) Hr Hl Hc eq_refl
              ltac:(unfold Minute; lia))
    as (verifyCode & Hs & w' & E & _).
  exists verifyCode. split; [exact Hs|]. by rewrite E.
Defined.

Lemma issued_code_other_purpose_witness :
  healthy fresh
  ∧ live fresh (rateLimitKey zone phone) = ""
  ∧ live fresh (cacheKey smscode 2 zone phone) = ""
  ∧ let sent := run (SendVerifyCode smscode unisms zone phone login) fresh in
    ∃ verifyCode,
      last (trace sent.2) = Some (EvSend UnismsProvider zone phone verifyCode)
      ∧ (run (Verify smscode zone phone verifyCode 2)
           (advance 30 sent.2)).1 ≠ None.
Proof.
  assert (Hh : healthy fresh) by (by constructor).
  assert (Hr : live fresh (rateLimitKey zone phone) = "") by (by vm_compute).
  assert (Hc : live fresh (cacheKey smscode 2 zone phone) = "")
    by (by vm_compute).
  repeat (split; [assumption|]).
  apply (issued_code_other_purpose smscode unisms zone phone login 2
           fresh UnismsProvider 30
           (λ i _, healthy_fault_at i fresh Hh) Hr eq_refl);
    unfold login; lia || done.
Defined.

Lemma guesses_bounded_witness :
  healthy fresh
  ∧ live fresh (failCountKey zone phone) = ""
  ∧ elapsed guessing < 10 * Minute
  ∧ (length (filter is_guess (serve smscode unisms guessing fresh).1) ≤ 3)%nat.
Proof.
  assert (Hh : healthy fresh) by (by constructor).
  assert (Hc : live fresh (failCountKey zone phone) = "") by (by vm_compute).
  assert (He : elapsed guessing < 10 * Minute) by (by vm_compute).
  repeat (split; [assumption|]).
  apply (guesses_bounded smscode unisms zone phone guessing fresh Hh Hc);
    [|exact He|].
  - unfold guessing. repeat constructor; simpl; lia.
  - vm_compute. repeat constructor.
Defined.

Lemma lockout_holds_witness :
  kv locked !! lockKey zone phone = Some ("1", 1600)
  ∧ now locked + elapsed knocking < 1600
  ∧ let out := serve smscode unisms knocking locked in
    kv out.2 !! lockKey zone phone = Some ("1", 1600)
    ∧ Forall (λ cr, accepted cr = false ∧ is_guess cr = false) out.1.
Proof.
  assert (Hk : kv locked !! lockKey zone phone = Some ("1", 1600))
    by (by vm_compute).
  assert (He : now locked + elapsed knocking < 1600) by (by vm_compute).
  split; [exact Hk|]. split; [exact He|].
  destruct (lockout_holds smscode unisms zone phone knocking locked "1" 1600
              Hk ltac:(done) He) as (H1 & _ & H3).
  - unfold knocking. repeat constructor; simpl; lia.
  - split; [exact H1|exact H3].
Defined.

Lemma Verify_count_round_trip_witness :
  healthy fresh
  ∧ (run (Verify smscode zone phone "0000" login) fresh).1
    = Some errInvalidCode
  ∧ storedFailCount
      (live (run (Verify smscode zone phone "0000" login) fresh).2
         (failCountKey zone phone))
    = GoInt.incr (storedFailCount (live fresh (failCountKey zone phone))).
Proof.
  assert (Hh : healthy fresh) by (by constructor).
  assert (Hr : (run (Verify smscode zone phone "0000" login) fresh).1
               = Some errInvalidCode) by (by vm_compute).
  repeat (split; [assumption|]).
  apply (Verify_count_round_trip smscode zone phone "0000" login fresh Hh Hr).
Defined.

Lemma stored_entries_short_lived_witness :
  let w := (run (perform smscode unisms
                   (CallSendVerifyCode zone phone login)) fresh).2 in
  reachable smscode unisms w
  ∧ ∀ key, live (advance 600 w) key = "".
Proof.
  cbv zeta.
  assert (Hreach : reachable smscode unisms
            (run (perform smscode unisms
                    (CallSendVerifyCode zone phone login)) fresh).2)
    by apply reachable_call, (reachable_start smscode unisms 1000 [] [3; 4; 5; 2]).
  split; [exact Hreach|]. intros key.
  apply (stored_entries_short_lived smscode unisms _ Hreach key).
  unfold Minute. lia.
Defined.

Lemma SendVerifyCode_cooldown_not_atomic_witness :
  healthy two_codes
  ∧ live two_codes (rateLimitKey zone phone) = ""
  ∧ let first := SendVerifyCode smscode unisms zone phone login in
    let second := SendVerifyCode smscode unisms zone phone 2 in
    (run_par [] first second two_codes).1 = (None, Some errTooFrequent)
    ∧ (run_par [true; false] first second two_codes).1 = (None, None).
Proof.
  assert (Hh : healthy two_codes) by (by constructor).
  assert (Hr : live two_codes (rateLimitKey zone phone) = "")
    by (by vm_compute).
  repeat (split; [assumption|]).
  destruct (SendVerifyCode_cooldown_not_atomic smscode unisms zone phone
              login 2 UnismsProvider two_codes Hh Hr eq_refl)
    as (H1 & H2 & _).
  by split.
Defined.

Lemma identity_is_joined_string_witness :
  "0086" +:+ "@" +:+ "1@2" = "0086@1" +:+ "@" +:+ "2"
  ∧ (∀ code codeType,
       Verify smscode "0086" "1@2" code codeType
       = Verify smscode "0086@1" "2" code codeType)
  ∧ rateLimitKey "0086" "1@2" = rateLimitKey "0086@1" "2".
Proof.
  assert (H : "0086" +:+ "@" +:+ "1@2" = "0086@1" +:+ "@" +:+ "2")
    by reflexivity.
  split; [exact H|].
  destruct (identity_is_joined_string smscode "0086" "1@2" "0086@1" "2" H)
    as (Hv & Hk & _).
  by split.
Defined.

Lemma Verify_rejected_keeps_codes_witness :
  (run (Verify smscode zone phone "0000" login) issued).1 ≠ None
  ∧ kv (run (Verify smscode zone phone "0000" login) issued).2
      !! cacheKey smscode login zone phone
    = Some ("3452", 1300).
Proof.
  assert (H : (run (Verify smscode zone phone "0000" login) issued).1 ≠ None)
    by (by vm_compute).
  split; [exact H|].
  rewrite (Verify_rejected_keeps_codes smscode zone phone "0000" login
             issued H login).
  by vm_compute.
Defined.

Lemma newMsgExtraResp_round_trip_witness :
  Message.messageExtraModel.MessageID row = GoInt.itoa 1850954375428571136
  ∧ Message.messageExtraResp.MessageID (Message.newMsgExtraResp row)
    = 1850954375428571136.
Proof.
  assert (H : Message.messageExtraModel.MessageID row
              = GoInt.itoa 1850954375428571136) by (by vm_compute).
  split; [exact H|].
  apply (MessageFacts.newMsgExtraResp_round_trip row 1850954375428571136);
    [lia|exact H].
Defined.
